(** * ServerGameState: the server-side entity replication engine

    A shallow embedding of
    [code/components/citizen-server-impl/src/state/ServerGameState.cpp]
    and the properties of its ingress parser, acknowledgement state,
    object-id pool, drop handler and sync pacing.

    Conventions of the embedding:
    - unsigned integers ([uint16_t] object ids, net ids, slot ids, frame
      indices) are [N]; a [Read] of [w] bits yields a value below [2^w];
    - a bitset is an [N] whose bit [i] is element [i];
    - [float] values are exact rationals ([Q]); every concrete value used
      below is a small integer, on which [float] arithmetic is exact;
    - a [shared_ptr] is the address ([nat]) of the object it points to, a
      [weak_ptr] is an optional address that locks only while the object is
      still held by its owner (the entity list, the client registry);
    - the net thread's view is modelled: locks are not, and work handed to
      another thread is a separate step; a callback or command that holds
      a [shared_ptr] to an entity or a client finds it in the state as
      long as the entity list or the registry holds it;
    - the script-GUID pool, the message buffer and the other classes of
      the repository that are declared outside this source file are
      modelled from the specification; what comes from outside the
      repository (lz4, glm, the sync trees) is a parameter. *)

From Stdlib Require Import QArith.
From stdpp Require Import base tactics option list numbers gmap sorting.

Local Open Scope N_scope.

(** ** Bitsets *)

(** [std::bitset] and [eastl::bitset]. The widths of the per-slot bitsets
    are declared in headers that are not among the sources, and every
    index into the object-id bitsets comes from a 13-bit field or from an
    entity handle built from one; the widths are therefore left out, and
    an index is assumed to be in range, as the source assumes. *)
Module Bitset.
Definition t := N.

Definition empty : t := 0.
Definition test (b : t) (i : N) : bool := N.testbit b i.
Definition set (b : t) (i : N) : t := N.setbit b i.
Definition reset (b : t) (i : N) : t := N.clearbit b i.
Definition any (b : t) : bool := negb (b =? 0).
End Bitset.

(** ** rl::MessageBuffer *)

(** Modelled from the spec: the class [rl::MessageBuffer] (NetBuffer.h and
    the state headers are not among the sources). "Fixed-capacity byte
    buffer accessed as a bit stream", with [Write(width, value)] and
    [Read(width)], [GetCurrentBit]/[SetCurrentBit], [IsAtEnd]; "within a
    byte, bits are packed most-significant-first"; "no error is raised on
    write overflow other than a boolean return". [mb_data] is the content
    from bit 0 on (bits past its end are zero), [mb_maxBit] the capacity in
    bits. *)
Record MessageBuffer := mkMessageBuffer {
  mb_data : list bool;
  mb_curBit : N;
  mb_maxBit : N
}.

Definition MessageBuffer_new (bytes : N) : MessageBuffer :=
  mkMessageBuffer [] 0 (8 * bytes).

(** A buffer over received data, as [ParseClonePacket] builds it. *)
Definition MessageBuffer_of_bits (bits : list bool) : MessageBuffer :=
  mkMessageBuffer bits 0 (N.of_nat (length bits)).

(** The [width] low bits of [value], most significant first. *)
Fixpoint bits_of (width : nat) (value : N) : list bool :=
  match width with
  | O => []
  | S w => N.testbit value (N.of_nat w) :: bits_of w value
  end.

(** The number whose binary digits, most significant first, are [bits]. *)
Definition value_of (bits : list bool) : N :=
  fold_left (fun acc (b : bool) => 2 * acc + (if b then 1 else 0)) bits 0.

Definition pad_to (n : nat) (l : list bool) : list bool :=
  l ++ replicate (n - length l) false.

Definition GetCurrentBit (b : MessageBuffer) : N := mb_curBit b.

Definition SetCurrentBit (n : N) (b : MessageBuffer) : MessageBuffer :=
  mkMessageBuffer (mb_data b) n (mb_maxBit b).

Definition IsAtEnd (b : MessageBuffer) : bool :=
  mb_maxBit b <=? mb_curBit b.

(** Modelled from the spec: [GetDataLength] of [rl::MessageBuffer], the
    bytes up to the cursor, a started byte counting as one. *)
Definition GetDataLength (b : MessageBuffer) : N :=
  mb_curBit b / 8 + (if mb_curBit b mod 8 =? 0 then 0 else 1).

(** Modelled from the spec: [WriteBits] of [rl::MessageBuffer]. The bits go
    in at the cursor; "no error is raised on write overflow other than a
    boolean return": [false] and no change when they do not fit. *)
Definition WriteBits (bits : list bool) (b : MessageBuffer) : MessageBuffer * bool :=
  let cur := N.to_nat (mb_curBit b) in
  let len := length bits in
  if mb_curBit b + N.of_nat len <=? mb_maxBit b
  then (mkMessageBuffer
          (take cur (pad_to cur (mb_data b)) ++ bits ++ drop (cur + len) (mb_data b))
          (mb_curBit b + N.of_nat len) (mb_maxBit b), true)
  else (b, false).

(** Modelled from the spec: [Write(width, value)] of [rl::MessageBuffer];
    the engine does not look at its result. *)
Definition Write (width : nat) (value : N) (b : MessageBuffer) : MessageBuffer :=
  fst (WriteBits (bits_of width value) b).

(** Modelled from the spec: [ReadBits] of [rl::MessageBuffer]. The next
    [nbits] bits; the cursor always advances, and bits past the end of the
    data read as zero, so that a "premature end" reads as tag 0 and ends
    the frame. *)
Definition ReadBits (nbits : nat) (b : MessageBuffer) : list bool * MessageBuffer :=
  (take nbits (drop (N.to_nat (mb_curBit b)) (mb_data b) ++ replicate nbits false),
   mkMessageBuffer (mb_data b) (mb_curBit b + N.of_nat nbits) (mb_maxBit b)).

(** Modelled from the spec: [Read(width)] of [rl::MessageBuffer], the next
    [width] bits as a number. *)
Definition Read (width : nat) (b : MessageBuffer) : N * MessageBuffer :=
  (value_of (fst (ReadBits width b)), snd (ReadBits width b)).

(** The first [GetDataLength] bytes of the buffer, as bits. *)
Definition payload_of (b : MessageBuffer) : list bool :=
  let n := (8 * N.to_nat (GetDataLength b))%nat in
  take n (pad_to n (mb_data b)).

(** ** Packets handed to the transport *)

Inductive MsgType := msgPackedAcks | msgPackedClones | msgWorldGrid | msgObjectIds.

(** What [client->SendPacket] is given: the frame header and the payload
    before LZ4 compression. *)
Record OutPacket := mkOutPacket {
  pk_to : nat;
  pk_msgType : MsgType;
  pk_frameIndex : N;
  pk_payload : list bool
}.

(** A packet that is not a frame of records: the (gap, run) pairs of
    [msgObjectIds], or the world grid, whose bytes are not modelled. *)
Inductive OutMessage :=
  | Frame (p : OutPacket)
  | ObjectIds (to : nat) (pairs : list (Z * Z))
  | WorldGrid (to : nat).

(** [LZ4_compressBound] of lz4.h, which is not among the sources:
    [LZ4_COMPRESSBOUND(isize)] is [isize + isize/255 + 16], and 0 above
    [LZ4_MAX_INPUT_SIZE = 0x7E000000]. *)
Definition lz4_compressBound (isize : N) : N :=
  if 0x7E000000 <? isize then 0 else isize + isize / 255 + 16.

Section Flush.
(** The bound is a parameter of the flush functions. *)
Variable LZ4_compressBound : N -> N.

Definition FlushBuffer (buffer : MessageBuffer) (msgType : MsgType)
    (frameIndex : N) (client : nat) : MessageBuffer * list OutPacket :=
  if 0 <? GetDataLength buffer then
    (* end *)
    let buffer := Write 3 7 buffer in
    (* compress and send *)
    let pkt := mkOutPacket client msgType frameIndex (payload_of buffer) in
    (SetCurrentBit 0 buffer, [pkt])
  else (buffer, []).

Definition MaybeFlushBuffer (buffer : MessageBuffer) (msgType : MsgType)
    (frameIndex : N) (client : nat) : MessageBuffer * list OutPacket :=
  if 1100 <? LZ4_compressBound (GetDataLength buffer)
  then FlushBuffer buffer msgType frameIndex client
  else (buffer, []).
End Flush.

(** ** Data model *)

Definition vec3 : Type := Q * Q * Q.
Definition vec4 : Type := Q * Q * Q * Q.
(** [glm::mat4x4], as its four columns. *)
Definition mat4 : Type := vec4 * vec4 * vec4 * vec4.

Definition mat4_identity : mat4 :=
  ((1, 0, 0, 0), (0, 1, 0, 0), (0, 0, 1, 0), (0, 0, 0, 1))%Q.

(** [sync::NetObjEntityType]: the enumerators the engine names. The enum is
    declared in a header that is not among the sources, so a value read
    from the wire is turned into a type by a parameter. *)
Inductive NetObjEntityType :=
  | Automobile | Bike | Boat | Heli | Plane | Submarine | Trailer | Train
  | Ped | Player | Object | OtherType (wire : N).

Global Instance NetObjEntityType_eq_dec : EqDecision NetObjEntityType.
Proof. solve_decision. Defined.

(** [sync::NodeBase], the surface of a sync-tree node the engine uses. *)
Record NodeBase := mkNodeBase {
  node_frameIndex : N;
  ackedPlayers : Bitset.t
}.

Record CPlayerCameraNodeData := mkCamera {
  camMode : N;
  freeCamPos : vec3;
  camOff : vec3;
  cameraX : Q;
  cameraZ : Q
}.

Record CVehicleGameStateNodeData := mkVehicleData {
  occupants : list N;
  playerOccupants : Bitset.t
}.

Record CPedGameStateNodeData := mkPedData {
  curVehicle : Z;
  curVehicleSeat : Z;
  lastVehicle : Z;
  lastVehicleSeat : Z
}.

(** The sync tree is opaque to the engine, which visits its nodes, asks it
    for a position, a camera and the vehicle and ped game state, and has
    it parse a payload. *)
Record SyncTree := mkSyncTree {
  tree_nodes : list NodeBase;
  tree_position : vec3;
  tree_playerCamera : option CPlayerCameraNodeData;
  tree_vehicleGameState : option CVehicleGameStateNodeData;
  tree_pedGameState : option CPedGameStateNodeData
}.

(** [syncTree->Visit(fn)] with a visitor that rewrites every node. *)
Definition Visit (f : NodeBase -> NodeBase) (t : SyncTree) : SyncTree :=
  mkSyncTree (map f (tree_nodes t)) (tree_position t) (tree_playerCamera t)
    (tree_vehicleGameState t) (tree_pedGameState t).

(** [sync::SyncEntityState]. [e_addr] is the identity of the object; the
    per-slot arrays [lastSyncs] and [lastResends] are maps whose missing
    entries are 0 ms; [guid] points to a slot of the script-GUID pool, by
    its index. *)
Record SyncEntityState := mkEntity {
  e_addr : nat;
  e_client : option nat;
  e_type : NetObjEntityType;
  e_handle : N;
  e_frameIndex : N;
  e_lastFrameIndex : N;
  e_timestamp : N;
  e_syncTree : option SyncTree;
  ackedCreation : Bitset.t;
  didDeletion : Bitset.t;
  lastSyncs : gmap N N;
  lastResends : gmap N N;
  deleting : bool;
  e_pos : option vec3;
  guid : option N
}.

(** [GameStateClientData]. *)
Record GameStateClientData := mkClientData {
  ackBuffer : MessageBuffer;
  objectIds : gset N;
  playerEntity : option nat;
  playerId : option N;
  syncing : bool;
  viewMatrix : mat4;
  idsForGameState : list (N * N);
  pendingRemovals : Bitset.t
}.

Definition GameStateClientData_new : GameStateClientData :=
  mkClientData (MessageBuffer_new 16384) ∅ None None false mat4_identity [] Bitset.empty.

(** [fx::Client], as far as the engine reads and writes it: its identity,
    net id and slot id, the values it keeps under the keys ["syncTs"],
    ["ackTs"], ["timestamp"] and ["playerEntity"], and its sync data. The
    source creates the sync data on first use ([GetClientDataUnlocked]),
    with the values of [GameStateClientData_new]; here a client has it from
    the start. *)
Record Client := mkClient {
  c_addr : nat;
  c_netId : N;
  c_slotId : N;
  c_syncTs : option N;
  c_ackTs : option N;
  c_timestamp : option N;
  c_playerEntity : option N;
  c_syncData : GameStateClientData
}.

Definition NoSlot : N := 0xFFFFFFFF.

(** Events for the script runtime, with the script handle of the entity:
    what [MakeScriptHandle] returns for it. *)
Inductive ScriptEvent :=
  | entityCreated (scriptHandle : N)
  | entityRemoved (scriptHandle : N).

(** [fx::ScriptGuid], as far as the engine uses it: its type, of which the
    engine makes and looks for [Entity] only, and [entity.handle]. *)
Inductive ScriptGuidType := GuidEntity | GuidOther.

Global Instance ScriptGuidType_eq_dec : EqDecision ScriptGuidType.
Proof. solve_decision. Defined.

Record ScriptGuid := mkScriptGuid {
  guid_type : ScriptGuidType;
  guid_entity_handle : N
}.

(** Modelled from the spec: the class [CPool] of [g_scriptHandlePool],
    declared in a header that is not among the sources. "Fixed-capacity
    intrusive pool (≈1500). Each slot tags a kind (Entity) and stores the
    entity handle. Script-handle = pool-index + 0x20000." A slot is free or
    holds a guid, and a pointer to a slot is the index of the slot. *)
Record CPool := mkCPool {
  m_Size : N;
  pool_slots : gmap N ScriptGuid
}.

(** Modelled from the spec: [GetAt(i)] of [CPool], the guid in slot [i],
    null for a free slot. *)
Definition GetAt (pool : CPool) (i : N) : option ScriptGuid := pool_slots pool !! i.

(** Modelled from the spec: [GetIndex(ptr)] of [CPool], the "pool-index"
    of the slot. *)
Definition GetIndex (ptr : N) : N := ptr.

(** Modelled from the spec: [Delete(ptr)] of [CPool], which frees the
    slot. *)
Definition Delete (ptr : N) (pool : CPool) : CPool :=
  mkCPool (m_Size pool) (delete ptr (pool_slots pool)).

(** A write through a pointer to a slot. *)
Definition set_slot (ptr : N) (g : ScriptGuid) (pool : CPool) : CPool :=
  mkCPool (m_Size pool) (<[ptr := g]> (pool_slots pool)).

(** [new CPool<fx::ScriptGuid>(1500, "fx::ScriptGuid")]. *)
Definition CPool_new : CPool := mkCPool 1500 ∅.

(** [ServerGameState] together with what it reaches: the client registry,
    the packets sent, the events fired, the callbacks waiting for the main
    thread and for the net thread, and the script-GUID pool.
    [m_entityList] owns the entities; [m_entitiesById] holds weak
    references, by address. A callback for the main thread holds the
    entity it was left for, by address, and the function to run on the net
    thread afterwards, by the object id it captured. *)
Record ConVars := mkConVars {
  g_oneSyncVar : bool;
  g_oneSyncCulling : bool;
  g_oneSyncRadiusFrequency : bool
}.

Record ServerGameState := mkState {
  convars : ConVars;
  m_frameIndex : N;
  m_entityList : list SyncEntityState;
  m_entitiesById : gmap N nat;
  m_objectIdsSent : Bitset.t;
  m_objectIdsUsed : Bitset.t;
  m_objectIdsStolen : Bitset.t;
  registry : list Client;
  next_addr : nat;
  sent_packets : list OutMessage;
  events : list ScriptEvent;
  main_thread_queue : list (nat * N);
  net_thread_queue : list N;
  g_scriptHandlePool : CPool
}.

Definition MaxObjectId : N := 8192.

Definition ServerGameState_new (cv : ConVars) : ServerGameState :=
  mkState cv 0 [] ∅ Bitset.empty Bitset.empty Bitset.empty [] 0 [] [] [] [] CPool_new.

(** ** Field updates *)

Definition set_e_client v (e : SyncEntityState) : SyncEntityState :=
  mkEntity (e_addr e) v (e_type e) (e_handle e) (e_frameIndex e) (e_lastFrameIndex e)
    (e_timestamp e) (e_syncTree e) (ackedCreation e) (didDeletion e) (lastSyncs e)
    (lastResends e) (deleting e) (e_pos e) (guid e).

Definition set_e_timestamp v (e : SyncEntityState) : SyncEntityState :=
  mkEntity (e_addr e) (e_client e) (e_type e) (e_handle e) (e_frameIndex e)
    (e_lastFrameIndex e) v (e_syncTree e) (ackedCreation e) (didDeletion e)
    (lastSyncs e) (lastResends e) (deleting e) (e_pos e) (guid e).

Definition set_e_syncTree v (e : SyncEntityState) : SyncEntityState :=
  mkEntity (e_addr e) (e_client e) (e_type e) (e_handle e) (e_frameIndex e)
    (e_lastFrameIndex e) (e_timestamp e) v (ackedCreation e) (didDeletion e)
    (lastSyncs e) (lastResends e) (deleting e) (e_pos e) (guid e).

Definition set_ackedCreation v (e : SyncEntityState) : SyncEntityState :=
  mkEntity (e_addr e) (e_client e) (e_type e) (e_handle e) (e_frameIndex e)
    (e_lastFrameIndex e) (e_timestamp e) (e_syncTree e) v (didDeletion e) (lastSyncs e)
    (lastResends e) (deleting e) (e_pos e) (guid e).

Definition set_didDeletion v (e : SyncEntityState) : SyncEntityState :=
  mkEntity (e_addr e) (e_client e) (e_type e) (e_handle e) (e_frameIndex e)
    (e_lastFrameIndex e) (e_timestamp e) (e_syncTree e) (ackedCreation e) v
    (lastSyncs e) (lastResends e) (deleting e) (e_pos e) (guid e).

Definition set_lastSyncs v (e : SyncEntityState) : SyncEntityState :=
  mkEntity (e_addr e) (e_client e) (e_type e) (e_handle e) (e_frameIndex e)
    (e_lastFrameIndex e) (e_timestamp e) (e_syncTree e) (ackedCreation e)
    (didDeletion e) v (lastResends e) (deleting e) (e_pos e) (guid e).

Definition set_lastResends v (e : SyncEntityState) : SyncEntityState :=
  mkEntity (e_addr e) (e_client e) (e_type e) (e_handle e) (e_frameIndex e)
    (e_lastFrameIndex e) (e_timestamp e) (e_syncTree e) (ackedCreation e)
    (didDeletion e) (lastSyncs e) v (deleting e) (e_pos e) (guid e).

Definition set_deleting v (e : SyncEntityState) : SyncEntityState :=
  mkEntity (e_addr e) (e_client e) (e_type e) (e_handle e) (e_frameIndex e)
    (e_lastFrameIndex e) (e_timestamp e) (e_syncTree e) (ackedCreation e)
    (didDeletion e) (lastSyncs e) (lastResends e) v (e_pos e) (guid e).

Definition set_e_frameIndex v (e : SyncEntityState) : SyncEntityState :=
  mkEntity (e_addr e) (e_client e) (e_type e) (e_handle e) v (e_lastFrameIndex e)
    (e_timestamp e) (e_syncTree e) (ackedCreation e) (didDeletion e) (lastSyncs e)
    (lastResends e) (deleting e) (e_pos e) (guid e).

Definition set_e_pos v (e : SyncEntityState) : SyncEntityState :=
  mkEntity (e_addr e) (e_client e) (e_type e) (e_handle e) (e_frameIndex e)
    (e_lastFrameIndex e) (e_timestamp e) (e_syncTree e) (ackedCreation e)
    (didDeletion e) (lastSyncs e) (lastResends e) (deleting e) v (guid e).

Definition set_guid v (e : SyncEntityState) : SyncEntityState :=
  mkEntity (e_addr e) (e_client e) (e_type e) (e_handle e) (e_frameIndex e)
    (e_lastFrameIndex e) (e_timestamp e) (e_syncTree e) (ackedCreation e)
    (didDeletion e) (lastSyncs e) (lastResends e) (deleting e) (e_pos e) v.

Definition set_ackBuffer v (d : GameStateClientData) : GameStateClientData :=
  mkClientData v (objectIds d) (playerEntity d) (playerId d) (syncing d) (viewMatrix d)
    (idsForGameState d) (pendingRemovals d).

Definition set_objectIds v (d : GameStateClientData) : GameStateClientData :=
  mkClientData (ackBuffer d) v (playerEntity d) (playerId d) (syncing d) (viewMatrix d)
    (idsForGameState d) (pendingRemovals d).

Definition set_playerEntity v (d : GameStateClientData) : GameStateClientData :=
  mkClientData (ackBuffer d) (objectIds d) v (playerId d) (syncing d) (viewMatrix d)
    (idsForGameState d) (pendingRemovals d).

Definition set_playerId v (d : GameStateClientData) : GameStateClientData :=
  mkClientData (ackBuffer d) (objectIds d) (playerEntity d) v (syncing d)
    (viewMatrix d) (idsForGameState d) (pendingRemovals d).

Definition set_syncing v (d : GameStateClientData) : GameStateClientData :=
  mkClientData (ackBuffer d) (objectIds d) (playerEntity d) (playerId d) v
    (viewMatrix d) (idsForGameState d) (pendingRemovals d).

Definition set_idsForGameState v (d : GameStateClientData) : GameStateClientData :=
  mkClientData (ackBuffer d) (objectIds d) (playerEntity d) (playerId d) (syncing d)
    (viewMatrix d) v (pendingRemovals d).

Definition set_pendingRemovals v (d : GameStateClientData) : GameStateClientData :=
  mkClientData (ackBuffer d) (objectIds d) (playerEntity d) (playerId d) (syncing d)
    (viewMatrix d) (idsForGameState d) v.

Definition set_viewMatrix v (d : GameStateClientData) : GameStateClientData :=
  mkClientData (ackBuffer d) (objectIds d) (playerEntity d) (playerId d) (syncing d)
    v (idsForGameState d) (pendingRemovals d).

Definition set_c_syncTs v (c : Client) : Client :=
  mkClient (c_addr c) (c_netId c) (c_slotId c) v (c_ackTs c) (c_timestamp c)
    (c_playerEntity c) (c_syncData c).

Definition set_c_ackTs v (c : Client) : Client :=
  mkClient (c_addr c) (c_netId c) (c_slotId c) (c_syncTs c) v (c_timestamp c)
    (c_playerEntity c) (c_syncData c).

Definition set_c_timestamp v (c : Client) : Client :=
  mkClient (c_addr c) (c_netId c) (c_slotId c) (c_syncTs c) (c_ackTs c) v
    (c_playerEntity c) (c_syncData c).

Definition set_c_playerEntity v (c : Client) : Client :=
  mkClient (c_addr c) (c_netId c) (c_slotId c) (c_syncTs c) (c_ackTs c) (c_timestamp c)
    v (c_syncData c).

Definition set_c_syncData v (c : Client) : Client :=
  mkClient (c_addr c) (c_netId c) (c_slotId c) (c_syncTs c) (c_ackTs c) (c_timestamp c)
    (c_playerEntity c) v.

Definition set_convars v (st : ServerGameState) : ServerGameState :=
  mkState v (m_frameIndex st) (m_entityList st) (m_entitiesById st) (m_objectIdsSent st)
    (m_objectIdsUsed st) (m_objectIdsStolen st) (registry st) (next_addr st)
    (sent_packets st) (events st) (main_thread_queue st) (net_thread_queue st)
    (g_scriptHandlePool st).

Definition set_m_frameIndex v (st : ServerGameState) : ServerGameState :=
  mkState (convars st) v (m_entityList st) (m_entitiesById st) (m_objectIdsSent st)
    (m_objectIdsUsed st) (m_objectIdsStolen st) (registry st) (next_addr st)
    (sent_packets st) (events st) (main_thread_queue st) (net_thread_queue st)
    (g_scriptHandlePool st).

Definition set_m_entityList v (st : ServerGameState) : ServerGameState :=
  mkState (convars st) (m_frameIndex st) v (m_entitiesById st) (m_objectIdsSent st)
    (m_objectIdsUsed st) (m_objectIdsStolen st) (registry st) (next_addr st)
    (sent_packets st) (events st) (main_thread_queue st) (net_thread_queue st)
    (g_scriptHandlePool st).

Definition set_m_entitiesById v (st : ServerGameState) : ServerGameState :=
  mkState (convars st) (m_frameIndex st) (m_entityList st) v (m_objectIdsSent st)
    (m_objectIdsUsed st) (m_objectIdsStolen st) (registry st) (next_addr st)
    (sent_packets st) (events st) (main_thread_queue st) (net_thread_queue st)
    (g_scriptHandlePool st).

Definition set_m_objectIdsSent v (st : ServerGameState) : ServerGameState :=
  mkState (convars st) (m_frameIndex st) (m_entityList st) (m_entitiesById st) v
    (m_objectIdsUsed st) (m_objectIdsStolen st) (registry st) (next_addr st)
    (sent_packets st) (events st) (main_thread_queue st) (net_thread_queue st)
    (g_scriptHandlePool st).

Definition set_m_objectIdsUsed v (st : ServerGameState) : ServerGameState :=
  mkState (convars st) (m_frameIndex st) (m_entityList st) (m_entitiesById st)
    (m_objectIdsSent st) v (m_objectIdsStolen st) (registry st) (next_addr st)
    (sent_packets st) (events st) (main_thread_queue st) (net_thread_queue st)
    (g_scriptHandlePool st).

Definition set_m_objectIdsStolen v (st : ServerGameState) : ServerGameState :=
  mkState (convars st) (m_frameIndex st) (m_entityList st) (m_entitiesById st)
    (m_objectIdsSent st) (m_objectIdsUsed st) v (registry st) (next_addr st)
    (sent_packets st) (events st) (main_thread_queue st) (net_thread_queue st)
    (g_scriptHandlePool st).

Definition set_registry v (st : ServerGameState) : ServerGameState :=
  mkState (convars st) (m_frameIndex st) (m_entityList st) (m_entitiesById st)
    (m_objectIdsSent st) (m_objectIdsUsed st) (m_objectIdsStolen st) v (next_addr st)
    (sent_packets st) (events st) (main_thread_queue st) (net_thread_queue st)
    (g_scriptHandlePool st).

Definition set_next_addr v (st : ServerGameState) : ServerGameState :=
  mkState (convars st) (m_frameIndex st) (m_entityList st) (m_entitiesById st)
    (m_objectIdsSent st) (m_objectIdsUsed st) (m_objectIdsStolen st) (registry st) v
    (sent_packets st) (events st) (main_thread_queue st) (net_thread_queue st)
    (g_scriptHandlePool st).

Definition set_sent_packets v (st : ServerGameState) : ServerGameState :=
  mkState (convars st) (m_frameIndex st) (m_entityList st) (m_entitiesById st)
    (m_objectIdsSent st) (m_objectIdsUsed st) (m_objectIdsStolen st) (registry st)
    (next_addr st) v (events st) (main_thread_queue st) (net_thread_queue st)
    (g_scriptHandlePool st).

Definition set_events v (st : ServerGameState) : ServerGameState :=
  mkState (convars st) (m_frameIndex st) (m_entityList st) (m_entitiesById st)
    (m_objectIdsSent st) (m_objectIdsUsed st) (m_objectIdsStolen st) (registry st)
    (next_addr st) (sent_packets st) v (main_thread_queue st) (net_thread_queue st)
    (g_scriptHandlePool st).

Definition set_main_thread_queue v (st : ServerGameState) : ServerGameState :=
  mkState (convars st) (m_frameIndex st) (m_entityList st) (m_entitiesById st)
    (m_objectIdsSent st) (m_objectIdsUsed st) (m_objectIdsStolen st) (registry st)
    (next_addr st) (sent_packets st) (events st) v (net_thread_queue st)
    (g_scriptHandlePool st).

Definition set_net_thread_queue v (st : ServerGameState) : ServerGameState :=
  mkState (convars st) (m_frameIndex st) (m_entityList st) (m_entitiesById st)
    (m_objectIdsSent st) (m_objectIdsUsed st) (m_objectIdsStolen st) (registry st)
    (next_addr st) (sent_packets st) (events st) (main_thread_queue st) v
    (g_scriptHandlePool st).

Definition set_g_scriptHandlePool v (st : ServerGameState) : ServerGameState :=
  mkState (convars st) (m_frameIndex st) (m_entityList st) (m_entitiesById st)
    (m_objectIdsSent st) (m_objectIdsUsed st) (m_objectIdsStolen st) (registry st)
    (next_addr st) (sent_packets st) (events st) (main_thread_queue st)
    (net_thread_queue st) v.

(** ** Pointers into the state *)

Fixpoint find_entity (a : nat) (l : list SyncEntityState) : option SyncEntityState :=
  match l with
  | [] => None
  | e :: l' => if (e_addr e =? a)%nat then Some e else find_entity a l'
  end.

Fixpoint find_client (a : nat) (l : list Client) : option Client :=
  match l with
  | [] => None
  | c :: l' => if (c_addr c =? a)%nat then Some c else find_client a l'
  end.

(** [weak_ptr::lock]. *)
Definition lock_entity (st : ServerGameState) (w : option nat) : option SyncEntityState :=
  w ≫= λ a, find_entity a (m_entityList st).

Definition lock_client (st : ServerGameState) (w : option nat) : option Client :=
  w ≫= λ a, find_client a (registry st).

(** A write through a pointer to an entity. *)
Definition update_entity (a : nat) (f : SyncEntityState -> SyncEntityState)
    (st : ServerGameState) : ServerGameState :=
  set_m_entityList
    (map (λ e, if (e_addr e =? a)%nat then f e else e) (m_entityList st)) st.

Definition update_client (a : nat) (f : Client -> Client)
    (st : ServerGameState) : ServerGameState :=
  set_registry (map (λ c, if (c_addr c =? a)%nat then f c else c) (registry st)) st.

(** A [shared_ptr<fx::Client>] argument is the address of a registered
    client; an address that is not registered reads as a client without a
    slot. *)
Definition Client_unregistered (a : nat) : Client :=
  mkClient a 0 NoSlot None None None None GameStateClientData_new.

Definition get_client (st : ServerGameState) (a : nat) : Client :=
  default (Client_unregistered a) (find_client a (registry st)).

Definition GetClientData (st : ServerGameState) (client : nat) : GameStateClientData :=
  c_syncData (get_client st client).

Definition update_client_data (client : nat)
    (f : GameStateClientData -> GameStateClientData)
    (st : ServerGameState) : ServerGameState :=
  update_client client (λ c, set_c_syncData (f (c_syncData c)) c) st.

Definition GetClientByNetID (st : ServerGameState) (netId : N) : option Client :=
  List.find (λ c, c_netId c =? netId) (registry st).

Definition send (m : OutMessage) (st : ServerGameState) : ServerGameState :=
  set_sent_packets (sent_packets st ++ [m]) st.

Definition send_frames (ps : list OutPacket) (st : ServerGameState) : ServerGameState :=
  set_sent_packets (sent_packets st ++ map Frame ps) st.

(** ** The engine *)

Definition MakeEntityHandle (playerId objectId : N) : N :=
  N.lor (N.shiftl (playerId + 1) 16) objectId.

(** The object id of a handle, [handle & 0xFFFF]. *)
Definition objectId_of (handle : N) : N := N.land handle 0xFFFF.

Definition GetPlayerFocusPos (entity : SyncEntityState) : vec3 :=
  match e_syncTree entity with
  | None => (0, 0, 0)%Q
  | Some tree =>
    let '(px, py, pz) := tree_position tree in
    match tree_playerCamera tree with
    | None => (px, py, pz)
    | Some camData =>
      if camMode camData =? 1 then freeCamPos camData
      else if camMode camData =? 2 then
        let '(ox, oy, oz) := camOff camData in
        (px + ox, py + oy, pz + oz)%Q
      else (px, py, pz)
    end
  end.

(** [GetEntity(playerId, objectId)]: the first argument is not used. *)
Definition GetEntity (st : ServerGameState) (objectId : N) : option SyncEntityState :=
  if MaxObjectId <=? objectId then None
  else lock_entity st (m_entitiesById st !! objectId).

(** The six clip planes, [g_projectionClips]. They are computed by glm from
    [glm::perspective(90.0f, 4.f / 3.f, 0.1f, 1000.f)], outside the sources,
    and are a parameter of the frustum test. *)
Record ViewClips := mkViewClips {
  nearClip : vec4;
  farClip : vec4;
  topClip : vec4;
  bottomClip : vec4;
  leftClip : vec4;
  rightClip : vec4
}.

(** [viewMatrix * glm::vec4{ pos, 1.0f }]. *)
Definition mat4_mul_point (m : mat4) (pos : vec3) : vec4 :=
  let '(c0, c1, c2, c3) := m in
  let '(x, y, z) := pos in
  let '(a0, a1, a2, a3) := c0 in
  let '(b0, b1, b2, b3) := c1 in
  let '(d0, d1, d2, d3) := c2 in
  let '(t0, t1, t2, t3) := c3 in
  (a0 * x + b0 * y + d0 * z + t0,
   a1 * x + b1 * y + d1 * z + t1,
   a2 * x + b2 * y + d2 * z + t2,
   a3 * x + b3 * y + d3 * z + t3)%Q.

Definition testPlane (viewCoords : vec4) (radius : Q) (plane : vec4) : bool :=
  let '(vx, vy, vz, _) := viewCoords in
  let '(px, py, pz, pw) := plane in
  Qle_bool 0 (vx * px + vy * py + vz * pz + pw + radius)%Q.

Definition IsInFrustum (clips : ViewClips) (pos : vec3) (radius : Q)
    (viewMatrix : mat4) : bool :=
  let viewCoords := mat4_mul_point viewMatrix pos in
  testPlane viewCoords radius (nearClip clips)
  && testPlane viewCoords radius (bottomClip clips)
  && testPlane viewCoords radius (topClip clips)
  && testPlane viewCoords radius (leftClip clips)
  && testPlane viewCoords radius (rightClip clips)
  && testPlane viewCoords radius (farClip clips).

(** What the engine takes from outside the sources. *)
Record Externals := mkExternals {
  LZ4_compressBound : N -> N;
  MakeSyncTree : NetObjEntityType -> option SyncTree;
  (** [syncTree->Parse(state)], with the payload, the parsing type and the
      frame index of the parse state. *)
  Parse : list bool -> N -> N -> SyncTree -> SyncTree;
  NetObjEntityType_of_wire : N -> NetObjEntityType;
  g_projectionClips : ViewClips;
  (** [(uint8_t)entity->type]. *)
  NetObjEntityType_to_wire : NetObjEntityType -> N;
  (** [g_scriptHandlePool->New()]: the slot the pool hands out, from the
      slots it has in use. *)
  CPool_New : CPool -> N;
  (** [glm::inverse(glm::translate(glm::identity<glm::mat4>(), camTranslate)
      * glm::toMat4(glm::quat{ { cameraX, 0.0f, cameraZ } }))], computed by
      glm. *)
  glm_viewMatrix : vec3 -> Q -> Q -> mat4
}.

(** The scan of [MakeScriptHandle] for an existing handle: it goes
    through the slots [0 .. m_Size - 1] without a [break], so the last
    slot that holds an [Entity] guid of the handle is the one it keeps. *)
Definition find_script_guid (pool : CPool) (handle : N) : option N :=
  fold_left
    (λ guid i,
       match GetAt pool i with
       | Some hdl =>
         if bool_decide (guid_type hdl = GuidEntity) && (guid_entity_handle hdl =? handle)
         then Some i else guid
       | None => guid
       end)
    (N.of_nat <$> seq 0 (N.to_nat (m_Size pool))) None.

(** [MakeScriptHandle(ptr)]. [ptr] is the entity as the state has it; the
    result is the script handle, the entity with the [guid] it has
    afterwards, and the state. *)
Definition MakeScriptHandle (ext : Externals) (ptr : SyncEntityState)
    (st : ServerGameState) : N * SyncEntityState * ServerGameState :=
  match guid ptr with
  | Some g => (GetIndex g + 0x20000, ptr, st)
  | None =>
    (* find an existing handle (transformed TempEntity?) *)
    match find_script_guid (g_scriptHandlePool st) (e_handle ptr) with
    | Some g =>
      (GetIndex g + 0x20000, set_guid (Some g) ptr,
       update_entity (e_addr ptr) (set_guid (Some g)) st)
    | None =>
      let g := CPool_New ext (g_scriptHandlePool st) in
      let st :=
        set_g_scriptHandlePool
          (set_slot g (mkScriptGuid GuidEntity (e_handle ptr)) (g_scriptHandlePool st)) st in
      (GetIndex g + 0x20000, set_guid (Some g) ptr,
       update_entity (e_addr ptr) (set_guid (Some g)) st)
    end
  end.

Definition is_ped_or_player (t : NetObjEntityType) : bool :=
  match t with Ped | Player => true | _ => false end.

Definition is_vehicle (t : NetObjEntityType) : bool :=
  match t with
  | Automobile | Bike | Boat | Heli | Plane | Submarine | Trailer | Train => true
  | _ => false
  end.

(** [occupants[seat]]; a seat outside the array reads as no occupant. *)
Definition occupant_at (d : CVehicleGameStateNodeData) (seat : Z) : option N :=
  if (seat <? 0)%Z then None else occupants d !! Z.to_nat seat.

Definition clear_seat (seat : Z) (pedHandle : N) (tree : SyncTree) : SyncTree :=
  match tree_vehicleGameState tree with
  | Some d =>
    if bool_decide (occupant_at d seat = Some pedHandle) then
      mkSyncTree (tree_nodes tree) (tree_position tree) (tree_playerCamera tree)
        (Some (mkVehicleData (<[Z.to_nat seat := 0]> (occupants d))
                 (Bitset.reset (playerOccupants d) (Z.to_N seat))))
        (tree_pedGameState tree)
    else tree
  | None => tree
  end.

Definition for_all_clients (f : Client -> Client) (st : ServerGameState) : ServerGameState :=
  set_registry (map f (registry st)) st.

Definition OnCloneRemove (entity : SyncEntityState) (doRemove : N)
    (st : ServerGameState) : ServerGameState :=
  (* trigger a clone removal event *)
  let st := set_main_thread_queue (main_thread_queue st ++ [(e_addr entity, doRemove)]) st in
  (* remove vehicle occupants *)
  let st :=
    if is_ped_or_player (e_type entity) then
      let pedHandle := objectId_of (e_handle entity) in
      match e_syncTree entity ≫= tree_pedGameState with
      | Some vehicleData =>
        let curVehicle :=
          if (curVehicle vehicleData =? -1)%Z then None
          else GetEntity st (Z.to_N (curVehicle vehicleData mod 65536)) in
        match curVehicle with
        | Some cv =>
          update_entity (e_addr cv)
            (λ e, set_e_syncTree
                    (clear_seat (curVehicleSeat vehicleData) pedHandle <$> e_syncTree e) e) st
        | None => st
        end
      | None => st
      end
    else st in
  let objectId := objectId_of (e_handle entity) in
  if Bitset.test (m_objectIdsStolen st) objectId then
    let st := set_m_objectIdsSent (Bitset.reset (m_objectIdsSent st) objectId) st in
    let st := set_m_objectIdsStolen (Bitset.reset (m_objectIdsStolen st) objectId) st in
    match lock_client st (e_client entity) with
    | Some clientRef =>
      update_client_data (c_addr clientRef)
        (λ d, set_objectIds (objectIds d ∖ {[objectId]}) d) st
    | None => st
    end
  else st.

(** The deferred part of [RemoveClone], run later on the net thread. *)
Fixpoint erase_first (objectId : N) (l : list SyncEntityState) : list SyncEntityState :=
  match l with
  | [] => []
  | e :: l' => if objectId_of (e_handle e) =? objectId then l' else e :: erase_first objectId l'
  end.

(** [~SyncEntityState]: the entity gives its script guid back to the
    pool. *)
Definition SyncEntityState_destroy (e : SyncEntityState) (st : ServerGameState)
    : ServerGameState :=
  match guid e with
  | Some g => set_g_scriptHandlePool (Delete g (g_scriptHandlePool st)) st
  | None => st
  end.

(** The list owns the entity it erases, which ends with the erasure. *)
Definition continueCloneRemoval (objectId : N) (st : ServerGameState) : ServerGameState :=
  let st := set_m_objectIdsUsed (Bitset.reset (m_objectIdsUsed st) objectId) st in
  let erased := List.find (λ e, objectId_of (e_handle e) =? objectId) (m_entityList st) in
  let st := set_m_entityList (erase_first objectId (m_entityList st)) st in
  let st :=
    match erased with
    | Some e => SyncEntityState_destroy e st
    | None => st
    end in
  (* unset weak pointer, as well *)
  set_m_entitiesById (delete objectId (m_entitiesById st)) st.

(** The callback [OnCloneRemove] leaves for the main thread: fire
    [entityRemoved], then hand the removal to the net thread. The callback
    holds the entity, which the list lets go of only in its removal on the
    net thread; should the list have let go of it before, for the removal
    of another entity of the same object id, there is no entity left in
    the state to fire for, and the removal is only handed on. *)
Definition run_main_thread_callback (ext : Externals) (st : ServerGameState)
    : ServerGameState :=
  match main_thread_queue st with
  | [] => st
  | (a, doRemove) :: q =>
    let st := set_main_thread_queue q st in
    let st :=
      match find_entity a (m_entityList st) with
      | Some entity =>
        let '(scriptHandle, _, st) := MakeScriptHandle ext entity st in
        set_events (events st ++ [entityRemoved scriptHandle]) st
      | None => st
      end in
    set_net_thread_queue (net_thread_queue st ++ [doRemove]) st
  end.

Definition run_net_thread_callback (st : ServerGameState) : ServerGameState :=
  match net_thread_queue st with
  | [] => st
  | objectId :: q => continueCloneRemoval objectId (set_net_thread_queue q st)
  end.

Definition RemoveClone (client : nat) (objectId : N)
    (st : ServerGameState) : ServerGameState :=
  match lock_entity st (m_entitiesById st !! objectId) with
  | Some entityRef =>
    if deleting entityRef then st
    else
      let st := update_entity (e_addr entityRef) (set_deleting true) st in
      let st := OnCloneRemove entityRef objectId st in
      let netId := c_netId (get_client st client) in
      for_all_clients
        (λ tgtClient,
           if c_netId tgtClient =? netId then tgtClient
           else set_c_syncData
                  (set_pendingRemovals
                     (Bitset.set (pendingRemovals (c_syncData tgtClient)) objectId)
                     (c_syncData tgtClient)) tgtClient) st
  | None => st
  end.

Definition ReassignEntity (entityHandle : N) (targetClient : nat)
    (st : ServerGameState) : ServerGameState :=
  match GetEntity st (objectId_of entityHandle) with
  | None => st
  | Some entity =>
    let oldClient := e_client entity in
    let st := update_entity (e_addr entity) (set_e_client (Some targetClient)) st in
    let st :=
      match lock_client st oldClient with
      | Some oldClientRef =>
        update_client_data (c_addr oldClientRef)
          (λ d, set_objectIds (objectIds d ∖ {[objectId_of entityHandle]}) d) st
      | None => st
      end in
    let st := update_client_data targetClient
                (λ d, set_objectIds ({[objectId_of entityHandle]} ∪ objectIds d) d) st in
    (* mark it as stolen *)
    let st := set_m_objectIdsStolen
                (Bitset.set (m_objectIdsStolen st) (objectId_of entityHandle)) st in
    let frame := m_frameIndex st + 1 in
    update_entity (e_addr entity)
      (λ e, set_e_syncTree
              (Visit (λ _, mkNodeBase frame Bitset.empty) <$> e_syncTree e)
              (set_lastSyncs ∅ (set_lastResends ∅ e))) st
  end.

Section Ingress.
Context (ext : Externals).

(** [AckPacketWrapper]: the ack buffer of the sender, taken out of its
    client data for the duration of [ParseClonePacket], with
    [MaybeFlushBuffer] as its [flush]. *)
Definition ack_flush (client : nat) (ackPacket : MessageBuffer)
    (st : ServerGameState) : MessageBuffer * ServerGameState :=
  let '(ackPacket, pkts) :=
    MaybeFlushBuffer (LZ4_compressBound ext) ackPacket msgPackedAcks 0 client in
  (ackPacket, send_frames pkts st).

(** The state of one call of [ProcessClonePacket]: the input buffer, the
    value behind [outObjectId] and the engine. *)
Definition ProcessClonePacket (client : nat) (inPacket : MessageBuffer)
    (parsingType : N) (outObjectId : N) (st : ServerGameState)
    : MessageBuffer * N * ServerGameState :=
  let playerId := 0 in
  let '(objectId, inPacket) := Read 13 inPacket in
  let '(objectType, inPacket) :=
    if parsingType =? 1
    then let '(t, inPacket) := Read 4 inPacket in
         (NetObjEntityType_of_wire ext t, inPacket)
    else (Train, inPacket) in
  let '(length, inPacket) := Read 12 inPacket in
  let timestamp := default 0 (c_syncTs (get_client st client)) in
  let st :=
    match c_timestamp (get_client st client) with
    | None => update_client client (set_c_timestamp (Some timestamp)) st
    | Some _ => st
    end in
  (* move this back down under *)
  let st := update_client_data client (set_playerId (Some playerId)) st in
  let '(bitBytes, inPacket) := ReadBits (N.to_nat length * 8) inPacket in
  let entity := GetEntity st objectId in
  let validEntity :=
    match entity with
    | Some e => bool_decide (is_Some (lock_client st (e_client e)))
    | None => false
    end in
  let slot := c_slotId (get_client st client) in
  (* the part after the entity is known to exist *)
  let finish (entity : SyncEntityState) (createdHere : bool) (st : ServerGameState) :=
    let a := e_addr entity in
    let st := update_entity a
                (λ e, set_ackedCreation (Bitset.set (ackedCreation e) slot)
                        (set_didDeletion (Bitset.reset (didDeletion e) slot) e)) st in
    match lock_client st (e_client entity) with
    | None => (inPacket, outObjectId, st)
    | Some entityClient =>
      if negb (c_netId entityClient =? c_netId (get_client st client))
      then (inPacket, outObjectId, st)
      else
        let st := update_entity a (set_e_timestamp timestamp) st in
        let parsed (tree : SyncTree) :=
          let tree := Parse ext bitBytes parsingType (m_frameIndex st) tree in
          if parsingType =? 1
          then Visit (λ node, mkNodeBase (node_frameIndex node) Bitset.empty) tree
          else tree in
        let st :=
          match e_syncTree entity with
          | Some _ =>
            update_entity a
              (λ e, (* reset resends to 0 *)
                 set_lastResends ∅ (set_e_syncTree (parsed <$> e_syncTree e) e)) st
          | None => st
          end in
        let '(entity, st) :=
          match e_type entity with
          | Player =>
            let data := GetClientData st client in
            let st :=
              match lock_entity st (playerEntity data) with
              | None => send (WorldGrid client) st
              | Some _ => st
              end in
            let st := update_client_data client (set_playerEntity (Some a)) st in
            let '(scriptHandle, entity, st) := MakeScriptHandle ext entity st in
            (entity, update_client client (set_c_playerEntity (Some scriptHandle)) st)
          | _ => (entity, st)
          end in
        let outObjectId := objectId in
        (* trigger a clone creation event *)
        let st :=
          if createdHere then
            let '(scriptHandle, _, st) := MakeScriptHandle ext entity st in
            let st := set_events (events st ++ [entityCreated scriptHandle]) st in
            for_all_clients
              (λ c, set_c_syncData
                      (set_pendingRemovals
                         (Bitset.reset (pendingRemovals (c_syncData c)) objectId)
                         (c_syncData c)) c) st
          else st in
        (inPacket, outObjectId, st)
    end in
  if parsingType =? 1 then
    if negb validEntity then
      let a := next_addr st in
      let entity :=
        mkEntity a (Some client) objectType (MakeEntityHandle playerId objectId)
          (m_frameIndex st) 0 0 (MakeSyncTree ext objectType)
          Bitset.empty Bitset.empty ∅ ∅ false None None in
      let st := set_next_addr (S a) st in
      let st := set_m_entityList (m_entityList st ++ [entity]) st in
      let st := set_m_entitiesById (<[objectId := a]> (m_entitiesById st)) st in
      finish entity true st
    else (* duplicate create? that's not supposed to happen *)
      (inPacket, outObjectId, st)
  else
    match entity with
    | Some e => if validEntity then finish e false st
                else (inPacket, outObjectId, st)
    | None => (inPacket, outObjectId, st)
    end.

Definition ProcessCloneCreate (client : nat) (inPacket ackPacket : MessageBuffer)
    (st : ServerGameState) : MessageBuffer * MessageBuffer * ServerGameState :=
  let objectId := 0 in
  let '(inPacket, objectId, st) := ProcessClonePacket client inPacket 1 objectId st in
  let st := set_m_objectIdsUsed (Bitset.set (m_objectIdsUsed st) objectId) st in
  let ackPacket := Write 3 1 ackPacket in
  let ackPacket := Write 13 objectId ackPacket in
  let '(ackPacket, st) := ack_flush client ackPacket st in
  (inPacket, ackPacket, st).

Definition ProcessCloneSync (client : nat) (inPacket ackPacket : MessageBuffer)
    (st : ServerGameState) : MessageBuffer * MessageBuffer * ServerGameState :=
  let objectId := 0 in
  let '(inPacket, objectId, st) := ProcessClonePacket client inPacket 2 objectId st in
  let ackPacket := Write 3 2 ackPacket in
  let ackPacket := Write 13 objectId ackPacket in
  let '(ackPacket, st) := ack_flush client ackPacket st in
  (inPacket, ackPacket, st).

Definition ProcessCloneTakeover (client : nat) (inPacket : MessageBuffer)
    (st : ServerGameState) : MessageBuffer * ServerGameState :=
  let '(clientId, inPacket) := Read 16 inPacket in
  let '(objectId, inPacket) := Read 13 inPacket in
  match GetEntity st objectId with
  | None => (inPacket, st)
  | Some entity =>
    let tgtCl := if negb (clientId =? 0) then GetClientByNetID st clientId
                 else Some (get_client st client) in
    match tgtCl with
    | None => (inPacket, st)
    | Some tgtCl =>
      (* don't do duplicate migrations *)
      let entityClient := lock_client st (e_client entity) in
      match entityClient with
      | Some ec =>
        if c_netId ec =? c_netId tgtCl then (inPacket, st)
        else if negb (c_netId ec =? c_netId (get_client st client)) then (inPacket, st)
        else
          match e_syncTree entity with
          | None => (inPacket, st)
          | Some _ => (inPacket, ReassignEntity (e_handle entity) (c_addr tgtCl) st)
          end
      | None =>
        match e_syncTree entity with
        | None => (inPacket, st)
        | Some _ => (inPacket, ReassignEntity (e_handle entity) (c_addr tgtCl) st)
        end
      end
    end
  end.

Definition ProcessCloneRemove (client : nat) (inPacket ackPacket : MessageBuffer)
    (st : ServerGameState) : MessageBuffer * MessageBuffer * ServerGameState :=
  let '(objectId, inPacket) := Read 13 inPacket in
  (* ack remove no matter if we accept it *)
  let ackPacket := Write 3 3 ackPacket in
  let ackPacket := Write 13 objectId ackPacket in
  let '(ackPacket, st) := ack_flush client ackPacket st in
  let wrongOwner :=
    match GetEntity st objectId with
    | Some entity =>
      match lock_client st (e_client entity) with
      | Some entityClient =>
        negb (c_netId (get_client st client) =? c_netId entityClient)
      | None => false
      end
    | None => false
    end in
  if wrongOwner then (inPacket, ackPacket, st)
  else (inPacket, ackPacket, RemoveClone client objectId st).
End Ingress.

Section Parsers.
Context (ext : Externals).

(** The state of the record loop of [ParseClonePacket]: whether [end] is
    set, the input, the ack buffer and the engine. *)
Definition CloneLoop : Type := bool * MessageBuffer * MessageBuffer * ServerGameState.

(** One iteration of the loop of [ParseClonePacket]: one record. *)
Definition ParseClonePacket_record (client : nat) (msgBuf ackPacket : MessageBuffer)
    (st : ServerGameState) : CloneLoop :=
  let '(dataType, msgBuf) := Read 3 msgBuf in
  if dataType =? 1 then (* clone create *)
    let '(msgBuf, ackPacket, st) := ProcessCloneCreate ext client msgBuf ackPacket st in
    (false, msgBuf, ackPacket, st)
  else if dataType =? 2 then (* clone sync *)
    let '(msgBuf, ackPacket, st) := ProcessCloneSync ext client msgBuf ackPacket st in
    (false, msgBuf, ackPacket, st)
  else if dataType =? 3 then (* clone remove *)
    let '(msgBuf, ackPacket, st) := ProcessCloneRemove ext client msgBuf ackPacket st in
    (false, msgBuf, ackPacket, st)
  else if dataType =? 4 then (* clone takeover *)
    let '(msgBuf, st) := ProcessCloneTakeover client msgBuf st in
    (false, msgBuf, ackPacket, st)
  else if dataType =? 5 then (* set timestamp *)
    let '(newTs, msgBuf) := Read 32 msgBuf in
    (* this is the timestamp that the client will use for following acks *)
    let ackPacket := Write 3 5 ackPacket in
    let ackPacket := Write 32 newTs ackPacket in
    let '(ackPacket, st) := ack_flush ext client ackPacket st in
    let st :=
      match c_ackTs (get_client st client) with
      | Some oldTs =>
        if oldTs <? newTs
        then update_client client (λ c, set_c_syncTs (Some newTs) (set_c_ackTs (Some newTs) c)) st
        else st
      | None =>
        update_client client (λ c, set_c_syncTs (Some newTs) (set_c_ackTs (Some newTs) c)) st
      end in
    (false, msgBuf, ackPacket, st)
  else (* end, and every other tag *)
    (true, msgBuf, ackPacket, st).

(** [while (!msgBuf.IsAtEnd() && !end)]. Every record reads at least its
    3-bit tag, so the loop runs at most once per remaining bit; [fuel]
    counts the iterations left. *)
Fixpoint ParseClonePacket_loop (fuel : nat) (client : nat) (l : CloneLoop) : CloneLoop :=
  let '(end_, msgBuf, ackPacket, st) := l in
  match fuel with
  | O => l
  | S fuel =>
    if negb (IsAtEnd msgBuf) && negb end_
    then ParseClonePacket_loop fuel client (ParseClonePacket_record client msgBuf ackPacket st)
    else l
  end.

Definition ParseClonePacket (client : nat) (buffer : list bool)
    (st : ServerGameState) : ServerGameState :=
  let msgBuf := MessageBuffer_of_bits buffer in
  let ackPacket := ackBuffer (GetClientData st client) in
  let '(_, _, ackPacket, st) :=
    ParseClonePacket_loop (S (length buffer)) client (false, msgBuf, ackPacket, st) in
  update_client_data client (set_ackBuffer ackPacket) st.

(** [case 1] of [ParseAckPacket], up to the point where it runs into
    [case 3]. *)
Definition ack_create (client : nat) (objectId : N)
    (st : ServerGameState) : ServerGameState :=
  let slot := c_slotId (get_client st client) in
  match GetEntity st objectId with
  | Some entity =>
    match e_syncTree entity with
    | Some _ =>
      update_entity (e_addr entity)
        (λ e, set_ackedCreation (Bitset.set (ackedCreation e) slot)
                (set_didDeletion (Bitset.reset (didDeletion e) slot)
                   (set_e_syncTree
                      (Visit (λ node, mkNodeBase (node_frameIndex node)
                                        (Bitset.set (ackedPlayers node) slot))
                         <$> e_syncTree e) e))) st
    | None => st
    end
  | None => st
  end.

(** [case 3] of [ParseAckPacket]. *)
Definition ack_remove (client : nat) (msgBuf : MessageBuffer)
    (st : ServerGameState) : MessageBuffer * ServerGameState :=
  let '(objectId, msgBuf) := Read 13 msgBuf in
  (msgBuf,
   update_client_data client
     (λ d, set_pendingRemovals (Bitset.reset (pendingRemovals d) objectId) d) st).

(** One iteration of the loop of [ParseAckPacket]. [case 1] has no
    [break]: after its own work it goes on into [case 3], which reads
    the next 13 bits as an object id of its own. *)
Definition ParseAckPacket_record (client : nat) (msgBuf : MessageBuffer)
    (st : ServerGameState) : bool * MessageBuffer * ServerGameState :=
  let '(dataType, msgBuf) := Read 3 msgBuf in
  if dataType =? 1 then (* clone create *)
    let '(objectId, msgBuf) := Read 13 msgBuf in
    let st := ack_create client objectId st in
    let '(msgBuf, st) := ack_remove client msgBuf st in
    (false, msgBuf, st)
  else if dataType =? 3 then (* clone remove *)
    let '(msgBuf, st) := ack_remove client msgBuf st in
    (false, msgBuf, st)
  else (true, msgBuf, st).

Fixpoint ParseAckPacket_loop (fuel : nat) (client : nat)
    (l : bool * MessageBuffer * ServerGameState) : bool * MessageBuffer * ServerGameState :=
  let '(end_, msgBuf, st) := l in
  match fuel with
  | O => l
  | S fuel =>
    if negb (IsAtEnd msgBuf) && negb end_
    then ParseAckPacket_loop fuel client (ParseAckPacket_record client msgBuf st)
    else l
  end.

Definition ParseAckPacket (client : nat) (buffer : list bool)
    (st : ServerGameState) : ServerGameState :=
  snd (ParseAckPacket_loop (S (length buffer)) client
         (false, MessageBuffer_of_bits buffer, st)).
End Parsers.

(** ** Object-id issuance *)

(** The inner loop of [SendObjectIds]: the first id from [id] on that is
    neither sent nor used; [n] bounds the ids still to look at. *)
Fixpoint next_free_id (n : nat) (id : N) (sent used : Bitset.t) : option N :=
  match n with
  | O => None
  | S n =>
    if MaxObjectId <=? id then None
    else if negb (Bitset.test sent id) && negb (Bitset.test used id) then Some id
    else next_free_id n (id + 1) sent used
  end.

(** The outer loop: up to [numIds] ids, each marked sent and added to the
    client's [objectIds]. *)
Fixpoint gather_ids (numIds : nat) (id : N) (client : nat)
    (st : ServerGameState) : list N * ServerGameState :=
  match numIds with
  | O => ([], st)
  | S numIds =>
    match next_free_id (N.to_nat MaxObjectId) id (m_objectIdsSent st) (m_objectIdsUsed st) with
    | Some id =>
      let st := update_client_data client (λ d, set_objectIds ({[id]} ∪ objectIds d) d) st in
      let st := set_m_objectIdsSent (Bitset.set (m_objectIdsSent st) id) st in
      let '(ids, st) := gather_ids numIds id client st in
      (id :: ids, st)
    | None => ([], st)
    end
  end.

(** The (gap, run) pairs of an id list; [gap] and [size] belong to the run
    being read, whose last id is [prev]. *)
Fixpoint id_pairs_from (gap size prev : Z) (ids : list Z) : list (Z * Z) :=
  match ids with
  | [] => [(gap, size)]
  | x :: ids' =>
    if (x =? prev + 1)%Z then id_pairs_from gap (size + 1)%Z x ids'
    else (gap, size) :: id_pairs_from (x - 2 - prev)%Z 0%Z x ids'
  end.

Definition id_pairs (ids : list Z) : list (Z * Z) :=
  match ids with
  | [] => []
  | x :: ids' => id_pairs_from (x - 2 - -1)%Z 0%Z x ids'
  end.

Definition SendObjectIds (client : nat) (numIds : nat)
    (st : ServerGameState) : ServerGameState :=
  (* first, gather IDs *)
  let '(ids, st) := gather_ids numIds 1 client st in
  (* compress and send *)
  send (ObjectIds client (id_pairs (map Z.of_N ids))) st.

(** ** Client drop *)

Definition FLT_MAX : Q := 340282346638528859811704183484516925440.

Definition Qltb (a b : Q) : bool := negb (Qle_bool b a).

(** [operator<] of [std::tuple<float, std::shared_ptr<fx::Client>>]. *)
Definition candidate_ltb (a b : Q * nat) : bool :=
  Qltb (fst a) (fst b) || (negb (Qltb (fst b) (fst a)) && (snd a <? snd b)%nat).

Fixpoint candidate_insert (x : Q * nat) (l : list (Q * nat)) : list (Q * nat) :=
  match l with
  | [] => [x]
  | y :: l' => if candidate_ltb x y then x :: l else y :: candidate_insert x l'
  end.

(** [std::sort(candidates.begin(), candidates.end())]. *)
Definition sort_candidates (l : list (Q * nat)) : list (Q * nat) :=
  foldr candidate_insert [] l.

Definition entity_pos (entity : SyncEntityState) : vec3 :=
  default (0, 0, 0)%Q (e_pos entity).

(** The distance the drop handler gives a target client. *)
Definition candidate_distance (st : ServerGameState) (pos : vec3) (tgtClient : Client) : Q :=
  let '(posX, posY, posZ) := pos in
  match lock_entity st (playerEntity (c_syncData tgtClient)) with
  | Some playerEntity =>
    let '(tx, ty, tz) := GetPlayerFocusPos playerEntity in
    if negb (Qeq_bool posX 0) then
      let deltaX := (tx - posX)%Q in
      let deltaY := (ty - posY)%Q in
      let deltaZ := (tz - posZ)%Q in
      (deltaX * deltaX + deltaY * deltaY + deltaZ * deltaZ)%Q
    else FLT_MAX
  | None => FLT_MAX
  end.

(** The candidates of one orphan, before sorting. *)
Definition drop_candidates (st : ServerGameState) (client : nat) (pos : vec3)
    : list (Q * nat) :=
  omap (λ tgtClient,
          if (c_addr tgtClient =? client)%nat then None
          else if c_slotId tgtClient =? NoSlot then None
          else Some (candidate_distance st pos tgtClient, c_addr tgtClient))
       (registry st).

(** [std::set<uint32_t>::insert]. *)
Fixpoint set_insert (x : N) (l : list N) : list N :=
  match l with
  | [] => [x]
  | y :: l' => if x <? y then x :: l else if x =? y then l else y :: set_insert x l'
  end.

(** Whether the drop handler treats the entity as without an owner. *)
Definition drop_orphan (st : ServerGameState) (client : nat) (entity : SyncEntityState) : bool :=
  match lock_client st (e_client entity) with
  | None => true
  | Some entityClient => c_netId entityClient =? c_netId (get_client st client)
  end.

(** The body of the entity loop of [HandleClientDrop], for the entity at
    address [a]: the handle goes into [toErase], or the entity is
    reassigned. *)
Definition HandleClientDrop_entity (client : nat) (a : nat)
    (acc : list N * ServerGameState) : list N * ServerGameState :=
  let '(toErase, st) := acc in
  match find_entity a (m_entityList st) with
  | None => acc
  | Some entity =>
    match e_syncTree entity with
    | None => acc
    | Some _ =>
      if drop_orphan st client entity then
        let candidates := sort_candidates (drop_candidates st client (entity_pos entity)) in
        let candidates :=
          match e_type entity with Player => [] | _ => candidates end in
        match candidates with
        | [] => (set_insert (e_handle entity) toErase, st)
        | (distance, tgt) :: _ =>
          if Qle_bool (300 * 300) distance (* closest candidate beyond distance culling range? *)
          then (set_insert (e_handle entity) toErase, st)
          else (toErase, ReassignEntity (e_handle entity) tgt st)
        end
      else acc
    end
  end.

(** [HandleClientDrop]. The release of the client's world-grid sectors,
    which comes first in the source, is left out: the grid is not part of
    the state. *)
Definition HandleClientDrop (client : nat) (st : ServerGameState) : ServerGameState :=
  if negb (g_oneSyncVar (convars st)) then st
  else
    let '(toErase, st) :=
      fold_left (λ acc a, HandleClientDrop_entity client a acc)
        (map e_addr (m_entityList st)) ([], st) in
    (* here temporarily, needs to be unified with ProcessCloneRemove *)
    let st := fold_left (λ st handle, RemoveClone client (objectId_of handle) st) toErase st in
    (* remove object IDs from sent map *)
    let st :=
      set_m_objectIdsSent
        (fold_left Bitset.reset (elements (objectIds (GetClientData st client)))
           (m_objectIdsSent st)) st in
    (* remove ACKs for this client *)
    let slot := c_slotId (get_client st client) in
    if negb (slot =? NoSlot) then
      set_m_entityList
        (map (λ e,
                match e_syncTree e with
                | Some tree =>
                  set_e_syncTree
                    (Some (Visit (λ node, mkNodeBase (node_frameIndex node)
                                            (Bitset.reset (ackedPlayers node) slot)) tree))
                    (set_ackedCreation (Bitset.reset (ackedCreation e) slot) e)
                | None => e
                end) (m_entityList st)) st
    else st.

(** ** The tick: what is decided for one client and one entity *)

Definition distance2 (a b : vec3) : Q :=
  let '(ax, ay, az) := a in
  let '(bx, by_, bz) := b in
  ((ax - bx) * (ax - bx) + (ay - by_) * (ay - by_) + (az - bz) * (az - bz))%Q.

(** [shouldBeCreated], as the loop of [Tick] computes it. [playerPos] is
    the focus position of the client's player entity, when it has one. *)
Definition Tick_shouldBeCreated (culling : bool) (client entityClient : Client)
    (playerPos : option vec3) (entity : SyncEntityState) (entityPos : vec3)
    (vehicleData : option CVehicleGameStateNodeData) : bool :=
  let shouldBeCreated := if culling then false else true in
  (* players should always have their own entities *)
  let shouldBeCreated :=
    if c_netId client =? c_netId entityClient then true else shouldBeCreated in
  let shouldBeCreated :=
    if negb shouldBeCreated then
      match playerPos with
      | Some (px, py, _) =>
        let '(ex, ey, _) := entityPos in
        let diffX := (ex - px)%Q in
        let diffY := (ey - py)%Q in
        let distSquared := (diffX * diffX + diffY * diffY)%Q in
        if Qltb distSquared (350 * 350) then true else shouldBeCreated
      | None =>
        (* can't really say otherwise if the player entity doesn't exist *)
        true
      end
    else shouldBeCreated in
  if negb shouldBeCreated then
    match e_type entity with
    | Player => true
    | _ =>
      if is_vehicle (e_type entity) then
        match vehicleData with
        | Some vd => if Bitset.any (playerOccupants vd) then true else shouldBeCreated
        | None => shouldBeCreated
        end
      else shouldBeCreated
    end
  else shouldBeCreated.

(** The average radius of an entity, by type. *)
Definition objRadius (t : NetObjEntityType) : Q :=
  match t with
  | Ped | Player => 2.5
  | Heli | Boat | Plane => 15
  | _ => 5
  end.

(** [syncDelay] in milliseconds, as the loop of [Tick] computes it. *)
Definition Tick_syncDelay (radiusFrequency : bool) (clips : ViewClips)
    (entity : SyncEntityState) (entityPos : vec3) (viewMatrix : mat4)
    (playerPos : option vec3) : N :=
  let syncDelay := 50 in
  if radiusFrequency then
    let position := entityPos in
    match e_syncTree entity with
    | Some _ =>
      let syncDelay :=
        if negb (IsInFrustum clips position (objRadius (e_type entity)) viewMatrix)
        then 150 else syncDelay in
      match playerPos with
      | Some playerPos =>
        let dist := distance2 position playerPos in
        if Qltb (500 * 500) dist then 500
        else if Qltb (250 * 250) dist then 250
        else syncDelay
      | None => syncDelay
      end
    | None => syncDelay
    end
  else syncDelay.

(** The command the tick leaves for the worker: serialize the entity for
    the client, as a create (1) or a sync (2). *)
Record SyncCommand := mkSyncCommand {
  cmd_entity : nat;
  cmd_entityClient : nat;
  cmd_syncType : N;
  cmd_curTime : N
}.

Definition time_of (m : gmap N N) (slot : N) : N := default 0 (m !! slot).

Section Tick.
Context (ext : Externals).

(** Whether the tick sends the entity, given that it should exist. *)
Definition Tick_shouldSend (curTime resendDelay syncDelay syncType slotId : N)
    (entity : SyncEntityState) : bool :=
  let lastResend := time_of (lastResends entity) slotId in
  let lastTime := (Z.of_N curTime - Z.of_N lastResend)%Z in
  let shouldSend :=
    if negb (lastResend =? 0) && (lastTime <? Z.of_N resendDelay)%Z
    then false else true in
  if (syncType =? 2) && shouldSend then
    let lastSync := time_of (lastSyncs entity) slotId in
    let lastTime := (Z.of_N curTime - Z.of_N lastSync)%Z in
    if (lastTime <? Z.of_N syncDelay)%Z then false else shouldSend
  else shouldSend.

(** The body of the entity loop of [Tick] for one client and the entity
    at address [a], whose position and owner were cached before the
    loop. The result says whether the loop goes on ([false] after the
    [break]), the command to run if any, and the engine. *)
Definition Tick_entity (curTime resendDelay : N) (client : nat)
    (a : nat) (entityPos : vec3) (entityClient : option nat)
    (st : ServerGameState) : bool * option SyncCommand * ServerGameState :=
  match find_entity a (m_entityList st), lock_client st entityClient with
  | Some entity, Some entityClient =>
    let cl := get_client st client in
    let clientData := c_syncData cl in
    let slotId := c_slotId cl in
    let playerPos := GetPlayerFocusPos <$> lock_entity st (playerEntity clientData) in
    let vehicleData :=
      if is_vehicle (e_type entity) then e_syncTree entity ≫= tree_vehicleGameState
      else None in
    let hasCreated := Bitset.test (ackedCreation entity) slotId in
    let shouldBeCreated :=
      Tick_shouldBeCreated (g_oneSyncCulling (convars st)) cl entityClient
        playerPos entity entityPos vehicleData in
    let syncDelay :=
      Tick_syncDelay (g_oneSyncRadiusFrequency (convars st)) (g_projectionClips ext)
        entity entityPos (viewMatrix clientData) playerPos in
    if shouldBeCreated then
      (* default to it being a sync *)
      let syncType :=
        if negb hasCreated || Bitset.test (didDeletion entity) slotId then 1 else 2 in
      if slotId =? NoSlot then (false, None, st)
      else if Tick_shouldSend curTime resendDelay syncDelay syncType slotId entity
      then (true, Some (mkSyncCommand a (c_addr entityClient) syncType curTime), st)
      else (true, None, st)
    else if hasCreated then
      let st := update_client_data client
                  (λ d, set_pendingRemovals
                          (Bitset.set (pendingRemovals d) (objectId_of (e_handle entity))) d) st in
      (* unacknowledge creation *)
      let st := update_entity a
                  (λ e, set_didDeletion (Bitset.set (didDeletion e) slotId)
                          (set_ackedCreation (Bitset.reset (ackedCreation e) slotId) e)) st in
      (true, None, st)
    else (true, None, st)
  | _, _ => (true, None, st)
  end.
End Tick.

(** ** Inbound frames *)

Inductive InFrame :=
  | netClones (payload : list bool)
  | netAcks (payload : list bool)
  | otherFrame.

(** [ParseGameStatePacket], from the decompressed frame on. *)
Definition ParseGameStatePacket (ext : Externals) (client : nat) (frame : InFrame)
    (st : ServerGameState) : ServerGameState :=
  if negb (g_oneSyncVar (convars st)) then st
  else
    match frame with
    | netClones payload => ParseClonePacket ext client payload st
    | netAcks payload => ParseAckPacket client payload st
    | otherFrame => st
    end.

(** ** The [gameStateAck] handler *)

(** The visitor of the handler: a node that is not newer than the
    acknowledged frame counts as received by the client of the slot. *)
Definition ack_node (slot frameIndex : N) (node : NodeBase) : NodeBase :=
  if node_frameIndex node <=? frameIndex
  then mkNodeBase (node_frameIndex node) (Bitset.set (ackedPlayers node) slot)
  else node.

(** The body of the loop over the ids sent in the frame. *)
Definition gameStateAck_entity (client : nat) (frameIndex : N) (ignoreHandles : list N)
    (entityId : N) (st : ServerGameState) : ServerGameState :=
  match GetEntity st entityId with
  | Some entityRef =>
    match e_syncTree entityRef with
    | None => st
    | Some _ =>
      let slot := c_slotId (get_client st client) in
      let hasCreated := Bitset.test (ackedCreation entityRef) slot in
      let hasDeleted := Bitset.test (didDeletion entityRef) slot in
      if negb hasCreated || hasDeleted then st
      else if bool_decide (e_handle entityRef ∈ ignoreHandles) then st
      else
        update_entity (e_addr entityRef)
          (λ e, set_e_syncTree (Visit (ack_node slot frameIndex) <$> e_syncTree e) e) st
    end
  | None => st
  end.

(** The handler of [gameStateAck], from the decoded message on: the frame
    index and the object ids to ignore. The value it leaves under the key
    ["syncFrameIndex"] of the client is not read by the engine and is left
    out. *)
Definition gameStateAck (client : nat) (frameIndex : N) (ignoreIds : list N)
    (st : ServerGameState) : ServerGameState :=
  let ignoreHandles := MakeEntityHandle 0 <$> ignoreIds in
  let range :=
    filter (λ p, p.1 = frameIndex) (idsForGameState (GetClientData st client)) in
  let st :=
    fold_left (λ st p, gameStateAck_entity client frameIndex ignoreHandles p.2 st)
      range st in
  update_client_data client
    (λ d, set_idsForGameState
            (filter (λ p, p.1 ≠ frameIndex) (idsForGameState d)) d) st.

(** ** The removals of a tick *)

(** The object ids, in the order of the loop [for (uint16_t i = 0; i <
    MaxObjectId; i++)]. *)
Definition object_ids : list N := N.of_nat <$> seq 0 (N.to_nat MaxObjectId).

(** One iteration of the last command [Tick] queues for a client: a
    remove record for the id, if its removal is pending, into the clone
    buffer of the command list. *)
Definition removal_step (ext : Externals) (frameIndex : N) (client : nat)
    (acc : MessageBuffer * ServerGameState) (i : N) : MessageBuffer * ServerGameState :=
  let '(cloneBuffer, st) := acc in
  if Bitset.test (pendingRemovals (GetClientData st client)) i then
    let cloneBuffer := Write 3 3 cloneBuffer in
    let cloneBuffer := Write 13 i cloneBuffer in
    let '(cloneBuffer, pkts) :=
      MaybeFlushBuffer (LZ4_compressBound ext) cloneBuffer msgPackedClones frameIndex client in
    (cloneBuffer, send_frames pkts st)
  else acc.

Definition removal_command (ext : Externals) (frameIndex : N) (client : nat)
    (cloneBuffer : MessageBuffer) (st : ServerGameState) : MessageBuffer * ServerGameState :=
  fold_left (removal_step ext frameIndex client) object_ids (cloneBuffer, st).

(** ** The entities of a tick: seats and cameras *)

(** [(v != -1) ? GetEntity(0, v) : nullptr], the vehicle a ped game state
    names. *)
Definition vehicle_of (st : ServerGameState) (v : Z) : option SyncEntityState :=
  if (v =? -1)%Z then None else GetEntity st (Z.to_N (v mod 65536)).

(** The ped takes the seat if it is empty. *)
Definition take_seat (seat : Z) (pedHandle : N) (isPlayer : bool) (tree : SyncTree)
    : SyncTree :=
  match tree_vehicleGameState tree with
  | Some d =>
    if bool_decide (occupant_at d seat = Some 0) then
      mkSyncTree (tree_nodes tree) (tree_position tree) (tree_playerCamera tree)
        (Some (mkVehicleData (<[Z.to_nat seat := pedHandle]> (occupants d))
                 (if isPlayer then Bitset.set (playerOccupants d) (Z.to_N seat)
                  else playerOccupants d)))
        (tree_pedGameState tree)
    else tree
  | None => tree
  end.

(** [lastVehicle = curVehicle; lastVehicleSeat = curVehicleSeat]. *)
Definition seat_taken (tree : SyncTree) : SyncTree :=
  mkSyncTree (tree_nodes tree) (tree_position tree) (tree_playerCamera tree)
    (tree_vehicleGameState tree)
    ((λ vd, mkPedData (curVehicle vd) (curVehicleSeat vd) (curVehicle vd) (curVehicleSeat vd))
       <$> tree_pedGameState tree).

(** The seat bookkeeping of [UpdateEntities] for the entity at [a]; the
    camera half of the loop body is [UpdateEntities_camera]. *)
Definition UpdateEntities_seat (a : nat) (st : ServerGameState) : ServerGameState :=
  match find_entity a (m_entityList st) with
  | None => st
  | Some entity =>
    match e_syncTree entity with
    | None => st
    | Some tree =>
      (* update vehicle seats, if it's a ped *)
      if is_ped_or_player (e_type entity) then
        let pedHandle := objectId_of (e_handle entity) in
        match tree_pedGameState tree with
        | Some vehicleData =>
          if negb (lastVehicle vehicleData =? curVehicle vehicleData)%Z
             || negb (lastVehicleSeat vehicleData =? curVehicleSeat vehicleData)%Z
          then
            let lastV := vehicle_of st (lastVehicle vehicleData) in
            let curV := vehicle_of st (curVehicle vehicleData) in
            let st :=
              match lastV with
              | Some lv =>
                update_entity (e_addr lv)
                  (λ e, set_e_syncTree
                          (clear_seat (lastVehicleSeat vehicleData) pedHandle
                             <$> e_syncTree e) e) st
              | None => st
              end in
            let st :=
              match curV with
              | Some cv =>
                update_entity (e_addr cv)
                  (λ e, set_e_syncTree
                          (take_seat (curVehicleSeat vehicleData) pedHandle
                             (bool_decide (e_type entity = Player))
                             <$> e_syncTree e) e) st
              | None => st
              end in
            update_entity a (λ e, set_e_syncTree (seat_taken <$> e_syncTree e) e) st
          else st
        | None => st
        end
      else st
    end
  end.

Definition UpdateEntities_seats (st : ServerGameState) : ServerGameState :=
  fold_left (λ st a, UpdateEntities_seat a st) (map e_addr (m_entityList st)) st.

(** The camera half of the body of the loop of [UpdateEntities] for the
    entity at [a]: the view matrix of the owner of a player entity. *)
Definition UpdateEntities_camera (ext : Externals) (a : nat)
    (st : ServerGameState) : ServerGameState :=
  match find_entity a (m_entityList st) with
  | None => st
  | Some entity =>
    match e_syncTree entity with
    | None => st
    | Some tree =>
      (* update client camera *)
      match e_type entity with
      | Player =>
        match lock_client st (e_client entity) with
        | Some client =>
          match tree_playerCamera tree with
          | Some camData =>
            let '(px, py, pz) := tree_position tree in
            let camTranslate :=
              if camMode camData =? 1 then freeCamPos camData
              else if camMode camData =? 2 then
                let '(ox, oy, oz) := camOff camData in
                (px + ox, py + oy, pz + oz)%Q
              else (px, py, pz) in
            update_client_data (c_addr client)
              (set_viewMatrix
                 (glm_viewMatrix ext camTranslate (cameraX camData) (cameraZ camData))) st
          | None => st
          end
        | None => st
        end
      | _ => st
      end
    end
  end.

(** [UpdateEntities]: for every entity of the list, the camera and then
    the seats. *)
Definition UpdateEntities (ext : Externals) (st : ServerGameState) : ServerGameState :=
  fold_left (λ st a, UpdateEntities_seat a (UpdateEntities_camera ext a st))
    (map e_addr (m_entityList st)) st.

(** ** The passes of a tick *)

(** The first loop of [Tick]: every entity is stamped with the frame. *)
Definition Tick_frameIndex (st : ServerGameState) : ServerGameState :=
  set_m_entityList (map (set_e_frameIndex (m_frameIndex st)) (m_entityList st)) st.

(** [GameStateClientData::FlushAcks]. *)
Definition FlushAcks (client : nat) (st : ServerGameState) : ServerGameState :=
  match find_client client (registry st) with
  | Some clientRef =>
    let '(ackBuffer, pkts) :=
      FlushBuffer (ackBuffer (c_syncData clientRef)) msgPackedAcks 0 client in
    send_frames pkts (update_client_data client (set_ackBuffer ackBuffer) st)
  | None => st
  end.

(** What [Tick] does for a client before it looks at the entities; the
    result says whether the tick goes on for the client. *)
Definition Tick_client (client : nat) (st : ServerGameState) : bool * ServerGameState :=
  if c_slotId (get_client st client) =? NoSlot then (false, st)
  else
    match playerId (GetClientData st client) with
    | None => (false, st)
    | Some _ =>
      (* any ACKs to send? *)
      let st := FlushAcks client st in
      if syncing (GetClientData st client) then (false, st)
      else (true, update_client_data client (set_syncing true) st)
    end.

(** What [Tick] does for a client after it has posted the commands:
    [idsForGameState.erase(m_frameIndex - 100)]. Frame indices are
    [uint64_t], as the frame index of a command list is, and the
    difference wraps. *)
Definition Tick_client_end (client : nat) (st : ServerGameState) : ServerGameState :=
  let key := (m_frameIndex st + 2 ^ 64 - 100) mod 2 ^ 64 in
  update_client_data client
    (λ d, set_idsForGameState (filter (λ p, p.1 ≠ key) (idsForGameState d)) d) st.

(** The end of [Tick]: [++m_frameIndex]. *)
Definition Tick_end (st : ServerGameState) : ServerGameState :=
  set_m_frameIndex ((m_frameIndex st + 1) mod 2 ^ 64) st.

(** ** The worker of a tick *)

Section Worker.
Context (ext : Externals).

(** [SyncCommandState::maybeFlushBuffer] and [flushBuffer], on the clone
    buffer of the command list. *)
Definition clone_maybe_flush (frameIndex : N) (client : nat)
    (acc : MessageBuffer * ServerGameState) : MessageBuffer * ServerGameState :=
  let '(cloneBuffer, pkts) :=
    MaybeFlushBuffer (LZ4_compressBound ext) acc.1 msgPackedClones frameIndex client in
  (cloneBuffer, send_frames pkts acc.2).

Definition clone_flush (frameIndex : N) (client : nat)
    (acc : MessageBuffer * ServerGameState) : MessageBuffer * ServerGameState :=
  let '(cloneBuffer, pkts) := FlushBuffer acc.1 msgPackedClones frameIndex client in
  (cloneBuffer, send_frames pkts acc.2).

(** The first command of a list: the time of the tick, in two halves. *)
Definition time_command (frameIndex : N) (client : nat) (time : N)
    (acc : MessageBuffer * ServerGameState) : MessageBuffer * ServerGameState :=
  let '(cloneBuffer, st) := acc in
  let cloneBuffer := Write 3 5 cloneBuffer in
  let cloneBuffer := Write 32 (N.land time 0xFFFFFFFF) cloneBuffer in
  let cloneBuffer := Write 32 (N.land (N.shiftr time 32) 0xFFFFFFFF) cloneBuffer in
  clone_maybe_flush frameIndex client (cloneBuffer, st).

(** The command [Tick] queues for an entity it sends. [unparsed] is what
    [entity->syncTree->Unparse(state)] returns and the buffer [mb] of the
    thread as it leaves it: the serialization of a sync tree is outside
    the sources. The command holds the entity and its owner, which it
    finds in the state as long as the list and the registry hold them. *)
Definition sync_command (frameIndex : N) (client : nat) (cmd : SyncCommand)
    (unparsed : bool * MessageBuffer) (acc : MessageBuffer * ServerGameState)
    : MessageBuffer * ServerGameState :=
  let '(cloneBuffer, st) := acc in
  match find_entity (cmd_entity cmd) (m_entityList st) with
  | None => acc
  | Some entity =>
    if c_slotId (get_client st client) =? NoSlot then acc
    else
      let '(wroteData, mb) := unparsed in
      if wroteData then
        let len := GetCurrentBit mb / 8 + 1 in
        if 4096 <? len then acc
        else
          let startBit := GetCurrentBit cloneBuffer in
          let objectId := objectId_of (e_handle entity) in
          let st :=
            update_client_data client
              (λ d, set_idsForGameState (idsForGameState d ++ [(frameIndex, objectId)]) d)
              st in
          let cloneBuffer := Write 3 (cmd_syncType cmd) cloneBuffer in
          let cloneBuffer := Write 13 objectId cloneBuffer in
          (* TODO: replace with slotId *)
          let cloneBuffer :=
            Write 16 (c_netId (get_client st (cmd_entityClient cmd))) cloneBuffer in
          let cloneBuffer :=
            if cmd_syncType cmd =? 1
            then Write 4 (NetObjEntityType_to_wire ext (e_type entity)) cloneBuffer
            else cloneBuffer in
          let cloneBuffer := Write 32 (e_timestamp entity) cloneBuffer in
          let cloneBuffer := Write 12 len cloneBuffer in
          let nbits := (N.to_nat len * 8)%nat in
          let '(cloneBuffer, written) :=
            WriteBits (take nbits (pad_to nbits (mb_data mb))) cloneBuffer in
          if negb written then
            let cloneBuffer := SetCurrentBit startBit cloneBuffer in
            (* force a buffer flush, we're oversize *)
            clone_maybe_flush frameIndex client
              (clone_flush frameIndex client (cloneBuffer, st))
          else
            let slotId := c_slotId (get_client st client) in
            if slotId =? NoSlot then (cloneBuffer, st)
            else
              let st :=
                update_entity (e_addr entity)
                  (λ e, set_lastSyncs (<[slotId := cmd_curTime cmd]> (lastSyncs e))
                          (set_lastResends (<[slotId := cmd_curTime cmd]> (lastResends e)) e))
                  st in
              clone_maybe_flush frameIndex client (cloneBuffer, st)
      else acc
  end.

(** The commands of a [SyncCommandList]: the time, the entities to send,
    each with what its [Unparse] will give, and the removals. *)
Inductive Command :=
  | TimeCommand (time : N)
  | EntityCommand (cmd : SyncCommand) (unparsed : bool * MessageBuffer)
  | RemovalCommand.

Definition run_command (frameIndex : N) (client : nat)
    (acc : MessageBuffer * ServerGameState) (c : Command)
    : MessageBuffer * ServerGameState :=
  match c with
  | TimeCommand time => time_command frameIndex client time acc
  | EntityCommand cmd unparsed => sync_command frameIndex client cmd unparsed acc
  | RemovalCommand => removal_command ext frameIndex client acc.1 acc.2
  end.

(** [SyncCommandList::Execute]. *)
Definition Execute (frameIndex : N) (client : nat) (commands : list Command)
    (st : ServerGameState) : ServerGameState :=
  let scs := MessageBuffer_new 16384 in
  (clone_flush frameIndex client
     (fold_left (run_command frameIndex client) commands (scs, st))).2.

(** The work [Tick] posts to the thread pool for a client. *)
Definition run_sync_commands (frameIndex : N) (client : nat) (commands : list Command)
    (st : ServerGameState) : ServerGameState :=
  let st := Execute frameIndex client commands st in
  update_client_data client (set_syncing false) st.
End Worker.

(** ** The engine as a transition system *)

(** What can happen to the engine between two observations. From the
    network: one record of an inbound clone or ack frame is processed, a
    [gameStateAck] is handled, object ids are issued, a client is dropped.
    From [Tick]: the entities are stamped with the frame, a grid message is
    sent, [UpdateEntities] runs, the tick starts for a client, decides
    about one client and one entity, ends for a client, and ends. From the
    other threads: the worker runs the commands of a client, a deferred
    callback runs. And what the engine shares changes outside it: the
    client registry, the console variables, the script-GUID pool, and the
    position kept in the data of an entity, which the engine reads and
    never writes. *)
Inductive engine_step (ext : Externals) : ServerGameState → ServerGameState → Prop :=
  | step_clone_record client msgBuf ackPacket st :
      engine_step ext st (ParseClonePacket_record ext client msgBuf ackPacket st).2
  | step_ack_record client msgBuf st :
      engine_step ext st (ParseAckPacket_record client msgBuf st).2
  | step_game_state_ack client frameIndex ignoreIds st :
      engine_step ext st (gameStateAck client frameIndex ignoreIds st)
  | step_object_ids client numIds st :
      engine_step ext st (SendObjectIds client numIds st)
  | step_client_drop client st :
      engine_step ext st (HandleClientDrop client st)
  | step_tick_frameIndex st :
      engine_step ext st (Tick_frameIndex st)
  | step_world_grid client st :
      engine_step ext st (send (WorldGrid client) st)
  | step_update_entities st :
      engine_step ext st (UpdateEntities ext st)
  | step_tick_client client st :
      engine_step ext st (Tick_client client st).2
  | step_tick_entity curTime resendDelay client a entityPos entityClient st :
      engine_step ext st
        (Tick_entity ext curTime resendDelay client a entityPos entityClient st).2
  | step_tick_client_end client st :
      engine_step ext st (Tick_client_end client st)
  | step_tick_end st :
      engine_step ext st (Tick_end st)
  | step_sync_commands frameIndex client commands st :
      engine_step ext st (run_sync_commands ext frameIndex client commands st)
  | step_main_thread st :
      engine_step ext st (run_main_thread_callback ext st)
  | step_net_thread st :
      engine_step ext st (run_net_thread_callback st)
  | step_registry clients st :
      engine_step ext st (set_registry clients st)
  | step_convars cv st :
      engine_step ext st (set_convars cv st)
  | step_script_pool pool st :
      engine_step ext st (set_g_scriptHandlePool pool st)
  | step_entity_data a pos st :
      engine_step ext st (update_entity a (set_e_pos pos) st).

(** The states the engine reaches from its initial state. *)
Inductive reachable (ext : Externals) : ServerGameState → Prop :=
  | reachable_new cv : reachable ext (ServerGameState_new cv)
  | reachable_step st st' :
      reachable ext st → engine_step ext st st' → reachable ext st'.

(** * Vocabulary of the properties *)

(** The head of a list is at no greater distance than its other
    elements. *)
Definition head_closest (l : list (Q * nat)) : Prop :=
  match l with
  | [] => True
  | h :: _ => ∀ c, c ∈ l → (fst h <= fst c)%Q
  end.

(** The slot of the pool that [MakeScriptHandle] finds or takes for the
    entity, the script handle it returns, and the state it leaves. *)
Definition script_guid (ext : Externals) (pool : CPool) (e : SyncEntityState) : N :=
  match guid e with
  | Some g => g
  | None => default (CPool_New ext pool) (find_script_guid pool (e_handle e))
  end.

Definition script_handle (ext : Externals) (pool : CPool) (e : SyncEntityState) : N :=
  script_guid ext pool e + 0x20000.

Definition MakeScriptHandle_state (ext : Externals) (e : SyncEntityState)
    (st : ServerGameState) : ServerGameState :=
  let pool := g_scriptHandlePool st in
  set_g_scriptHandlePool
    match guid e, find_script_guid pool (e_handle e) with
    | None, None =>
      set_slot (CPool_New ext pool) (mkScriptGuid GuidEntity (e_handle e)) pool
    | _, _ => pool
    end
    (set_m_entityList
       match guid e with
       | Some _ => m_entityList st
       | None =>
         map (λ e', if (e_addr e' =? e_addr e)%nat
                    then set_guid (Some (script_guid ext pool e)) e' else e')
           (m_entityList st)
       end st).

(** No slot has both [ackedCreation] and [didDeletion] set. *)
Definition ack_exclusive (e : SyncEntityState) : Prop :=
  ∀ s, ¬ (Bitset.test (ackedCreation e) s = true ∧ Bitset.test (didDeletion e) s = true).

Definition ack_exclusive_state (st : ServerGameState) : Prop :=
  Forall ack_exclusive (m_entityList st).

(** An update of an entity that leaves both bitsets alone. *)
Definition ack_neutral (f : SyncEntityState → SyncEntityState) : Prop :=
  ∀ e, ackedCreation (f e) = ackedCreation e ∧ didDeletion (f e) = didDeletion e.

(** The state of [ProcessClonePacket] once the header of the record is
    read: the client has a ["timestamp"] and a [playerId]. *)
Definition clone_prelude (client : nat) (st : ServerGameState) : ServerGameState :=
  update_client_data client (set_playerId (Some 0))
    match c_timestamp (get_client st client) with
    | None => update_client client
                (set_c_timestamp (Some (default 0 (c_syncTs (get_client st client))))) st
    | Some _ => st
    end.

(** An update of clients that keeps who they are. *)
Definition keeps_identity (g : Client → Client) : Prop :=
  ∀ c, c_addr (g c) = c_addr c ∧ c_netId (g c) = c_netId c ∧ c_slotId (g c) = c_slotId c.

(** The clients of [st'] are those of [st], with the same net ids and
    slots. *)
Record same_identities (st st' : ServerGameState) : Prop := {
  same_lock : ∀ w, is_Some (lock_client st' w) ↔ is_Some (lock_client st w);
  same_lock_netId : ∀ w, c_netId <$> lock_client st' w = c_netId <$> lock_client st w;
  same_netId : ∀ a, c_netId (get_client st' a) = c_netId (get_client st a);
  same_slotId : ∀ a, c_slotId (get_client st' a) = c_slotId (get_client st a)
}.

(** Setting the sender's bits on the entity at [a]. *)
Definition acknowledge (a : nat) (slot : N) (st : ServerGameState) : ServerGameState :=
  update_entity a
    (λ e, set_ackedCreation (Bitset.set (ackedCreation e) slot)
            (set_didDeletion (Bitset.reset (didDeletion e) slot) e)) st.

(** The bits of a buffer up to its cursor. *)
Definition stream_of (b : MessageBuffer) : list bool :=
  take (N.to_nat (mb_curBit b)) (pad_to (N.to_nat (mb_curBit b)) (mb_data b)).

(** The object id of a clone record with the given tag: a takeover has it
    after the 16-bit client id, the other records have it first. *)
Definition record_objectId (tag : N) (body : MessageBuffer) : N :=
  if tag =? 4 then (Read 13 (Read 16 body).2).1 else (Read 13 body).1.

Definition entities_unchanged (st st' : ServerGameState) : Prop :=
  m_entityList st' = m_entityList st ∧ m_entitiesById st' = m_entitiesById st.

(** A read moves the cursor forward and keeps the capacity. *)
Definition advanced (n : N) (b b' : MessageBuffer) : Prop :=
  mb_maxBit b' = mb_maxBit b ∧ mb_curBit b + n ≤ mb_curBit b'.

(** The ids a list of (gap, run) pairs stands for: a run starts
    [gap + 2] above [last], the last id before it, and has [size + 1]
    ids. *)
Fixpoint decode_id_pairs (last : Z) (pairs : list (Z * Z)) : list Z :=
  match pairs with
  | [] => []
  | (gap, size) :: pairs' =>
    let first := (gap + 2 + last)%Z in
    seqZ first (size + 1) ++ decode_id_pairs (first + size)%Z pairs'
  end.

(** An id that [SendObjectIds] may hand out. *)
Definition id_free (st : ServerGameState) (id : N) : Prop :=
  Bitset.test (m_objectIdsSent st) id = false ∧ Bitset.test (m_objectIdsUsed st) id = false.

(** What [gather_ids] returns and leaves behind. *)
Record gathered (numIds : nat) (id : N) (st : ServerGameState)
    (ids : list N) (st' : ServerGameState) : Prop := {
  gathered_free : Forall (λ i, id ≤ i < MaxObjectId ∧ id_free st i) ids;
  gathered_sorted : StronglySorted N.lt ids;
  gathered_count : (length ids ≤ numIds)%nat;
  gathered_sent : ∀ j, Bitset.test (m_objectIdsSent st') j
                       = Bitset.test (m_objectIdsSent st) j || bool_decide (j ∈ ids);
  gathered_used : m_objectIdsUsed st' = m_objectIdsUsed st;
  gathered_lowest : ∀ j, id ≤ j < MaxObjectId → id_free st j → j ∉ ids →
                         length ids = numIds ∧ Forall (λ i, i < j) ids
}.

(** An update of entities that keeps which object they are. *)
Definition entity_static (g : SyncEntityState → SyncEntityState) : Prop :=
  ∀ e, e_addr (g e) = e_addr e ∧ e_handle (g e) = e_handle e.

(** [OnCloneRemove] changes of an entity at most the seats of its sync
    tree. *)
Definition seats_only (e e' : SyncEntityState) : Prop :=
  e_addr e' = e_addr e ∧ e_client e' = e_client e ∧ e_type e' = e_type e
  ∧ e_handle e' = e_handle e ∧ guid e' = guid e ∧ deleting e' = deleting e
  ∧ ackedCreation e' = ackedCreation e ∧ didDeletion e' = didDeletion e
  ∧ lastSyncs e' = lastSyncs e ∧ lastResends e' = lastResends e
  ∧ e_timestamp e' = e_timestamp e
  ∧ (tree_nodes <$> e_syncTree e') = (tree_nodes <$> e_syncTree e).


(** The entity as the cull of [Tick] leaves it for one slot. *)
Definition culled (slot : N) (e : SyncEntityState) : SyncEntityState :=
  set_didDeletion (Bitset.set (didDeletion e) slot)
    (set_ackedCreation (Bitset.reset (ackedCreation e) slot) e).

(** The registry of [st'] is that of [st] with the clients updated in
    place, each keeping its address, net id and slot. *)
Definition identities_kept (st st' : ServerGameState) : Prop :=
  ∃ h, keeps_identity h ∧ registry st' = map h (registry st).

(** The state of the drop handler before its last two steps: the orphans
    reassigned, the removals under way. *)
Definition HandleClientDrop_orphans (client : nat) (st : ServerGameState)
    : ServerGameState :=
  let '(toErase, st) :=
    fold_left (λ acc a, HandleClientDrop_entity client a acc)
      (map e_addr (m_entityList st)) ([], st) in
  fold_left (λ st handle, RemoveClone client (objectId_of handle) st) toErase st.

(** The entities are distinct objects allocated before [next_addr], and
    every id of [m_entitiesById] is an object id that leads, if to an
    entity at all, to one whose handle was made from it. *)
Definition well_formed (st : ServerGameState) : Prop :=
  Forall (λ e, (e_addr e < next_addr st)%nat) (m_entityList st)
  ∧ NoDup (e_addr <$> m_entityList st)
  ∧ map_Forall (λ o a,
                  o < MaxObjectId ∧ (a < next_addr st)%nat
                  ∧ ∀ e, find_entity a (m_entityList st) = Some e →
                         e_handle e = MakeEntityHandle 0 o)
      (m_entitiesById st).

(** An entity as the handler leaves it when it acknowledges its nodes. *)
Definition ack_nodes (slot frameIndex : N) (e : SyncEntityState) : SyncEntityState :=
  set_e_syncTree (Visit (ack_node slot frameIndex) <$> e_syncTree e) e.

(** Whether the handler acknowledges the nodes of the entity at [a]: one of
    the ids sent in the frame leads to it, it has a sync tree, the client
    has created and not deleted it, and it is not to be ignored. *)
Definition gameStateAck_acked (st : ServerGameState) (client : nat) (frameIndex : N)
    (ignoreIds : list N) (a : nat) : bool :=
  let slot := c_slotId (get_client st client) in
  existsb
    (λ p, (p.1 =? frameIndex)
          && match GetEntity st p.2 with
             | Some e =>
               (a =? e_addr e)%nat
               && bool_decide (is_Some (e_syncTree e))
               && Bitset.test (ackedCreation e) slot
               && negb (Bitset.test (didDeletion e) slot)
               && negb (bool_decide (e_handle e ∈ MakeEntityHandle 0 <$> ignoreIds))
             | None => false
             end)
    (idsForGameState (GetClientData st client)).

(** Whether the id [entityId] makes the handler acknowledge the nodes of
    the entity at [a]. *)
Definition gameStateAck_accepts (st : ServerGameState) (slot : N) (ignoreHandles : list N)
    (entityId : N) (a : nat) : bool :=
  match GetEntity st entityId with
  | Some e =>
    (a =? e_addr e)%nat
    && bool_decide (is_Some (e_syncTree e))
    && Bitset.test (ackedCreation e) slot
    && negb (Bitset.test (didDeletion e) slot)
    && negb (bool_decide (e_handle e ∈ ignoreHandles))
  | None => false
  end.

(** The ids whose removal is pending, in ascending order. *)
Definition pending_ids (pending : Bitset.t) : list N :=
  filter (λ i, Bitset.test pending i = true) object_ids.

(** The remove records of the ids, as bits. *)
Definition removal_records (ids : list N) : list bool :=
  concat ((λ i, bits_of 3 3 ++ bits_of 13 i) <$> ids).

(** The ped game state of the entity, if it is a ped with a sync tree,
    names the same vehicle and seat as current and as last. *)
Definition seated (e : SyncEntityState) : Prop :=
  ∀ tree vd,
    e_syncTree e = Some tree → is_ped_or_player (e_type e) = true →
    tree_pedGameState tree = Some vd →
    lastVehicle vd = curVehicle vd ∧ lastVehicleSeat vd = curVehicleSeat vd.

(** An update of the seats of a vehicle keeps what [seated] looks at. *)
Definition keeps_ped (g : SyncEntityState → SyncEntityState) : Prop :=
  ∀ e, e_addr (g e) = e_addr e ∧ e_type (g e) = e_type e
       ∧ (tree_pedGameState <$> e_syncTree (g e)) = (tree_pedGameState <$> e_syncTree e).

(** The entity as an accepted sync record leaves it. *)
Definition synced (ext : Externals) (slot timestamp frame : N) (bits : list bool)
    (e : SyncEntityState) : SyncEntityState :=
  set_lastResends ∅
    (set_e_syncTree (Parse ext bits 2 frame <$> e_syncTree e)
       (set_e_timestamp timestamp
          (set_ackedCreation (Bitset.set (ackedCreation e) slot)
             (set_didDeletion (Bitset.reset (didDeletion e) slot) e)))).

(** The payload of a sync record: the bytes its 12-bit length field
    announces, after the 13-bit object id. *)
Definition sync_payload (inPacket : MessageBuffer) : list bool :=
  let p1 := (Read 13 inPacket).2 in
  (ReadBits (N.to_nat (Read 12 p1).1 * 8) (Read 12 p1).2).1.

(** * Concrete scenarios *)

(** The clip planes of [glm::perspective(90.0f, 4.f / 3.f, 0.1f, 1000.f)],
    with [1 / tan(45)] rounded to 0.61737. *)
Definition demo_clips : ViewClips :=
  {| nearClip := (0, 0, -20000 # 9999, -2000 # 9999)%Q;
     farClip := (0, 0, 2 # 9999, 2000 # 9999)%Q;
     topClip := (0, -61737 # 100000, -1, 0)%Q;
     bottomClip := (0, 61737 # 100000, -1, 0)%Q;
     leftClip := (46303 # 100000, 0, -1, 0)%Q;
     rightClip := (-46303 # 100000, 0, -1, 0)%Q |}.

Definition demo_tree (pos : vec3) : SyncTree :=
  mkSyncTree [mkNodeBase 0 Bitset.empty; mkNodeBase 0 Bitset.empty] pos None None None.

Definition demo_type_of_wire (n : N) : NetObjEntityType :=
  match n with
  | 0 => Automobile | 1 => Bike | 2 => Boat | 4 => Heli | 5 => Object | 6 => Ped
  | 9 => Plane | 10 => Submarine | 11 => Player | 12 => Trailer | 13 => Train
  | _ => OtherType n
  end.

Definition demo_wire_of_type (t : NetObjEntityType) : N :=
  match t with
  | Automobile => 0 | Bike => 1 | Boat => 2 | Heli => 4 | Object => 5 | Ped => 6
  | Plane => 9 | Submarine => 10 | Player => 11 | Trailer => 12 | Train => 13
  | OtherType n => n
  end.

(** A pool that hands out its lowest free slot. *)
Definition demo_New (pool : CPool) : N :=
  default 0
    (head (filter (λ i, GetAt pool i = None)
             (N.of_nat <$> seq 0 (N.to_nat (m_Size pool))))).

(** Externals to run the engine with: the bound of lz4, a tree of two
    nodes for every type, a parse that stamps the nodes with the frame, a
    pool that hands out its lowest free slot, and the identity for every
    view matrix. *)
Definition demo_ext : Externals :=
  {| LZ4_compressBound := lz4_compressBound;
     MakeSyncTree := λ _, Some (demo_tree (0, 0, 0)%Q);
     Parse := λ _ _ frame tree, Visit (λ n, mkNodeBase frame (ackedPlayers n)) tree;
     NetObjEntityType_of_wire := demo_type_of_wire;
     g_projectionClips := demo_clips;
     NetObjEntityType_to_wire := demo_wire_of_type;
     CPool_New := demo_New;
     glm_viewMatrix := λ _ _ _, mat4_identity |}.

Definition demo_convars : ConVars := mkConVars true true true.

Definition demo_entity (a : nat) (owner : nat) (t : NetObjEntityType) (objectId : N)
    (pos : vec3) : SyncEntityState :=
  mkEntity a (Some owner) t (MakeEntityHandle 0 objectId) 0 0 0 (Some (demo_tree pos))
    Bitset.empty Bitset.empty ∅ ∅ false (Some pos) None.

Definition demo_client (a : nat) (netId slot : N) : Client :=
  mkClient a netId slot None None None None GameStateClientData_new.

(** An ack buffer holding 540 create-acks: 1080 bytes, whose LZ4 bound is
    exactly 1100. *)
Definition ack_buffer_1080 : MessageBuffer :=
  Nat.iter 540 (λ b, Write 13 5 (Write 3 1 b)) (MessageBuffer_new 16384).


(** Two clients: A (address 1, net id 1, slot 0) and C (address 2, net
    id 2, slot 1). A owns an object with id 5 at (1, 0, 0); C owns its
    player entity, id 6, at ([cx], 0, 0). *)
Definition session_state (cx : Q) : ServerGameState :=
  mkState demo_convars 7
    [demo_entity 10 1 Object 5 (1, 0, 0)%Q; demo_entity 20 2 Player 6 (cx, 0, 0)%Q]
    (<[5 := 10%nat]> (<[6 := 20%nat]> ∅))
    Bitset.empty (Bitset.set (Bitset.set Bitset.empty 5) 6) Bitset.empty
    [demo_client 1 1 0;
     set_c_syncData (set_playerEntity (Some 20%nat) GameStateClientData_new)
       (demo_client 2 2 1)]
    21 [] [] [] [] CPool_new.

(** The payload of a create record and of a sync record after the tag,
    with an empty sync-tree payload. *)
Definition create_record (objectId type : N) : list bool :=
  bits_of 13 objectId ++ bits_of 4 type ++ bits_of 12 0.

Definition sync_record (objectId : N) : list bool :=
  bits_of 13 objectId ++ bits_of 12 0.

(** One client, A, and no entity yet. *)
Definition lobby_state : ServerGameState :=
  set_registry [demo_client 1 1 0] (ServerGameState_new demo_convars).

(** The lobby after A's create record for object 5, a ped, and the entity
    the record creates. *)
Definition created_state : ServerGameState :=
  (ParseClonePacket_record demo_ext 1
     (MessageBuffer_of_bits (bits_of 3 1 ++ create_record 5 6))
     (MessageBuffer_new 16384) lobby_state).2.

Definition created_entity : SyncEntityState :=
  mkEntity 0 (Some 1%nat) Ped (MakeEntityHandle 0 5) 0 0 0
    (Some (demo_tree (0, 0, 0)%Q)) (Bitset.set Bitset.empty 0) Bitset.empty ∅ ∅ false None (Some 0).

(** The lobby after A's create record and one tick at time 1000: the
    entities are stamped and updated, the tick starts for A, decides to
    sync the ped to A and ends, and the worker runs the commands of A,
    with one byte of sync data for the ped. *)
Definition tick_commands : list Command :=
  [TimeCommand 1000;
   EntityCommand (mkSyncCommand 0 1 2 1000) (true, Write 8 171 (MessageBuffer_new 1200));
   RemovalCommand].

Definition ticked_state : ServerGameState :=
  run_sync_commands demo_ext 0 1 tick_commands
    (Tick_end
       (Tick_client_end 1
          (Tick_entity demo_ext 1000 10 1 0 (0, 0, 0)%Q (Some 1%nat)
             (Tick_client 1 (UpdateEntities demo_ext (Tick_frameIndex created_state))).2).2)).

Definition ticked_entity : SyncEntityState :=
  set_lastSyncs (<[0 := 1000]> ∅) (set_lastResends (<[0 := 1000]> ∅) created_entity).

(** The session with removals of the objects 7 and 3072 pending for A. *)
Definition ack_state : ServerGameState :=
  update_client_data 1
    (set_pendingRemovals (Bitset.set (Bitset.set Bitset.empty 7) 3072))
    (session_state 201).

(** An ack frame of A: create-ack of object 5, remove-ack of object 7,
    end, and the padding of the last byte. *)
Definition ack_frame : list bool :=
  bits_of 3 1 ++ bits_of 13 5 ++ bits_of 3 3 ++ bits_of 13 7 ++ bits_of 3 7
  ++ replicate 5 false.

(** The two bits of an entity for one slot. *)
Definition slot_bits (slot : N) (e : SyncEntityState) : bool * bool :=
  (Bitset.test (ackedCreation e) slot, Bitset.test (didDeletion e) slot).

(** The session after C has acknowledged the creation of A's object 5,
    with C's player 500 units away from it. *)
Definition far_state : ServerGameState := acknowledge 10 1 (session_state 501).

Definition far_entity : SyncEntityState :=
  set_ackedCreation (Bitset.set Bitset.empty 1)
    (set_didDeletion (Bitset.reset Bitset.empty 1) (demo_entity 10 1 Object 5 (1, 0, 0)%Q)).

(** The session after C has acknowledged the creation of both entities
    and has been sent both in frame 7. *)
Definition acked_state : ServerGameState :=
  update_client_data 2 (set_idsForGameState [(7, 5); (7, 6)])
    (acknowledge 20 1 (acknowledge 10 1 (session_state 201))).

(** C of the session. *)
Definition client_C : Client :=
  set_c_syncData (set_playerEntity (Some 20%nat) GameStateClientData_new) (demo_client 2 2 1).


(** A car with two empty seats, object 5 of A, and C's player, object 6,
    whose ped game state says that it has just got into seat 1 of the
    car. *)
Definition seat_state : ServerGameState :=
  mkState demo_convars 7
    [mkEntity 10 (Some 1%nat) Automobile (MakeEntityHandle 0 5) 0 0 0
       (Some (mkSyncTree [mkNodeBase 0 Bitset.empty] (1, 0, 0)%Q None
                (Some (mkVehicleData [0; 0] Bitset.empty)) None))
       Bitset.empty Bitset.empty ∅ ∅ false None None;
     mkEntity 20 (Some 2%nat) Player (MakeEntityHandle 0 6) 0 0 0
       (Some (mkSyncTree [mkNodeBase 0 Bitset.empty] (1, 0, 0)%Q None None
                (Some (mkPedData 5 1 (-1) 0))))
       Bitset.empty Bitset.empty ∅ ∅ false None None]
    (<[5 := 10%nat]> (<[6 := 20%nat]> ∅))
    Bitset.empty (Bitset.set (Bitset.set Bitset.empty 5) 6) Bitset.empty
    [demo_client 1 1 0; client_C]
    21 [] [] [] [] CPool_new.

(** * Properties *)

(** ** The bit stream *)

Example bits_of_5 : bits_of 3 5 = [true; false; true].
Proof. reflexivity. Qed.

Example read_write_13 :
  fst (Read 13 (SetCurrentBit 0 (Write 13 4711 (MessageBuffer_new 4)))) = 4711.
Proof. reflexivity. Qed.

Lemma value_of_step (bits : list bool) (acc : N) :
  fold_left (λ acc (b : bool), 2 * acc + (if b then 1 else 0)) bits acc + 1
  ≤ (acc + 1) * 2 ^ N.of_nat (length bits).
Proof.
  revert acc. induction bits as [|b bits IH]; intros acc; simpl length; simpl fold_left.
  - change (N.of_nat 0) with 0. rewrite N.pow_0_r. lia.
  - etrans; [apply IH|].
    rewrite Nat2N.inj_succ, N.pow_succ_r'.
    destruct b; nia.
Qed.

Lemma value_of_bound (bits : list bool) :
  value_of bits < 2 ^ N.of_nat (length bits).
Proof.
  unfold value_of. pose proof (value_of_step bits 0) as H. lia.
Qed.

Lemma ReadBits_length (nbits : nat) (b : MessageBuffer) :
  length (fst (ReadBits nbits b)) = nbits.
Proof.
  unfold ReadBits. simpl. rewrite length_take, length_app, length_replicate. lia.
Qed.

(** A field of [width] bits holds a value below [2 ^ width]. *)
Lemma Read_bound (width : nat) (b : MessageBuffer) :
  fst (Read width b) < 2 ^ N.of_nat width.
Proof.
  unfold Read. simpl fst.
  pose proof (value_of_bound (fst (ReadBits width b))) as H.
  by rewrite ReadBits_length in H.
Qed.

Lemma Read_objectId_bound (b : MessageBuffer) : fst (Read 13 b) < MaxObjectId.
Proof. apply (Read_bound 13). Qed.

Lemma bits_of_length (width : nat) (value : N) : length (bits_of width value) = width.
Proof. induction width; simpl; congruence. Qed.

(** ** Flushing *)

Section FlushFacts.
Variable bound : N -> N.

Lemma FlushBuffer_sends_iff buffer msgType frameIndex client :
  snd (FlushBuffer buffer msgType frameIndex client) ≠ [] ↔ 0 < GetDataLength buffer.
Proof.
  unfold FlushBuffer. destruct (0 <? GetDataLength buffer) eqn:E; simpl.
  - apply N.ltb_lt in E. split; [done|]. intros _. discriminate.
  - apply N.ltb_ge in E. split; [done|]. intros ?. lia.
Qed.

Lemma MaybeFlushBuffer_sends_iff buffer msgType frameIndex client :
  snd (MaybeFlushBuffer bound buffer msgType frameIndex client) ≠ []
  ↔ 1100 < bound (GetDataLength buffer) ∧ 0 < GetDataLength buffer.
Proof.
  unfold MaybeFlushBuffer.
  destruct (1100 <? bound (GetDataLength buffer)) eqn:E.
  - apply N.ltb_lt in E. rewrite FlushBuffer_sends_iff. tauto.
  - apply N.ltb_ge in E. simpl. split; [done|]. intros [? _]. lia.
Qed.

Lemma MaybeFlushBuffer_at_most buffer msgType frameIndex client :
  bound (GetDataLength buffer) ≤ 1100 →
  MaybeFlushBuffer bound buffer msgType frameIndex client = (buffer, []).
Proof.
  intros H. unfold MaybeFlushBuffer.
  destruct (1100 <? bound (GetDataLength buffer)) eqn:E; [|done].
  apply N.ltb_lt in E. lia.
Qed.
End FlushFacts.

(** C9, as the code has it: [MaybeFlushBuffer] sends a packet exactly when
    the LZ4 bound of the payload length is greater than 1100 (and the
    buffer is not empty); at a bound of exactly 1100 it sends nothing and
    leaves the buffer as it is. *)
Theorem MaybeFlushBuffer_flushes_above_1100 :
  ∀ (bound : N → N) buffer msgType frameIndex client,
    (snd (MaybeFlushBuffer bound buffer msgType frameIndex client) ≠ []
     ↔ 1100 < bound (GetDataLength buffer) ∧ 0 < GetDataLength buffer)
    ∧ (bound (GetDataLength buffer) = 1100 →
       MaybeFlushBuffer bound buffer msgType frameIndex client = (buffer, [])).
Proof.
  intros. split.
  - apply MaybeFlushBuffer_sends_iff.
  - intros H. apply MaybeFlushBuffer_at_most. lia.
Qed.

Lemma MaybeFlushBuffer_flushes_above_1100_witness :
  lz4_compressBound (GetDataLength ack_buffer_1080) = 1100
  ∧ MaybeFlushBuffer lz4_compressBound ack_buffer_1080 msgPackedAcks 0 1%nat
    = (ack_buffer_1080, []).
Proof.
  split; [by vm_compute|].
  apply (MaybeFlushBuffer_flushes_above_1100 lz4_compressBound).
  by vm_compute.
Defined.

(** C9, as the claim has it, fails: at a bound of exactly 1100 bytes the
    buffer is not flushed. *)
Lemma MaybeFlushBuffer_not_at_1100 :
  lz4_compressBound (GetDataLength ack_buffer_1080) = 1100
  ∧ snd (MaybeFlushBuffer lz4_compressBound ack_buffer_1080 msgPackedAcks 0 1%nat) = [].
Proof. split; by vm_compute. Qed.

(** ** Sync pacing *)

Lemma Qltb_lt (a b : Q) : Qltb a b = true ↔ (a < b)%Q.
Proof.
  unfold Qltb. rewrite negb_true_iff.
  destruct (Qle_bool b a) eqn:E.
  - apply Qle_bool_iff in E. split; [done|]. intros H. by apply Qlt_not_le in H.
  - split; [|done]. intros _. apply Qnot_le_lt. intros H.
    apply Qle_bool_iff in H. congruence.
Qed.

(** The distance tiers of [Tick_syncDelay] do not depend on the frustum
    test. *)
Lemma Tick_syncDelay_far clips entity entityPos viewMatrix playerPos tree :
  e_syncTree entity = Some tree →
  (500 * 500 < distance2 entityPos playerPos)%Q →
  Tick_syncDelay true clips entity entityPos viewMatrix (Some playerPos) = 500.
Proof.
  intros Ht Hd. unfold Tick_syncDelay. rewrite Ht.
  apply Qltb_lt in Hd. by rewrite Hd.
Qed.

(** C6, as the code has it: with [radiusFrequency] on, the distance tiers
    apply whether or not the entity is inside the frustum. When the client
    has a player entity, the delay is 500 ms beyond 500 units and 250 ms
    beyond 250 units; only otherwise does the frustum decide, 150 ms for
    an entity outside of it and 50 ms for one inside. *)
Theorem Tick_syncDelay_outside_frustum :
  ∀ clips entity entityPos viewMatrix playerPos tree,
    e_syncTree entity = Some tree →
    let near :=
      if IsInFrustum clips entityPos (objRadius (e_type entity)) viewMatrix
      then 50 else 150 in
    Tick_syncDelay true clips entity entityPos viewMatrix playerPos =
      match playerPos with
      | Some playerPos =>
        if Qltb (500 * 500) (distance2 entityPos playerPos) then 500
        else if Qltb (250 * 250) (distance2 entityPos playerPos) then 250
        else near
      | None => near
      end.
Proof.
  intros clips entity entityPos viewMatrix playerPos tree Ht.
  unfold Tick_syncDelay. rewrite Ht.
  destruct (IsInFrustum _ _ _ _), playerPos as [p|]; reflexivity.
Qed.

Lemma Tick_syncDelay_outside_frustum_witness :
  Tick_syncDelay true demo_clips (demo_entity 1 1 Object 5 (0, 0, 100)%Q)
    (0, 0, 100)%Q mat4_identity (Some (0, 0, 0)%Q) = 150.
Proof.
  exact (Tick_syncDelay_outside_frustum demo_clips
           (demo_entity 1 1 Object 5 (0, 0, 100)%Q) (0, 0, 100)%Q mat4_identity
           (Some (0, 0, 0)%Q) (demo_tree (0, 0, 100)%Q) eq_refl).
Defined.

(** C6, as the claim has it, fails: an object 1000 units behind the
    camera is outside the frustum, and its delay is 500 ms, not 150. *)
Lemma Tick_syncDelay_outside_frustum_not_150 :
  g_oneSyncRadiusFrequency demo_convars = true
  ∧ IsInFrustum demo_clips (0, 0, 1000)%Q (objRadius Object) mat4_identity = false
  ∧ Tick_syncDelay (g_oneSyncRadiusFrequency demo_convars) demo_clips
      (demo_entity 1 1 Object 5 (0, 0, 1000)%Q) (0, 0, 1000)%Q mat4_identity
      (Some (0, 0, 0)%Q) = 500.
Proof. by vm_compute. Qed.

(** ** Client drop *)

Lemma candidate_insert_elem (x c : Q * nat) (l : list (Q * nat)) :
  c ∈ candidate_insert x l ↔ c = x ∨ c ∈ l.
Proof.
  induction l as [|y l IH]; simpl.
  - rewrite list_elem_of_singleton, elem_of_nil. tauto.
  - destruct (candidate_ltb x y).
    + rewrite elem_of_cons. tauto.
    + rewrite !elem_of_cons, IH. tauto.
Qed.

Lemma sort_candidates_elem (c : Q * nat) (l : list (Q * nat)) :
  c ∈ sort_candidates l ↔ c ∈ l.
Proof.
  unfold sort_candidates. induction l as [|x l IH]; simpl; [done|].
  rewrite candidate_insert_elem, IH, elem_of_cons. tauto.
Qed.

Lemma candidate_ltb_false (x y : Q * nat) :
  candidate_ltb x y = false → (fst y <= fst x)%Q.
Proof.
  unfold candidate_ltb. intros H. apply orb_false_iff in H as [H _].
  unfold Qltb in H. apply negb_false_iff in H. by apply Qle_bool_iff.
Qed.

Lemma candidate_ltb_true (x y : Q * nat) :
  candidate_ltb x y = true → (fst x <= fst y)%Q.
Proof.
  unfold candidate_ltb. intros H. apply orb_true_iff in H as [H|H].
  - apply Qltb_lt in H. by apply Qlt_le_weak.
  - apply andb_true_iff in H as [H _]. apply negb_true_iff in H.
    unfold Qltb in H. apply negb_false_iff in H. by apply Qle_bool_iff.
Qed.

Lemma candidate_insert_head_closest (x : Q * nat) (l : list (Q * nat)) :
  head_closest l → head_closest (candidate_insert x l).
Proof.
  destruct l as [|y l]; simpl.
  - intros _ c Hc. apply list_elem_of_singleton in Hc as ->. apply Qle_refl.
  - intros Hy. destruct (candidate_ltb x y) eqn:E; simpl.
    + intros c Hc. apply elem_of_cons in Hc as [->|Hc]; [apply Qle_refl|].
      eapply Qle_trans; [by apply candidate_ltb_true|by apply Hy].
    + intros c Hc. apply elem_of_cons in Hc as [->|Hc]; [apply Qle_refl|].
      apply candidate_insert_elem in Hc as [->|Hc].
      * by apply candidate_ltb_false.
      * apply Hy. by right.
Qed.

Lemma sort_candidates_head_closest (l : list (Q * nat)) :
  head_closest (sort_candidates l).
Proof.
  unfold sort_candidates. induction l as [|x l IH]; simpl; [done|].
  by apply candidate_insert_head_closest.
Qed.

(** C5, as the code has it: in the entity loop of the drop handler, an
    entity with a sync tree whose owner is missing or is the dropping
    client is put on the list that [RemoveClone] is then called for when
    it is a Player, when there is no candidate, or when the closest
    candidate is at a squared distance of 90 000 or more; otherwise it is
    reassigned to the first of the sorted candidates, which is one of the
    candidates and at no greater distance than any other. *)
Theorem HandleClientDrop_entity_decision :
  ∀ client a toErase st entity tree,
    find_entity a (m_entityList st) = Some entity →
    e_syncTree entity = Some tree →
    drop_orphan st client entity = true →
    let candidates := drop_candidates st client (entity_pos entity) in
    HandleClientDrop_entity client a (toErase, st) =
      (if bool_decide (e_type entity = Player)
       then (set_insert (e_handle entity) toErase, st)
       else
         match sort_candidates candidates with
         | [] => (set_insert (e_handle entity) toErase, st)
         | (distance, tgt) :: _ =>
           if Qle_bool 90000 distance
           then (set_insert (e_handle entity) toErase, st)
           else (toErase, ReassignEntity (e_handle entity) tgt st)
         end)
    ∧ (∀ closest rest, sort_candidates candidates = closest :: rest →
         closest ∈ candidates ∧ ∀ c, c ∈ candidates → (fst closest <= fst c)%Q).
Proof.
  intros client a toErase st entity tree Hf Ht Ho candidates. split.
  - unfold HandleClientDrop_entity. rewrite Hf, Ht, Ho. fold candidates.
    destruct (e_type entity); try reflexivity.
  - intros closest rest Hs.
    pose proof (sort_candidates_head_closest candidates) as Hmin.
    rewrite Hs in Hmin. simpl in Hmin. split.
    + apply sort_candidates_elem. rewrite Hs. by left.
    + intros c Hc. apply Hmin. rewrite <- Hs. by apply sort_candidates_elem.
Qed.

Lemma HandleClientDrop_entity_decision_witness :
  HandleClientDrop_entity 1 10 ([], session_state 201) =
    ([], ReassignEntity (MakeEntityHandle 0 5) 2 (session_state 201)).
Proof.
  pose proof (HandleClientDrop_entity_decision 1 10 [] (session_state 201)
                (demo_entity 10 1 Object 5 (1, 0, 0)%Q) (demo_tree (1, 0, 0)%Q)
                eq_refl eq_refl eq_refl) as [H _].
  exact H.
Defined.

(** C5, as the claim has it, fails at the boundary: a candidate at a
    squared distance of exactly 90 000 does not exceed 90 000, and the
    entity is removed, not reassigned to it. *)
Lemma HandleClientDrop_removes_at_90000 :
  let st := session_state 301 in
  find_entity 10 (m_entityList st) = Some (demo_entity 10 1 Object 5 (1, 0, 0)%Q)
  ∧ drop_orphan st 1 (demo_entity 10 1 Object 5 (1, 0, 0)%Q) = true
  ∧ map (λ c, (Qeq_bool (fst c) 90000, snd c))
      (sort_candidates (drop_candidates st 1 (1, 0, 0)%Q)) = [(true, 2%nat)]
  ∧ HandleClientDrop_entity 1 10 ([], st) = ([MakeEntityHandle 0 5], st)
  ∧ HandleClientDrop_entity 1 10 ([], st)
    ≠ ([], ReassignEntity (MakeEntityHandle 0 5) 2 st).
Proof.
  simpl. repeat split; try by vm_compute.
Qed.

(** ** The acknowledgement bits *)

Lemma ack_exclusive_neutral f e :
  ack_neutral f → ack_exclusive e → ack_exclusive (f e).
Proof.
  intros Hf He s. destruct (Hf e) as [-> ->]. apply He.
Qed.

(** Acknowledging a creation: sets the one bit and clears the other. *)
Lemma ack_exclusive_acked slot e :
  ack_exclusive
    (set_ackedCreation (Bitset.set (ackedCreation e) slot)
       (set_didDeletion (Bitset.reset (didDeletion e) slot) e)) ↔
  ∀ s, s ≠ slot →
       ¬ (Bitset.test (ackedCreation e) s = true ∧ Bitset.test (didDeletion e) s = true).
Proof.
  unfold ack_exclusive, Bitset.test, Bitset.set, Bitset.reset. simpl.
  split; intros H s.
  - intros Hs. specialize (H s).
    rewrite N.setbit_neq, N.clearbit_neq in H by done. exact H.
  - destruct (decide (s = slot)) as [->|Hs].
    + rewrite N.clearbit_eq. intros [_ ?]. discriminate.
    + rewrite N.setbit_neq, N.clearbit_neq by done. by apply H.
Qed.

(** Culling: clears the one bit and sets the other. *)
Lemma ack_exclusive_culled slot e :
  ack_exclusive e →
  ack_exclusive
    (set_didDeletion (Bitset.set (didDeletion e) slot)
       (set_ackedCreation (Bitset.reset (ackedCreation e) slot) e)).
Proof.
  unfold ack_exclusive, Bitset.test, Bitset.set, Bitset.reset. simpl.
  intros H s. destruct (decide (s = slot)) as [->|Hs].
  - rewrite N.clearbit_eq. intros [? _]. discriminate.
  - rewrite N.setbit_neq, N.clearbit_neq by done. apply H.
Qed.

Lemma ack_exclusive_acked_keeps slot e :
  ack_exclusive e →
  ack_exclusive
    (set_ackedCreation (Bitset.set (ackedCreation e) slot)
       (set_didDeletion (Bitset.reset (didDeletion e) slot) e)).
Proof. intros H. apply ack_exclusive_acked. intros s _. apply H. Qed.

Lemma ack_exclusive_unacked slot e :
  ack_exclusive e →
  ack_exclusive (set_ackedCreation (Bitset.reset (ackedCreation e) slot) e).
Proof.
  unfold ack_exclusive, Bitset.test, Bitset.reset. simpl.
  intros H s [Ha Hd]. apply (H s). split; [|done].
  rewrite N.clearbit_eqb in Ha. by apply andb_true_iff in Ha as [? _].
Qed.

Lemma ack_exclusive_update a f st :
  (∀ e, ack_exclusive e → ack_exclusive (f e)) →
  ack_exclusive_state st → ack_exclusive_state (update_entity a f st).
Proof.
  intros Hf. unfold ack_exclusive_state, update_entity. simpl.
  rewrite Forall_map. intros H. eapply Forall_impl; [exact H|].
  intros e He. simpl. destruct (e_addr e =? a)%nat; auto.
Qed.

(** A step that leaves the entity list alone keeps every property of it. *)
Lemma ack_exclusive_same_entities st st' :
  m_entityList st' = m_entityList st →
  ack_exclusive_state st → ack_exclusive_state st'.
Proof. unfold ack_exclusive_state. by intros ->. Qed.

Create HintDb ack discriminated.

Section AckKeep.
Variable st : ServerGameState.
Hypothesis H : ack_exclusive_state st.

Lemma ack_keep_client a f : ack_exclusive_state (update_client a f st).
Proof. exact H. Qed.

Lemma ack_keep_client_data a f : ack_exclusive_state (update_client_data a f st).
Proof. exact H. Qed.

Lemma ack_keep_for_all_clients f : ack_exclusive_state (for_all_clients f st).
Proof. exact H. Qed.

Lemma ack_keep_send m : ack_exclusive_state (send m st).
Proof. exact H. Qed.

Lemma ack_keep_send_frames m : ack_exclusive_state (send_frames m st).
Proof. exact H. Qed.

Lemma ack_keep_registry v : ack_exclusive_state (set_registry v st).
Proof. exact H. Qed.

Lemma ack_keep_entitiesById v : ack_exclusive_state (set_m_entitiesById v st).
Proof. exact H. Qed.

Lemma ack_keep_sent v : ack_exclusive_state (set_m_objectIdsSent v st).
Proof. exact H. Qed.

Lemma ack_keep_used v : ack_exclusive_state (set_m_objectIdsUsed v st).
Proof. exact H. Qed.

Lemma ack_keep_stolen v : ack_exclusive_state (set_m_objectIdsStolen v st).
Proof. exact H. Qed.

Lemma ack_keep_next_addr v : ack_exclusive_state (set_next_addr v st).
Proof. exact H. Qed.

Lemma ack_keep_events v : ack_exclusive_state (set_events v st).
Proof. exact H. Qed.

Lemma ack_keep_main_queue v : ack_exclusive_state (set_main_thread_queue v st).
Proof. exact H. Qed.

Lemma ack_keep_net_queue v : ack_exclusive_state (set_net_thread_queue v st).
Proof. exact H. Qed.

Lemma ack_keep_pool v : ack_exclusive_state (set_g_scriptHandlePool v st).
Proof. exact H. Qed.

Lemma ack_keep_frameIndex v : ack_exclusive_state (set_m_frameIndex v st).
Proof. exact H. Qed.

Lemma ack_keep_convars v : ack_exclusive_state (set_convars v st).
Proof. exact H. Qed.

Lemma ack_keep_neutral a f :
  ack_neutral f → ack_exclusive_state (update_entity a f st).
Proof.
  intros Hf. apply ack_exclusive_update; [|exact H].
  intros e. by apply ack_exclusive_neutral.
Qed.

Lemma ack_keep_acked a slot :
  ack_exclusive_state
    (update_entity a
       (λ e, set_ackedCreation (Bitset.set (ackedCreation e) slot)
               (set_didDeletion (Bitset.reset (didDeletion e) slot) e)) st).
Proof.
  apply ack_exclusive_update; [|exact H]. intros e. apply ack_exclusive_acked_keeps.
Qed.

Lemma ack_keep_culled a slot :
  ack_exclusive_state
    (update_entity a
       (λ e, set_didDeletion (Bitset.set (didDeletion e) slot)
               (set_ackedCreation (Bitset.reset (ackedCreation e) slot) e)) st).
Proof.
  apply ack_exclusive_update; [|exact H]. intros e. apply ack_exclusive_culled.
Qed.
End AckKeep.

Lemma ack_neutral_intro f :
  (∀ e, ackedCreation (f e) = ackedCreation e) →
  (∀ e, didDeletion (f e) = didDeletion e) → ack_neutral f.
Proof. intros ?? e. auto. Qed.

#[local] Hint Resolve ack_keep_client ack_keep_client_data ack_keep_for_all_clients
  ack_keep_send ack_keep_send_frames ack_keep_registry ack_keep_entitiesById
  ack_keep_sent ack_keep_used ack_keep_stolen ack_keep_next_addr ack_keep_events
  ack_keep_main_queue ack_keep_net_queue ack_keep_pool ack_keep_frameIndex ack_keep_convars
  ack_keep_acked ack_keep_culled : ack.
#[local] Hint Extern 2 (ack_exclusive_state (update_entity _ _ _)) =>
  apply ack_keep_neutral; [|by (intros ?; split)] : ack.

(** What [MakeScriptHandle] comes to. *)
Lemma MakeScriptHandle_eq ext e st :
  MakeScriptHandle ext e st
  = (script_handle ext (g_scriptHandlePool st) e,
     set_guid (Some (script_guid ext (g_scriptHandlePool st) e)) e,
     MakeScriptHandle_state ext e st).
Proof.
  unfold MakeScriptHandle, MakeScriptHandle_state, script_handle, script_guid, GetIndex.
  destruct st, e as [a c t h fi lfi ts tree ac dd ls lr del pos [g|]]; cbn; [done|].
  by destruct (find_script_guid _ _).
Qed.

(** Case analysis on every branch of a handler, each closed by the hints. *)
Ltac case_inner :=
  match goal with
  | |- context [match ?x with _ => _ end] =>
    lazymatch x with
    | context [match _ with _ => _ end] => fail
    | _ => destruct x eqn:?
    end
  end.

Ltac handler_cases :=
  repeat first [rewrite MakeScriptHandle_eq | progress cbv beta iota | case_inner | case_match].

Ltac ack_cases := handler_cases; cbn [fst snd]; auto 20 with ack.

Lemma ack_keep_MakeScriptHandle_state ext e st :
  ack_exclusive_state st → ack_exclusive_state (MakeScriptHandle_state ext e st).
Proof.
  unfold ack_exclusive_state, MakeScriptHandle_state. cbn. intros H.
  destruct (guid e); [done|]. rewrite Forall_map.
  eapply Forall_impl; [exact H|]. intros e' He'. cbn. by destruct (_ =? _)%nat.
Qed.

Lemma ack_keep_destroy e st :
  ack_exclusive_state st → ack_exclusive_state (SyncEntityState_destroy e st).
Proof. intros H. unfold SyncEntityState_destroy. ack_cases. Qed.

#[local] Hint Resolve ack_keep_MakeScriptHandle_state ack_keep_destroy : ack.

Lemma ack_keep_OnCloneRemove entity doRemove st :
  ack_exclusive_state st → ack_exclusive_state (OnCloneRemove entity doRemove st).
Proof. intros H. unfold OnCloneRemove. ack_cases. Qed.

#[local] Hint Resolve ack_keep_OnCloneRemove : ack.

Lemma ack_keep_RemoveClone client objectId st :
  ack_exclusive_state st → ack_exclusive_state (RemoveClone client objectId st).
Proof. intros H. unfold RemoveClone. ack_cases. Qed.

Lemma ack_keep_ReassignEntity h tgt st :
  ack_exclusive_state st → ack_exclusive_state (ReassignEntity h tgt st).
Proof. intros H. unfold ReassignEntity. ack_cases. Qed.

#[local] Hint Resolve ack_keep_RemoveClone ack_keep_ReassignEntity : ack.

Lemma ack_keep_erase_first o l :
  Forall ack_exclusive l → Forall ack_exclusive (erase_first o l).
Proof.
  induction 1 as [|e l He Hl IH]; simpl; [constructor|].
  destruct (_ =? _); [done|by constructor].
Qed.

Lemma ack_keep_continueCloneRemoval o st :
  ack_exclusive_state st → ack_exclusive_state (continueCloneRemoval o st).
Proof.
  intros H. unfold continueCloneRemoval. cbv zeta.
  assert (ack_exclusive_state
            (set_m_entityList
               (erase_first o
                  (m_entityList (set_m_objectIdsUsed (Bitset.reset (m_objectIdsUsed st) o) st)))
               (set_m_objectIdsUsed (Bitset.reset (m_objectIdsUsed st) o) st)))
    by (by apply ack_keep_erase_first).
  ack_cases.
Qed.

Lemma ack_exclusive_new a c t h fi tree g :
  ack_exclusive (mkEntity a c t h fi 0 0 tree Bitset.empty Bitset.empty ∅ ∅ false None g).
Proof. intros s [Hs _]. discriminate Hs. Qed.

Lemma ack_keep_push l e st :
  ack_exclusive e → Forall ack_exclusive l →
  ack_exclusive_state (set_m_entityList (l ++ [e]) st).
Proof.
  intros He H. unfold ack_exclusive_state. simpl. apply Forall_app. split; [done|].
  by constructor.
Qed.

#[local] Hint Resolve ack_keep_push ack_exclusive_new ack_keep_continueCloneRemoval : ack.
#[local] Hint Extern 1 (Forall ack_exclusive (m_entityList ?s)) =>
  change (ack_exclusive_state s) : ack.

Lemma ack_keep_ProcessClonePacket ext client inPacket parsingType out st :
  ack_exclusive_state st →
  ack_exclusive_state (ProcessClonePacket ext client inPacket parsingType out st).2.
Proof.
  intros H. unfold ProcessClonePacket. cbv zeta.
  ack_cases.
Qed.

Lemma ack_keep_ack_flush ext client ackPacket st :
  ack_exclusive_state st → ack_exclusive_state (ack_flush ext client ackPacket st).2.
Proof. intros H. unfold ack_flush. ack_cases. Qed.

Section Records.
Context (ext : Externals) (client : nat) (st : ServerGameState).
Hypothesis H : ack_exclusive_state st.

Lemma ack_keep_ProcessCloneCreate inPacket ackPacket :
  ack_exclusive_state (ProcessCloneCreate ext client inPacket ackPacket st).2.
Proof.
  unfold ProcessCloneCreate.
  pose proof (ack_keep_ProcessClonePacket ext client inPacket 1 0 st H) as H1.
  destruct (ProcessClonePacket _ _ _ _ _ _) as [[? ?] st1]. simpl in H1.
  match goal with |- context [ack_flush ?e ?c ?a ?s] =>
    pose proof (ack_keep_ack_flush e c a s) as H2;
    destruct (ack_flush e c a s) end.
  apply H2. auto with ack.
Qed.

Lemma ack_keep_ProcessCloneSync inPacket ackPacket :
  ack_exclusive_state (ProcessCloneSync ext client inPacket ackPacket st).2.
Proof.
  unfold ProcessCloneSync.
  pose proof (ack_keep_ProcessClonePacket ext client inPacket 2 0 st H) as H1.
  destruct (ProcessClonePacket _ _ _ _ _ _) as [[? ?] st1]. simpl in H1.
  match goal with |- context [ack_flush ?e ?c ?a ?s] =>
    pose proof (ack_keep_ack_flush e c a s) as H2;
    destruct (ack_flush e c a s) end.
  by apply H2.
Qed.

Lemma ack_keep_ProcessCloneRemove inPacket ackPacket :
  ack_exclusive_state (ProcessCloneRemove ext client inPacket ackPacket st).2.
Proof.
  unfold ProcessCloneRemove. destruct (Read 13 inPacket).
  match goal with |- context [ack_flush ?e ?c ?a ?s] =>
    pose proof (ack_keep_ack_flush e c a s H) as H2;
    destruct (ack_flush e c a s) end.
  simpl in H2. ack_cases.
Qed.

Lemma ack_keep_ProcessCloneTakeover inPacket :
  ack_exclusive_state (ProcessCloneTakeover client inPacket st).2.
Proof. unfold ProcessCloneTakeover. ack_cases. Qed.

Lemma ack_keep_ParseClonePacket_record msgBuf ackPacket :
  ack_exclusive_state (ParseClonePacket_record ext client msgBuf ackPacket st).2.
Proof.
  unfold ParseClonePacket_record. destruct (Read 3 msgBuf) as [dataType msgBuf'].
  repeat match goal with |- context [if ?b then _ else _] => destruct b end.
  - pose proof (ack_keep_ProcessCloneCreate msgBuf' ackPacket).
    by destruct (ProcessCloneCreate _ _ _ _ _) as [[? ?] ?].
  - pose proof (ack_keep_ProcessCloneSync msgBuf' ackPacket).
    by destruct (ProcessCloneSync _ _ _ _ _) as [[? ?] ?].
  - pose proof (ack_keep_ProcessCloneRemove msgBuf' ackPacket).
    by destruct (ProcessCloneRemove _ _ _ _ _) as [[? ?] ?].
  - pose proof (ack_keep_ProcessCloneTakeover msgBuf').
    by destruct (ProcessCloneTakeover _ _ _) as [? ?].
  - destruct (Read 32 msgBuf').
    match goal with |- context [ack_flush ?e ?c ?a ?s] =>
      pose proof (ack_keep_ack_flush e c a s H) as H2;
      destruct (ack_flush e c a s) end.
    simpl in H2. ack_cases.
  - done.
Qed.

Lemma ack_keep_ack_create objectId :
  ack_exclusive_state (ack_create client objectId st).
Proof.
  unfold ack_create. repeat case_match; try done.
  apply ack_exclusive_update; [|done].
  intros e He. by apply (ack_exclusive_acked_keeps _ (set_e_syncTree _ e)).
Qed.

Lemma ack_keep_ack_remove msgBuf :
  ack_exclusive_state (ack_remove client msgBuf st).2.
Proof. unfold ack_remove. ack_cases. Qed.
End Records.

Lemma ack_keep_ParseAckPacket_record client msgBuf st :
  ack_exclusive_state st →
  ack_exclusive_state (ParseAckPacket_record client msgBuf st).2.
Proof.
  intros H. unfold ParseAckPacket_record. destruct (Read 3 msgBuf) as [dataType msgBuf'].
  repeat match goal with |- context [if ?b then _ else _] => destruct b end.
  - destruct (Read 13 msgBuf') as [objectId msgBuf''].
    pose proof (ack_keep_ack_remove client _ (ack_keep_ack_create client st H objectId) msgBuf'').
    by destruct (ack_remove _ _ _).
  - pose proof (ack_keep_ack_remove client st H msgBuf').
    by destruct (ack_remove _ _ _).
  - done.
Qed.

Lemma ack_keep_Tick_entity ext curTime resendDelay client a entityPos entityClient st :
  ack_exclusive_state st →
  ack_exclusive_state (Tick_entity ext curTime resendDelay client a entityPos entityClient st).2.
Proof. intros H. unfold Tick_entity. ack_cases. Qed.

Lemma ack_keep_run_main_thread_callback ext st :
  ack_exclusive_state st → ack_exclusive_state (run_main_thread_callback ext st).
Proof. intros H. unfold run_main_thread_callback. ack_cases. Qed.

Lemma ack_keep_run_net_thread_callback st :
  ack_exclusive_state st → ack_exclusive_state (run_net_thread_callback st).
Proof. intros H. unfold run_net_thread_callback. ack_cases. Qed.

(** ** What a record does to the engine *)

Lemma find_client_map (g : Client → Client) a l :
  (∀ c, c_addr (g c) = c_addr c) →
  find_client a (map g l) = g <$> find_client a l.
Proof.
  intros Hg. induction l as [|c l IH]; simpl; [done|].
  rewrite Hg. by destruct (c_addr c =? a)%nat.
Qed.

Lemma keeps_identity_if a (f : Client → Client) :
  keeps_identity f → keeps_identity (λ c, if (c_addr c =? a)%nat then f c else c).
Proof. intros Hf c. destruct (c_addr c =? a)%nat; [apply Hf|done]. Qed.

Lemma lock_client_map g st w :
  keeps_identity g →
  lock_client (set_registry (map g (registry st)) st) w = g <$> lock_client st w.
Proof.
  intros Hg. destruct w as [a|]; simpl; [|done].
  apply find_client_map. intros c. apply Hg.
Qed.

Lemma get_client_map g st a :
  keeps_identity g →
  c_netId (get_client (set_registry (map g (registry st)) st) a) = c_netId (get_client st a)
  ∧ c_slotId (get_client (set_registry (map g (registry st)) st) a) = c_slotId (get_client st a).
Proof.
  intros Hg. unfold get_client. simpl. rewrite find_client_map by (intros c; apply Hg).
  destruct (find_client a (registry st)) as [c|]; simpl; [|done].
  destruct (Hg c) as (_ & -> & ->). done.
Qed.

Lemma same_identities_map g st :
  keeps_identity g → same_identities st (set_registry (map g (registry st)) st).
Proof.
  intros Hg. split.
  - intros w. rewrite lock_client_map by done. apply fmap_is_Some.
  - intros w. rewrite lock_client_map by done.
    destruct (lock_client st w) as [c|]; simpl; [|done]. f_equal. apply Hg.
  - intros a. by apply get_client_map.
  - intros a. by apply get_client_map.
Qed.

Lemma same_identities_refl st : same_identities st st.
Proof. by split. Qed.

Lemma same_identities_trans st1 st2 st3 :
  same_identities st1 st2 → same_identities st2 st3 → same_identities st1 st3.
Proof.
  intros [A1 A2 A3 A4] [B1 B2 B3 B4]. split; intros.
  - by rewrite B1.
  - by rewrite B2.
  - by rewrite B3.
  - by rewrite B4.
Qed.

Lemma same_identities_update_client a f st :
  keeps_identity f → same_identities st (update_client a f st).
Proof. intros Hf. apply same_identities_map. by apply keeps_identity_if. Qed.

Lemma same_identities_update_client_data a f st :
  same_identities st (update_client_data a f st).
Proof. apply same_identities_update_client. by intros c. Qed.

Lemma clone_prelude_identities client st : same_identities st (clone_prelude client st).
Proof.
  unfold clone_prelude. eapply same_identities_trans; [|apply same_identities_update_client_data].
  destruct (c_timestamp _); [apply same_identities_refl|].
  apply same_identities_update_client. by intros c.
Qed.

Lemma clone_prelude_entities client st :
  m_entityList (clone_prelude client st) = m_entityList st
  ∧ m_entitiesById (clone_prelude client st) = m_entitiesById st.
Proof. unfold clone_prelude. by destruct (c_timestamp _). Qed.

Lemma clone_prelude_GetEntity client st o :
  GetEntity (clone_prelude client st) o = GetEntity st o.
Proof.
  unfold GetEntity, lock_entity.
  by destruct (clone_prelude_entities client st) as [-> ->].
Qed.

Lemma ProcessClonePacket_duplicate_create ext client inPacket out st e :
  GetEntity st (Read 13 inPacket).1 = Some e →
  is_Some (lock_client st (e_client e)) →
  (ProcessClonePacket ext client inPacket 1 out st).2 = clone_prelude client st
  ∧ (ProcessClonePacket ext client inPacket 1 out st).1.2 = out.
Proof.
  intros He Hc. unfold ProcessClonePacket. cbv zeta.
  destruct (Read 13 inPacket) as [objectId p1]. simpl in He.
  change (1 =? 1) with true. cbv iota.
  destruct (Read 4 p1) as [t p2].
  destruct (Read 12 p2) as [len p3].
  destruct (ReadBits _ p3) as [bitBytes p4].
  change (update_client_data client (set_playerId (Some 0)) _) with (clone_prelude client st).
  rewrite clone_prelude_GetEntity, He.
  rewrite bool_decide_eq_true_2; [done|].
  by apply (same_lock _ _ (clone_prelude_identities client st)).
Qed.

Lemma ProcessClonePacket_sync_wrong_owner ext client inPacket out st e owner :
  GetEntity st (Read 13 inPacket).1 = Some e →
  lock_client st (e_client e) = Some owner →
  c_netId owner ≠ c_netId (get_client st client) →
  (ProcessClonePacket ext client inPacket 2 out st).2
    = acknowledge (e_addr e) (c_slotId (get_client st client)) (clone_prelude client st)
  ∧ (ProcessClonePacket ext client inPacket 2 out st).1.2 = out.
Proof.
  intros He Hc Hn. unfold ProcessClonePacket. cbv zeta.
  destruct (Read 13 inPacket) as [objectId p1]. simpl in He.
  change (2 =? 1) with false. cbv iota.
  destruct (Read 12 p1) as [len p3].
  destruct (ReadBits _ p3) as [bitBytes p4].
  change (update_client_data client (set_playerId (Some 0)) _) with (clone_prelude client st).
  pose proof (clone_prelude_identities client st) as [I1 I2 I3 I4].
  rewrite clone_prelude_GetEntity, He.
  rewrite bool_decide_eq_true_2 by (apply I1; rewrite Hc; eauto).
  rewrite I4.
  change (lock_client (update_entity ?a ?f ?s) ?w) with (lock_client s w).
  change (get_client (update_entity ?a ?f ?s) ?w) with (get_client s w).
  specialize (I2 (e_client e)). rewrite Hc in I2. simpl in I2.
  destruct (lock_client (clone_prelude client st) (e_client e)) as [ec|]; [|done].
  simpl in I2. injection I2 as I2. rewrite I2, I3.
  destruct (c_netId owner =? c_netId (get_client st client)) eqn:E; [|done].
  by apply N.eqb_eq in E.
Qed.

Lemma ProcessClonePacket_sync_no_entity ext client inPacket out st :
  GetEntity st (Read 13 inPacket).1 = None →
  (ProcessClonePacket ext client inPacket 2 out st).2 = clone_prelude client st.
Proof.
  intros He. unfold ProcessClonePacket. cbv zeta.
  destruct (Read 13 inPacket) as [objectId p1]. simpl in He.
  change (2 =? 1) with false. cbv iota.
  destruct (Read 12 p1) as [len p3].
  destruct (ReadBits _ p3) as [bitBytes p4].
  change (update_client_data client (set_playerId (Some 0)) _) with (clone_prelude client st).
  by rewrite clone_prelude_GetEntity, He.
Qed.

Lemma ack_flush_frame ext client ackPacket st :
  let st' := (ack_flush ext client ackPacket st).2 in
  m_entityList st' = m_entityList st ∧ m_entitiesById st' = m_entitiesById st
  ∧ registry st' = registry st
  ∧ m_objectIdsSent st' = m_objectIdsSent st ∧ m_objectIdsUsed st' = m_objectIdsUsed st.
Proof. unfold ack_flush. by destruct (MaybeFlushBuffer _ _ _ _ _). Qed.

(** ** The invariant over the reachable states *)

Lemma ack_keep_HandleClientDrop_entity client a acc :
  ack_exclusive_state acc.2 →
  ack_exclusive_state (HandleClientDrop_entity client a acc).2.
Proof.
  destruct acc as [toErase st]. simpl. intros H.
  unfold HandleClientDrop_entity. ack_cases.
Qed.

Lemma ack_keep_HandleClientDrop_scan client addrs acc :
  ack_exclusive_state acc.2 →
  ack_exclusive_state
    (fold_left (λ acc a, HandleClientDrop_entity client a acc) addrs acc).2.
Proof.
  revert acc. induction addrs as [|a addrs IH]; intros acc H; simpl; [done|].
  apply IH. by apply ack_keep_HandleClientDrop_entity.
Qed.

Lemma ack_keep_RemoveClone_all client handles st :
  ack_exclusive_state st →
  ack_exclusive_state
    (fold_left (λ st handle, RemoveClone client (objectId_of handle) st) handles st).
Proof.
  revert st. induction handles as [|h handles IH]; intros st H; simpl; [done|].
  apply IH. by apply ack_keep_RemoveClone.
Qed.

Lemma ack_keep_HandleClientDrop client st :
  ack_exclusive_state st → ack_exclusive_state (HandleClientDrop client st).
Proof.
  intros H. unfold HandleClientDrop.
  destruct (negb (g_oneSyncVar (convars st))); [done|].
  pose proof (ack_keep_HandleClientDrop_scan client (map e_addr (m_entityList st)) ([], st) H)
    as H1.
  destruct (fold_left _ (map e_addr (m_entityList st)) ([], st)) as [toErase st1].
  simpl in H1. cbv zeta.
  pose proof (ack_keep_RemoveClone_all client toErase st1 H1) as H2.
  set (st2 := fold_left _ toErase st1) in *.
  destruct (negb (_ =? NoSlot)); [|by apply ack_keep_sent].
  unfold ack_exclusive_state. simpl. rewrite Forall_map.
  eapply Forall_impl; [exact H2|].
  intros e He. simpl. destruct (e_syncTree e); [|done].
  by apply (ack_exclusive_unacked _ e).
Qed.

Lemma gather_ids_entities numIds id client st :
  m_entityList (gather_ids numIds id client st).2 = m_entityList st.
Proof.
  revert id st. induction numIds as [|n IH]; intros id st; cbn [gather_ids]; [done|].
  destruct (next_free_id _ _ _ _) as [id'|]; [|done].
  match goal with |- context [gather_ids n id' client ?s] =>
    specialize (IH id' s); destruct (gather_ids n id' client s) end.
  cbn [snd] in *. by rewrite IH.
Qed.

Lemma ack_keep_SendObjectIds client numIds st :
  ack_exclusive_state st → ack_exclusive_state (SendObjectIds client numIds st).
Proof.
  intros H. unfold SendObjectIds.
  pose proof (gather_ids_entities numIds 1 client st) as He.
  destruct (gather_ids numIds 1 client st) as [ids st1]. simpl in He.
  apply ack_keep_send. by eapply ack_exclusive_same_entities.
Qed.

(** What every step of a loop keeps, the loop keeps. *)
Lemma fold_left_keeps {A B} (P : B → Prop) (f : B → A → B) l b :
  (∀ b a, P b → P (f b a)) → P b → P (fold_left f l b).
Proof.
  intros Hf. revert b. induction l as [|a l IH]; intros b Hb; simpl; [done|].
  apply IH. by apply Hf.
Qed.

Lemma ack_keep_gameStateAck client frameIndex ignoreIds st :
  ack_exclusive_state st → ack_exclusive_state (gameStateAck client frameIndex ignoreIds st).
Proof.
  intros H. unfold gameStateAck. cbv zeta. apply ack_keep_client_data.
  apply (fold_left_keeps ack_exclusive_state); [|done].
  clear. intros st p H. unfold gameStateAck_entity. ack_cases.
Qed.

Lemma ack_keep_Tick_frameIndex st :
  ack_exclusive_state st → ack_exclusive_state (Tick_frameIndex st).
Proof.
  unfold ack_exclusive_state, Tick_frameIndex. simpl. rewrite Forall_map.
  intros H. eapply Forall_impl; [exact H|]. by intros e He.
Qed.

Lemma ack_keep_UpdateEntities ext st :
  ack_exclusive_state st → ack_exclusive_state (UpdateEntities ext st).
Proof.
  intros H. unfold UpdateEntities.
  apply (fold_left_keeps ack_exclusive_state); [|done].
  clear. intros st a H.
  assert (ack_exclusive_state (UpdateEntities_camera ext a st)) as H1.
  { unfold UpdateEntities_camera. ack_cases. }
  revert H1. generalize (UpdateEntities_camera ext a st). clear. intros st H.
  unfold UpdateEntities_seat. ack_cases.
Qed.

Lemma ack_keep_FlushAcks client st :
  ack_exclusive_state st → ack_exclusive_state (FlushAcks client st).
Proof. intros H. unfold FlushAcks. ack_cases. Qed.

#[local] Hint Resolve ack_keep_FlushAcks : ack.

Lemma ack_keep_Tick_client client st :
  ack_exclusive_state st → ack_exclusive_state (Tick_client client st).2.
Proof. intros H. unfold Tick_client. ack_cases. Qed.

Lemma ack_keep_clone_maybe_flush ext frameIndex client acc :
  ack_exclusive_state acc.2 →
  ack_exclusive_state (clone_maybe_flush ext frameIndex client acc).2.
Proof. intros H. unfold clone_maybe_flush. ack_cases. Qed.

Lemma ack_keep_clone_flush frameIndex client acc :
  ack_exclusive_state acc.2 →
  ack_exclusive_state (clone_flush frameIndex client acc).2.
Proof. intros H. unfold clone_flush. ack_cases. Qed.

Lemma ack_keep_sync_command ext frameIndex client cmd unparsed acc :
  ack_exclusive_state acc.2 →
  ack_exclusive_state (sync_command ext frameIndex client cmd unparsed acc).2.
Proof.
  destruct acc as [cloneBuffer st]. cbn [snd]. intros H. unfold sync_command.
  repeat case_inner; cbn [fst snd]; try done;
    repeat first [apply ack_keep_clone_maybe_flush | apply ack_keep_clone_flush];
    cbn [fst snd]; auto 20 with ack.
Qed.

Lemma ack_keep_removal_command ext frameIndex client cloneBuffer st :
  ack_exclusive_state st →
  ack_exclusive_state (removal_command ext frameIndex client cloneBuffer st).2.
Proof.
  intros H. unfold removal_command.
  apply (fold_left_keeps (λ acc, ack_exclusive_state acc.2)); [|done].
  clear. intros [cloneBuffer st] i H. cbn [snd] in H. unfold removal_step. ack_cases.
Qed.

Lemma ack_keep_run_command ext frameIndex client acc c :
  ack_exclusive_state acc.2 →
  ack_exclusive_state (run_command ext frameIndex client acc c).2.
Proof.
  intros H. destruct c as [time|cmd unparsed|]; cbn [run_command].
  - destruct acc as [cloneBuffer st]. unfold time_command.
    by apply ack_keep_clone_maybe_flush.
  - by apply ack_keep_sync_command.
  - by apply ack_keep_removal_command.
Qed.

Lemma ack_keep_run_sync_commands ext frameIndex client commands st :
  ack_exclusive_state st →
  ack_exclusive_state (run_sync_commands ext frameIndex client commands st).
Proof.
  intros H. unfold run_sync_commands, Execute. cbv zeta. apply ack_keep_client_data.
  apply ack_keep_clone_flush.
  apply (fold_left_keeps (λ acc, ack_exclusive_state acc.2)); [|done].
  intros acc c. apply ack_keep_run_command.
Qed.

Lemma ack_keep_engine_step ext st st' :
  engine_step ext st st' → ack_exclusive_state st → ack_exclusive_state st'.
Proof.
  intros [] H.
  - by apply ack_keep_ParseClonePacket_record.
  - by apply ack_keep_ParseAckPacket_record.
  - by apply ack_keep_gameStateAck.
  - by apply ack_keep_SendObjectIds.
  - by apply ack_keep_HandleClientDrop.
  - by apply ack_keep_Tick_frameIndex.
  - by apply ack_keep_send.
  - by apply ack_keep_UpdateEntities.
  - by apply ack_keep_Tick_client.
  - by apply ack_keep_Tick_entity.
  - by apply ack_keep_client_data.
  - by apply ack_keep_frameIndex.
  - by apply ack_keep_run_sync_commands.
  - by apply ack_keep_run_main_thread_callback.
  - by apply ack_keep_run_net_thread_callback.
  - by apply ack_keep_registry.
  - by apply ack_keep_convars.
  - by apply ack_keep_pool.
  - by apply ack_keep_neutral.
Qed.

(** C2: in every state the engine reaches, and so after every record of an
    inbound clone or ack frame, no entity has [ackedCreation] and
    [didDeletion] set for the same slot. *)
Theorem reachable_ack_exclusive :
  ∀ ext st, reachable ext st →
    ∀ e, e ∈ m_entityList st →
      ∀ s, ¬ (Bitset.test (ackedCreation e) s = true ∧ Bitset.test (didDeletion e) s = true).
Proof.
  intros ext st Hr.
  assert (ack_exclusive_state st) as H.
  { induction Hr as [cv|st st' _ IH Hs].
    - constructor.
    - by eapply ack_keep_engine_step. }
  intros e He. unfold ack_exclusive_state in H. rewrite Forall_forall in H.
  by apply H.
Qed.

(** The operation that sets [ackedCreation] clears [didDeletion], whatever
    the bits were before. *)
Lemma acknowledge_exclusive_at a slot st e :
  e ∈ m_entityList (acknowledge a slot st) → e_addr e = a →
  Bitset.test (ackedCreation e) slot = true ∧ Bitset.test (didDeletion e) slot = false.
Proof.
  unfold acknowledge, update_entity. simpl. intros He Ha.
  apply list_elem_of_fmap in He as (e0 & -> & _).
  destruct (e_addr e0 =? a)%nat eqn:E.
  - simpl. unfold Bitset.test, Bitset.set, Bitset.reset.
    by rewrite N.setbit_eq, N.clearbit_eq.
  - apply Nat.eqb_neq in E. done.
Qed.

(** ** The ack buffer as a stream *)

Lemma pad_to_length n l : (n ≤ length (pad_to n l))%nat.
Proof. unfold pad_to. rewrite length_app, length_replicate. lia. Qed.

Lemma stream_of_length b : length (stream_of b) = N.to_nat (mb_curBit b).
Proof.
  unfold stream_of. rewrite length_take.
  pose proof (pad_to_length (N.to_nat (mb_curBit b)) (mb_data b)). lia.
Qed.

(** Bits that fit are appended to the stream. *)
Lemma stream_of_WriteBits bits b :
  mb_curBit b + N.of_nat (length bits) ≤ mb_maxBit b →
  stream_of (WriteBits bits b).1 = stream_of b ++ bits
  ∧ mb_maxBit (WriteBits bits b).1 = mb_maxBit b.
Proof.
  intros Hfit. unfold WriteBits.
  destruct (_ <=? _) eqn:E; [|apply N.leb_gt in E; lia].
  cbn [fst]. split; [|done].
  pose proof (stream_of_length b) as Hl.
  unfold stream_of in *. cbn [mb_curBit mb_data].
  set (cur := N.to_nat (mb_curBit b)) in *.
  set (s := take cur (pad_to cur (mb_data b))) in *.
  replace (N.to_nat (mb_curBit b + N.of_nat (length bits))) with (length (s ++ bits))
    by (rewrite length_app; lia).
  unfold pad_to. rewrite <- !app_assoc, (app_assoc s bits).
  by rewrite take_app_length.
Qed.

Lemma stream_of_Write width value b :
  mb_curBit b + N.of_nat width ≤ mb_maxBit b →
  stream_of (Write width value b) = stream_of b ++ bits_of width value
  ∧ mb_maxBit (Write width value b) = mb_maxBit b
  ∧ mb_curBit (Write width value b) = mb_curBit b + N.of_nat width.
Proof.
  intros Hfit. unfold Write.
  destruct (stream_of_WriteBits (bits_of width value) b) as [H1 H2].
  { by rewrite bits_of_length. }
  split; [done|]. split; [done|].
  unfold WriteBits. rewrite bits_of_length.
  destruct (_ <=? _) eqn:E; [done|apply N.leb_gt in E; lia].
Qed.

(** A create-ack for object id 0 that fits is appended as the bits
    [001 0000000000000]. *)
Lemma create_ack_0_appended b :
  mb_curBit b + 16 ≤ mb_maxBit b →
  stream_of (Write 13 0 (Write 3 1 b)) = stream_of b ++ bits_of 3 1 ++ bits_of 13 0.
Proof.
  intros Hfit.
  destruct (stream_of_Write 3 1 b) as (H1 & H2 & H3); [lia|].
  destruct (stream_of_Write 13 0 (Write 3 1 b)) as (H4 & _); [lia|].
  by rewrite H4, H1, <- app_assoc.
Qed.

(** ** The record handlers, case by case *)

Lemma ProcessCloneCreate_state ext client inPacket ackPacket st :
  let r := ProcessClonePacket ext client inPacket 1 0 st in
  let record := Write 13 r.1.2 (Write 3 1 ackPacket) in
  let flushed := MaybeFlushBuffer (LZ4_compressBound ext) record msgPackedAcks 0 client in
  ProcessCloneCreate ext client inPacket ackPacket st
  = (r.1.1, flushed.1,
     send_frames flushed.2
       (set_m_objectIdsUsed (Bitset.set (m_objectIdsUsed r.2) r.1.2) r.2)).
Proof.
  unfold ProcessCloneCreate, ack_flush. cbv zeta.
  destruct (ProcessClonePacket ext client inPacket 1 0 st) as [[p o] st1].
  cbn [fst snd]. by destruct (MaybeFlushBuffer _ _ _ _ _).
Qed.

Lemma ProcessCloneSync_state ext client inPacket ackPacket st :
  let r := ProcessClonePacket ext client inPacket 2 0 st in
  let record := Write 13 r.1.2 (Write 3 2 ackPacket) in
  let flushed := MaybeFlushBuffer (LZ4_compressBound ext) record msgPackedAcks 0 client in
  ProcessCloneSync ext client inPacket ackPacket st
  = (r.1.1, flushed.1, send_frames flushed.2 r.2).
Proof.
  unfold ProcessCloneSync, ack_flush. cbv zeta.
  destruct (ProcessClonePacket ext client inPacket 2 0 st) as [[p o] st1].
  cbn [fst snd]. by destruct (MaybeFlushBuffer _ _ _ _ _).
Qed.

Lemma advanced_Read width b : advanced (N.of_nat width) b (Read width b).2.
Proof. unfold advanced, Read, ReadBits. simpl. lia. Qed.

Lemma advanced_ReadBits n b : advanced 0 b (ReadBits n b).2.
Proof. unfold advanced, ReadBits. simpl. lia. Qed.

Lemma advanced_trans n m b1 b2 b3 :
  advanced n b1 b2 → advanced m b2 b3 → advanced (n + m) b1 b3.
Proof. unfold advanced. intros [-> ?] [-> ?]. split; [done|lia]. Qed.

Lemma advanced_refl b : advanced 0 b b.
Proof. unfold advanced. split; [done|lia]. Qed.

Lemma advanced_weaken n m b b' : m ≤ n → advanced n b b' → advanced m b b'.
Proof. unfold advanced. intros ? [-> ?]. split; [done|lia]. Qed.

(** What [ProcessClonePacket] never touches: the object-id pool; and its
    input only moves forward. *)
Lemma ProcessClonePacket_frame ext client inPacket parsingType out st :
  let r := ProcessClonePacket ext client inPacket parsingType out st in
  m_objectIdsSent r.2 = m_objectIdsSent st
  ∧ m_objectIdsUsed r.2 = m_objectIdsUsed st
  ∧ advanced 13 inPacket r.1.1.
Proof.
  unfold ProcessClonePacket. cbv zeta.
  pose proof (advanced_Read 13 inPacket) as H1.
  destruct (Read 13 inPacket) as [objectId p1]. cbn [snd] in H1.
  assert (∀ p, advanced 0 p1 p → advanced 13 inPacket p) as Hp.
  { intros p Hp. apply (advanced_trans _ _ _ _ _ H1 Hp). }
  clear H1.
  assert (∀ p2, advanced 0 p1 p2 →
           ∀ p4, p4 = (ReadBits (N.to_nat (Read 12 p2).1 * 8) (Read 12 p2).2).2 →
                 advanced 13 inPacket p4) as Hq.
  { intros p2 H2 p4 ->. apply Hp.
    apply (advanced_trans 0 0 _ _ _ H2).
    apply (advanced_trans 0 0 _ (Read 12 p2).2).
    - apply (advanced_weaken (N.of_nat 12)); [simpl; lia|apply (advanced_Read 12)].
    - apply advanced_ReadBits. }
  destruct (parsingType =? 1).
  - pose proof (advanced_weaken (N.of_nat 4) 0 _ _ ltac:(simpl; lia)
                  (advanced_Read 4 p1)) as H2.
    destruct (Read 4 p1) as [t p2]. cbn [snd] in H2.
    specialize (Hq p2 H2).
    destruct (Read 12 p2) as [len p3]. cbn [fst snd] in Hq.
    destruct (ReadBits _ p3) as [bitBytes p4]. specialize (Hq p4 eq_refl).
    clear Hp H2. handler_cases; cbn [fst snd]; done.
  - specialize (Hq p1 (advanced_refl p1)).
    destruct (Read 12 p1) as [len p3]. cbn [fst snd] in Hq.
    destruct (ReadBits _ p3) as [bitBytes p4]. specialize (Hq p4 eq_refl).
    clear Hp. handler_cases; cbn [fst snd]; done.
Qed.

Lemma ProcessCloneTakeover_advances client inPacket st :
  advanced 3 inPacket (ProcessCloneTakeover client inPacket st).1.
Proof.
  unfold ProcessCloneTakeover.
  pose proof (advanced_Read 16 inPacket) as H1.
  destruct (Read 16 inPacket) as [clientId p1]. cbn [snd] in H1.
  pose proof (advanced_Read 13 p1) as H2.
  destruct (Read 13 p1) as [objectId p2]. cbn [snd] in H2.
  pose proof (advanced_weaken (N.of_nat 16 + N.of_nat 13) 3 _ _ ltac:(simpl; lia)
                (advanced_trans _ _ _ _ _ H1 H2)).
  repeat case_match; done.
Qed.

Lemma ProcessCloneRemove_advances ext client inPacket ackPacket st :
  advanced 3 inPacket (ProcessCloneRemove ext client inPacket ackPacket st).1.1.
Proof.
  unfold ProcessCloneRemove.
  pose proof (advanced_weaken (N.of_nat 13) 3 _ _ ltac:(simpl; lia)
                (advanced_Read 13 inPacket)) as H1.
  destruct (Read 13 inPacket) as [objectId p1]. cbn [snd] in H1.
  destruct (ack_flush _ _ _ _). by destruct (match GetEntity _ _ with Some _ => _ | None => _ end).
Qed.

(** Every record of a clone frame reads its 3-bit tag. *)
Lemma ParseClonePacket_record_advances ext client msgBuf ackPacket st :
  advanced 3 msgBuf (ParseClonePacket_record ext client msgBuf ackPacket st).1.1.2.
Proof.
  unfold ParseClonePacket_record.
  pose proof (advanced_Read 3 msgBuf) as H1.
  destruct (Read 3 msgBuf) as [tag body]. cbn [snd] in H1.
  assert (∀ p, advanced 0 body p → advanced 3 msgBuf p) as Hp.
  { intros p Hp. apply (advanced_trans _ _ _ _ _ H1 Hp). }
  repeat match goal with |- context [if ?b then _ else _] => destruct b end.
  - rewrite ProcessCloneCreate_state. cbn [fst snd]. apply Hp.
    apply (advanced_weaken 13); [lia|]. apply ProcessClonePacket_frame.
  - rewrite ProcessCloneSync_state. cbn [fst snd]. apply Hp.
    apply (advanced_weaken 13); [lia|]. apply ProcessClonePacket_frame.
  - pose proof (ProcessCloneRemove_advances ext client body ackPacket st) as H.
    destruct (ProcessCloneRemove _ _ _ _ _) as [[? ?] ?]. cbn [fst snd] in *.
    apply Hp. by apply (advanced_weaken 3).
  - pose proof (ProcessCloneTakeover_advances client body st) as H.
    destruct (ProcessCloneTakeover _ _ _) as [? ?]. cbn [fst snd] in *.
    apply Hp. by apply (advanced_weaken 3).
  - pose proof (advanced_weaken (N.of_nat 32) 0 _ _ ltac:(simpl; lia)
                  (advanced_Read 32 body)) as H2.
    destruct (Read 32 body) as [newTs p1]. cbn [snd] in H2.
    destruct (ack_flush _ _ _ _). cbn [fst snd]. by apply Hp.
  - cbn [fst snd]. apply Hp. apply advanced_refl.
Qed.

Lemma ParseAckPacket_record_advances client msgBuf st :
  advanced 3 msgBuf (ParseAckPacket_record client msgBuf st).1.2.
Proof.
  unfold ParseAckPacket_record, ack_remove.
  pose proof (advanced_Read 3 msgBuf) as H1.
  destruct (Read 3 msgBuf) as [tag body]. cbn [snd] in H1.
  assert (∀ p, advanced 0 body p → advanced 3 msgBuf p) as Hp.
  { intros p Hp. apply (advanced_trans _ _ _ _ _ H1 Hp). }
  repeat match goal with |- context [if ?b then _ else _] => destruct b end.
  - pose proof (advanced_weaken (N.of_nat 13) 0 _ _ ltac:(simpl; lia)
                  (advanced_Read 13 body)) as H2.
    destruct (Read 13 body) as [o p1]. cbn [snd] in H2.
    pose proof (advanced_weaken (N.of_nat 13) 0 _ _ ltac:(simpl; lia)
                  (advanced_Read 13 p1)) as H3.
    destruct (Read 13 p1) as [o2 p2]. cbn [fst snd] in *.
    apply Hp. apply (advanced_trans 0 0 _ _ _ H2 H3).
  - pose proof (advanced_weaken (N.of_nat 13) 0 _ _ ltac:(simpl; lia)
                  (advanced_Read 13 body)) as H2.
    destruct (Read 13 body) as [o p1]. cbn [fst snd] in *. by apply Hp.
  - cbn [fst snd]. apply Hp. apply advanced_refl.
Qed.

(** The loops stop by their own condition: with as many iterations as the
    input has bits left, and one more, [fuel] does not run out. *)
Lemma ParseClonePacket_loop_ends ext fuel client end_ msgBuf ackPacket st :
  (N.to_nat (mb_maxBit msgBuf - mb_curBit msgBuf) < fuel)%nat →
  let r := ParseClonePacket_loop ext fuel client (end_, msgBuf, ackPacket, st) in
  r.1.1.1 = true ∨ IsAtEnd r.1.1.2 = true.
Proof.
  revert end_ msgBuf ackPacket st.
  induction fuel as [|fuel IH]; intros end_ msgBuf ackPacket st Hf; [lia|].
  simpl. destruct (IsAtEnd msgBuf) eqn:E; simpl; [by right|].
  destruct end_; simpl; [by left|].
  pose proof (ParseClonePacket_record_advances ext client msgBuf ackPacket st) as [Hm Hc].
  destruct (ParseClonePacket_record ext client msgBuf ackPacket st) as [[[e' m'] a'] st'].
  cbn [fst snd] in *. apply IH. unfold IsAtEnd in E. apply N.leb_gt in E. lia.
Qed.

Lemma ParseAckPacket_loop_ends fuel client end_ msgBuf st :
  (N.to_nat (mb_maxBit msgBuf - mb_curBit msgBuf) < fuel)%nat →
  let r := ParseAckPacket_loop fuel client (end_, msgBuf, st) in
  r.1.1 = true ∨ IsAtEnd r.1.2 = true.
Proof.
  revert end_ msgBuf st.
  induction fuel as [|fuel IH]; intros end_ msgBuf st Hf; [lia|].
  simpl. destruct (IsAtEnd msgBuf) eqn:E; simpl; [by right|].
  destruct end_; simpl; [by left|].
  pose proof (ParseAckPacket_record_advances client msgBuf st) as [Hm Hc].
  destruct (ParseAckPacket_record client msgBuf st) as [[e' m'] st'].
  cbn [fst snd] in *. apply IH. unfold IsAtEnd in E. apply N.leb_gt in E. lia.
Qed.

(** C3, as the code has it: a create record for an object id that refers
    to a live entity whose owner is still connected is dropped, whether
    or not its type is that of the entity, before anything is written to
    an entity: the entity list, and with it every [ackedCreation] and
    [didDeletion] bit, and the registry of weak references are as they
    were. *)
Theorem ProcessCloneCreate_duplicate :
  ∀ ext client inPacket ackPacket st e,
    GetEntity st (Read 13 inPacket).1 = Some e →
    is_Some (lock_client st (e_client e)) →
    let st' := (ProcessCloneCreate ext client inPacket ackPacket st).2 in
    m_entityList st' = m_entityList st ∧ m_entitiesById st' = m_entitiesById st.
Proof.
  intros ext client inPacket ackPacket st e He Hc.
  rewrite ProcessCloneCreate_state. cbn [snd].
  destruct (ProcessClonePacket_duplicate_create ext client inPacket 0 st e He Hc) as [-> _].
  apply clone_prelude_entities.
Qed.

(** C10: when [ProcessClonePacket] rejects a create record as a duplicate
    (its object id refers to a live entity whose owner is connected),
    [ProcessCloneCreate] still sets [used[0]], and still writes a
    create-ack for object id 0, the bits [001 0000000000000], at the end
    of the sender's ack buffer, which it then maybe-flushes. *)
Theorem ProcessCloneCreate_rejected_acks_0 :
  ∀ ext client inPacket ackPacket st e,
    GetEntity st (Read 13 inPacket).1 = Some e →
    is_Some (lock_client st (e_client e)) →
    mb_curBit ackPacket + 16 ≤ mb_maxBit ackPacket →
    let record := Write 13 0 (Write 3 1 ackPacket) in
    let flushed := MaybeFlushBuffer (LZ4_compressBound ext) record msgPackedAcks 0 client in
    let r := ProcessCloneCreate ext client inPacket ackPacket st in
    m_objectIdsUsed r.2 = Bitset.set (m_objectIdsUsed st) 0
    ∧ stream_of record = stream_of ackPacket ++ bits_of 3 1 ++ bits_of 13 0
    ∧ r.1.2 = flushed.1
    ∧ sent_packets r.2 = sent_packets st ++ map Frame flushed.2.
Proof.
  intros ext client inPacket ackPacket st e He Hc Hfit.
  rewrite ProcessCloneCreate_state. cbn [fst snd].
  destruct (ProcessClonePacket_duplicate_create ext client inPacket 0 st e He Hc) as [-> ->].
  split; [|split; [by apply create_ack_0_appended|split; [done|]]].
  - unfold clone_prelude. by destruct (c_timestamp _).
  - unfold clone_prelude. by destruct (c_timestamp _).
Qed.

(** C4, as the code has it: a sync record for a live entity owned by
    another connected client leaves the sync tree, the timestamp,
    [lastResends] and every other field of every entity as they were,
    except that on the entity it names [ackedCreation] is set and
    [didDeletion] is cleared for the slot of the sender. *)
Theorem ProcessCloneSync_wrong_owner :
  ∀ ext client inPacket ackPacket st e owner,
    GetEntity st (Read 13 inPacket).1 = Some e →
    lock_client st (e_client e) = Some owner →
    c_netId owner ≠ c_netId (get_client st client) →
    let slot := c_slotId (get_client st client) in
    m_entityList (ProcessCloneSync ext client inPacket ackPacket st).2
    = map (λ e', if (e_addr e' =? e_addr e)%nat
                 then set_ackedCreation (Bitset.set (ackedCreation e') slot)
                        (set_didDeletion (Bitset.reset (didDeletion e') slot) e')
                 else e')
        (m_entityList st).
Proof.
  intros ext client inPacket ackPacket st e owner He Hc Hn slot.
  rewrite ProcessCloneSync_state. cbn [snd].
  destruct (ProcessClonePacket_sync_wrong_owner ext client inPacket 0 st e owner He Hc Hn)
    as [-> _].
  destruct (clone_prelude_entities client st) as [Hl _].
  remember (clone_prelude client st) as st1.
  unfold acknowledge, update_entity. simpl. by rewrite Hl.
Qed.

(** C7, as the code has it: [ProcessCloneCreate] leaves the [sent] bitset
    as it was and sets in [used] the object id it acknowledges; an id is
    sent and used afterwards exactly when it was sent before and either
    was used before or is the acknowledged id. *)
Theorem ProcessCloneCreate_pool :
  ∀ ext client inPacket ackPacket st,
    let st' := (ProcessCloneCreate ext client inPacket ackPacket st).2 in
    let objectId := (ProcessClonePacket ext client inPacket 1 0 st).1.2 in
    m_objectIdsSent st' = m_objectIdsSent st
    ∧ m_objectIdsUsed st' = Bitset.set (m_objectIdsUsed st) objectId
    ∧ ∀ i, Bitset.test (m_objectIdsSent st') i && Bitset.test (m_objectIdsUsed st') i
           = Bitset.test (m_objectIdsSent st) i
             && (Bitset.test (m_objectIdsUsed st) i || (i =? objectId)).
Proof.
  intros ext client inPacket ackPacket st st' objectId.
  assert (m_objectIdsSent st' = m_objectIdsSent st
          ∧ m_objectIdsUsed st' = Bitset.set (m_objectIdsUsed st) objectId) as [Hs Hu].
  { unfold st', objectId. rewrite ProcessCloneCreate_state. cbn [snd].
    destruct (ProcessClonePacket_frame ext client inPacket 1 0 st) as (H1 & H2 & _).
    change (m_objectIdsSent (send_frames ?p (set_m_objectIdsUsed ?v ?s)))
      with (m_objectIdsSent s).
    change (m_objectIdsUsed (send_frames ?p (set_m_objectIdsUsed ?v ?s))) with v.
    by rewrite H1, H2. }
  split; [done|]. split; [done|].
  intros i. rewrite Hs, Hu. unfold Bitset.test, Bitset.set.
  rewrite N.setbit_eqb. f_equal. rewrite orb_comm. f_equal. apply N.eqb_sym.
Qed.

Lemma GetEntity_out_of_range st objectId :
  MaxObjectId ≤ objectId → GetEntity st objectId = None.
Proof.
  intros H. unfold GetEntity. destruct (MaxObjectId <=? objectId) eqn:E; [done|].
  apply N.leb_gt in E. lia.
Qed.

Lemma GetEntity_None_lock st objectId :
  objectId < MaxObjectId → GetEntity st objectId = None →
  lock_entity st (m_entitiesById st !! objectId) = None.
Proof.
  intros H. unfold GetEntity. destruct (MaxObjectId <=? objectId) eqn:E; [|done].
  apply N.leb_le in E. lia.
Qed.

Lemma ProcessClonePacket_create_new ext client inPacket out st :
  GetEntity st (Read 13 inPacket).1 = None →
  let st' := (ProcessClonePacket ext client inPacket 1 out st).2 in
  m_entitiesById st' = <[(Read 13 inPacket).1 := next_addr st]> (m_entitiesById st)
  ∧ length (m_entityList st') = S (length (m_entityList st)).
Proof.
  intros He. unfold ProcessClonePacket. cbv zeta.
  destruct (Read 13 inPacket) as [objectId p1]. simpl in He.
  change (1 =? 1) with true. cbv iota.
  destruct (Read 4 p1) as [t p2].
  destruct (Read 12 p2) as [len p3].
  destruct (ReadBits _ p3) as [bitBytes p4].
  change (update_client_data client (set_playerId (Some 0)) _) with (clone_prelude client st).
  rewrite clone_prelude_GetEntity, He. cbn [negb fst].
  assert (next_addr (clone_prelude client st) = next_addr st) as Hn.
  { unfold clone_prelude. by destruct (c_timestamp _). }
  destruct (clone_prelude_entities client st) as [Hl Hm].
  remember (clone_prelude client st) as st1.
  handler_cases; cbn [snd];
    (split; [simpl; by rewrite Hn, Hm|]);
    simpl; rewrite ?length_map, length_app, Hl; simpl; lia.
Qed.

Lemma RemoveClone_no_entity client objectId st :
  lock_entity st (m_entitiesById st !! objectId) = None →
  RemoveClone client objectId st = st.
Proof. intros H. unfold RemoveClone. by rewrite H. Qed.

Lemma ProcessCloneRemove_no_entity ext client inPacket ackPacket st :
  GetEntity st (Read 13 inPacket).1 = None →
  entities_unchanged st (ProcessCloneRemove ext client inPacket ackPacket st).2.
Proof.
  intros He. unfold ProcessCloneRemove.
  pose proof (Read_objectId_bound inPacket) as Hb.
  destruct (Read 13 inPacket) as [objectId p1]. simpl in He, Hb.
  match goal with |- context [ack_flush ?e ?c ?a ?s] =>
    pose proof (ack_flush_frame e c a s) as Hf; destruct (ack_flush e c a s) as [a' st1] end.
  simpl in Hf. destruct Hf as (Hl & Hm & _).
  assert (GetEntity st1 objectId = None) as He1.
  { unfold GetEntity, lock_entity in *. by rewrite Hl, Hm. }
  rewrite He1. cbn [snd].
  rewrite RemoveClone_no_entity by (by apply GetEntity_None_lock).
  done.
Qed.

Lemma ProcessCloneTakeover_no_entity client inPacket st :
  GetEntity st (Read 13 (Read 16 inPacket).2).1 = None →
  (ProcessCloneTakeover client inPacket st).2 = st.
Proof.
  intros He. unfold ProcessCloneTakeover.
  destruct (Read 16 inPacket) as [clientId p1]. cbn [fst snd] in He.
  destruct (Read 13 p1) as [objectId p2]. cbn [fst snd] in He.
  by rewrite He.
Qed.

Lemma ProcessCloneSync_no_entity ext client inPacket ackPacket st :
  GetEntity st (Read 13 inPacket).1 = None →
  entities_unchanged st (ProcessCloneSync ext client inPacket ackPacket st).2.
Proof.
  intros He. rewrite ProcessCloneSync_state. cbn [snd].
  rewrite ProcessClonePacket_sync_no_entity by done.
  apply clone_prelude_entities.
Qed.

(** C8, as the code has it: the object id of a clone record is a 13-bit
    field and so below 8192, and [GetEntity] has no entity for an id of
    8192 or more. Object id 0 is an id like any other: a record for an id
    without a registered entity changes no entity and no registry slot
    unless it is a create, and a create for it adds an entity and writes
    its address into the registry slot of the id. *)
Theorem record_without_entity :
  ∀ ext client msgBuf ackPacket st,
    let tag := (Read 3 msgBuf).1 in
    let objectId := record_objectId tag (Read 3 msgBuf).2 in
    let st' := (ParseClonePacket_record ext client msgBuf ackPacket st).2 in
    GetEntity st objectId = None →
    objectId < MaxObjectId
    ∧ (∀ o, MaxObjectId ≤ o → GetEntity st o = None)
    ∧ (tag ≠ 1 → entities_unchanged st st')
    ∧ (tag = 1 →
       m_entitiesById st' !! objectId = Some (next_addr st)
       ∧ length (m_entityList st') = S (length (m_entityList st))).
Proof.
  intros ext client msgBuf ackPacket st tag objectId st' He.
  split; [|split; [intros o; apply GetEntity_out_of_range|]].
  { unfold objectId, record_objectId. destruct (tag =? 4); apply Read_objectId_bound. }
  unfold st', ParseClonePacket_record, objectId, record_objectId in *. clear st' objectId.
  unfold tag in *. clear tag.
  destruct (Read 3 msgBuf) as [tag body]. cbn [fst snd] in *.
  destruct (tag =? 1) eqn:E1.
  { apply N.eqb_eq in E1 as ->. split; [done|]. intros _. simpl in He.
    rewrite ProcessCloneCreate_state. cbn [snd].
    destruct (ProcessClonePacket_create_new ext client body 0 st He) as [Hm Hl].
    split; [|exact Hl].
    change (m_entitiesById (send_frames ?p (set_m_objectIdsUsed ?v ?s)))
      with (m_entitiesById s).
    rewrite Hm. apply lookup_insert_eq. }
  apply N.eqb_neq in E1. split; [intros _|done].
  destruct (tag =? 2) eqn:E2.
  { apply N.eqb_eq in E2 as ->.
    pose proof (ProcessCloneSync_no_entity ext client body ackPacket st He) as H.
    by destruct (ProcessCloneSync _ _ _ _ _) as [[? ?] ?]. }
  destruct (tag =? 3) eqn:E3.
  { apply N.eqb_eq in E3 as ->.
    pose proof (ProcessCloneRemove_no_entity ext client body ackPacket st He) as H.
    by destruct (ProcessCloneRemove _ _ _ _ _) as [[? ?] ?]. }
  destruct (tag =? 4) eqn:E4.
  { pose proof (ProcessCloneTakeover_no_entity client body st He) as H.
    destruct (ProcessCloneTakeover _ _ _) as [? ?]. simpl in H. by subst. }
  destruct (tag =? 5) eqn:E5; [|done].
  destruct (Read 32 body) as [newTs p1].
  match goal with |- context [ack_flush ?e ?c ?a ?s] =>
    pose proof (ack_flush_frame e c a s) as Hf; destruct (ack_flush e c a s) as [a' st1] end.
  simpl in Hf. destruct Hf as (Hl & Hm & _).
  cbn [snd]. repeat case_match; done.
Qed.

(** [ParseClonePacket] and [ParseAckPacket] give their loops enough fuel:
    the loop ends because [end] is set or the input is used up. *)
Lemma ParseClonePacket_fuel_suffices ext client buffer ackPacket st :
  let r := ParseClonePacket_loop ext (S (length buffer)) client
             (false, MessageBuffer_of_bits buffer, ackPacket, st) in
  r.1.1.1 = true ∨ IsAtEnd r.1.1.2 = true.
Proof.
  apply ParseClonePacket_loop_ends. unfold MessageBuffer_of_bits. simpl. lia.
Qed.

Lemma ParseAckPacket_fuel_suffices client buffer st :
  let r := ParseAckPacket_loop (S (length buffer)) client
             (false, MessageBuffer_of_bits buffer, st) in
  r.1.1 = true ∨ IsAtEnd r.1.2 = true.
Proof.
  apply ParseAckPacket_loop_ends. unfold MessageBuffer_of_bits. simpl. lia.
Qed.

(** A whole inbound frame keeps the acknowledgement bits exclusive. *)
Lemma ack_keep_ParseClonePacket_loop ext fuel client l :
  ack_exclusive_state l.2 →
  ack_exclusive_state (ParseClonePacket_loop ext fuel client l).2.
Proof.
  revert l. induction fuel as [|fuel IH]; intros [[[end_ msgBuf] ackPacket] st] H.
  - done.
  - simpl. destruct (negb (IsAtEnd msgBuf) && negb end_); [|done].
    apply IH. by apply ack_keep_ParseClonePacket_record.
Qed.

Lemma ack_keep_ParseAckPacket_loop fuel client l :
  ack_exclusive_state l.2 →
  ack_exclusive_state (ParseAckPacket_loop fuel client l).2.
Proof.
  revert l. induction fuel as [|fuel IH]; intros [[end_ msgBuf] st] H.
  - done.
  - simpl. destruct (negb (IsAtEnd msgBuf) && negb end_); [|done].
    apply IH. by apply ack_keep_ParseAckPacket_record.
Qed.

Lemma ack_keep_ParseGameStatePacket ext client frame st :
  ack_exclusive_state st →
  ack_exclusive_state (ParseGameStatePacket ext client frame st).
Proof.
  intros H. unfold ParseGameStatePacket.
  destruct (negb (g_oneSyncVar (convars st))); [done|].
  destruct frame as [payload|payload|]; [| |done].
  - unfold ParseClonePacket.
    pose proof (ack_keep_ParseClonePacket_loop ext (S (length payload)) client
                  (false, MessageBuffer_of_bits payload,
                   ackBuffer (GetClientData st client), st) H) as H1.
    destruct (ParseClonePacket_loop _ _ _ _) as [[[? ?] ?] st1].
    by apply ack_keep_client_data.
  - unfold ParseAckPacket. by apply ack_keep_ParseAckPacket_loop.
Qed.

(** ** The records at work *)

Lemma ParseAckPacket_record_create_ack client msgBuf st :
  (Read 3 msgBuf).1 = 1 →
  let body := (Read 3 msgBuf).2 in
  let st1 := ack_create client (Read 13 body).1 st in
  ParseAckPacket_record client msgBuf st
  = (false, (ack_remove client (Read 13 body).2 st1).1,
     (ack_remove client (Read 13 body).2 st1).2).
Proof.
  intros Ht. unfold ParseAckPacket_record.
  destruct (Read 3 msgBuf) as [tag body]. cbn [fst snd] in *. subst tag.
  change (1 =? 1) with true. cbv iota.
  destruct (Read 13 body) as [objectId p1]. cbn [fst snd].
  by destruct (ack_remove client p1 _).
Qed.

(** A create-ack changes [pendingRemovals]: it clears the bit of whatever
    the 13 bits after it spell. *)
Lemma ParseAckPacket_record_create_ack_pending client msgBuf st :
  (Read 3 msgBuf).1 = 1 →
  let o := (Read 13 (Read 13 (Read 3 msgBuf).2).2).1 in
  ∀ c, c ∈ registry (ParseAckPacket_record client msgBuf st).2 →
       c_addr c = client →
       Bitset.test (pendingRemovals (c_syncData c)) o = false.
Proof.
  intros Ht o c. subst o. rewrite ParseAckPacket_record_create_ack by done. cbn [snd].
  unfold ack_remove.
  destruct (Read 13 (Read 13 (Read 3 msgBuf).2).2) as [o p].
  cbn [fst snd]. unfold update_client_data, update_client. simpl.
  intros Hc Ha. apply list_elem_of_fmap in Hc as (c0 & -> & _).
  destruct (c_addr c0 =? client)%nat eqn:Ec.
  - simpl. unfold Bitset.test, Bitset.reset. apply N.clearbit_eq.
  - apply Nat.eqb_neq in Ec. done.
Qed.

(** C1 fails on the code: the create-ack of [ack_frame] is applied to
    object 5, but then [case 1] runs on into [case 3], which reads the
    remove-ack that follows as an object id and clears the pending removal
    of object 3072; what is left of the remove-ack reads as the end of the
    frame, and the removal of object 7 that it acknowledges stays
    pending. *)
Theorem ParseAckPacket_create_ack_clears_pendingRemovals :
  let st' := ParseAckPacket 1 ack_frame ack_state in
  slot_bits 0 <$> GetEntity ack_state 5 = Some (false, false)
  ∧ slot_bits 0 <$> GetEntity st' 5 = Some (true, false)
  ∧ Bitset.test (pendingRemovals (GetClientData ack_state 1)) 3072 = true
  ∧ Bitset.test (pendingRemovals (GetClientData st' 1)) 3072 = false
  ∧ Bitset.test (pendingRemovals (GetClientData ack_state 1)) 7 = true
  ∧ Bitset.test (pendingRemovals (GetClientData st' 1)) 7 = true.
Proof. by vm_compute. Qed.

Lemma ack_exclusive_land e :
  N.land (ackedCreation e) (didDeletion e) = 0 → ack_exclusive e.
Proof.
  intros H s [Ha Hd]. unfold Bitset.test in *.
  assert (N.testbit (N.land (ackedCreation e) (didDeletion e)) s = true) as Hl
    by (by rewrite N.land_spec, Ha, Hd).
  by rewrite H, N.bits_0 in Hl.
Qed.

Lemma created_state_reachable : reachable demo_ext created_state.
Proof.
  eapply reachable_step; [|apply step_clone_record].
  eapply reachable_step; [apply (reachable_new demo_ext demo_convars)|].
  apply (step_registry demo_ext [demo_client 1 1 0]).
Qed.

(** The tick of [ticked_state] is made of steps of the engine: the
    decision of the tick about the ped is the command the worker runs. The
    state it reaches is in frame 1 and has the ped, sent to A at time
    1000. *)
Lemma ticked_state_reachable : reachable demo_ext ticked_state.
Proof.
  unfold ticked_state.
  eapply reachable_step; [|apply step_sync_commands].
  eapply reachable_step; [|apply step_tick_end].
  eapply reachable_step; [|apply step_tick_client_end].
  eapply reachable_step; [|apply step_tick_entity].
  eapply reachable_step; [|apply step_tick_client].
  eapply reachable_step; [|apply step_update_entities].
  eapply reachable_step; [|apply step_tick_frameIndex].
  apply created_state_reachable.
Qed.

Lemma ticked_state_after_tick :
  (Tick_entity demo_ext 1000 10 1 0 (0, 0, 0)%Q (Some 1%nat)
     (Tick_client 1 (UpdateEntities demo_ext (Tick_frameIndex created_state))).2).1
  = (true, Some (mkSyncCommand 0 1 2 1000))
  ∧ m_frameIndex ticked_state = 1
  ∧ m_entityList ticked_state = [ticked_entity]
  ∧ idsForGameState (GetClientData ticked_state 1) = [(0, 5)]
  ∧ syncing (GetClientData ticked_state 1) = false.
Proof. by vm_compute. Qed.

Lemma reachable_ack_exclusive_witness :
  ¬ (Bitset.test (ackedCreation ticked_entity) 0 = true
     ∧ Bitset.test (didDeletion ticked_entity) 0 = true).
Proof.
  refine (reachable_ack_exclusive demo_ext ticked_state ticked_state_reachable
            ticked_entity _ 0).
  vm_compute. apply list_elem_of_here.
Defined.

(** C3, as the claim has it, fails: client C sends a create for object 5,
    which A owns, with the type the entity has; the entity's bits for C's
    slot stay clear. *)
Lemma duplicate_create_leaves_ack_bits :
  let st := session_state 201 in
  let inPacket := MessageBuffer_of_bits (create_record 5 5) in
  let st' := (ProcessCloneCreate demo_ext 2 inPacket (ackBuffer (GetClientData st 2)) st).2 in
  e_type <$> GetEntity st 5 = Some (NetObjEntityType_of_wire demo_ext 5)
  ∧ c_slotId (get_client st 2) = 1
  ∧ slot_bits 1 <$> GetEntity st' 5 = Some (false, false).
Proof. by vm_compute. Qed.

Lemma ProcessCloneCreate_duplicate_witness :
  let st := session_state 201 in
  let st' := (ProcessCloneCreate demo_ext 2 (MessageBuffer_of_bits (create_record 5 5))
                (ackBuffer (GetClientData st 2)) st).2 in
  m_entityList st' = m_entityList st ∧ m_entitiesById st' = m_entitiesById st.
Proof.
  refine (ProcessCloneCreate_duplicate demo_ext 2 (MessageBuffer_of_bits (create_record 5 5))
            (ackBuffer (GetClientData (session_state 201) 2)) (session_state 201)
            (demo_entity 10 1 Object 5 (1, 0, 0)%Q) _ _).
  - by vm_compute.
  - exists (demo_client 1 1 0). by vm_compute.
Defined.

Lemma ProcessCloneCreate_rejected_acks_0_witness :
  let st := session_state 201 in
  let ackPacket := ackBuffer (GetClientData st 2) in
  let r := ProcessCloneCreate demo_ext 2 (MessageBuffer_of_bits (create_record 5 5))
             ackPacket st in
  Bitset.test (m_objectIdsUsed st) 0 = false
  ∧ m_objectIdsUsed r.2 = Bitset.set (m_objectIdsUsed st) 0
  ∧ stream_of (Write 13 0 (Write 3 1 ackPacket))
    = stream_of ackPacket ++ bits_of 3 1 ++ bits_of 13 0.
Proof.
  split; [by vm_compute|].
  pose proof (ProcessCloneCreate_rejected_acks_0 demo_ext 2
                (MessageBuffer_of_bits (create_record 5 5))
                (ackBuffer (GetClientData (session_state 201) 2)) (session_state 201)
                (demo_entity 10 1 Object 5 (1, 0, 0)%Q)) as H.
  destruct H as (H1 & H2 & _).
  - by vm_compute.
  - exists (demo_client 1 1 0). by vm_compute.
  - by vm_compute.
  - split; [exact H1|exact H2].
Defined.

(** C4, as the claim has it, fails: client C sends a sync for object 5,
    which A owns; the record is dropped, but not before the entity has
    [ackedCreation] set for C's slot. *)
Lemma sync_wrong_owner_sets_ackedCreation :
  let st := session_state 201 in
  let inPacket := MessageBuffer_of_bits (sync_record 5) in
  let st' := (ProcessCloneSync demo_ext 2 inPacket (ackBuffer (GetClientData st 2)) st).2 in
  (c_netId <$> (GetEntity st 5 ≫= λ e, lock_client st (e_client e))) = Some 1
  ∧ c_netId (get_client st 2) = 2
  ∧ slot_bits 1 <$> GetEntity st 5 = Some (false, false)
  ∧ slot_bits 1 <$> GetEntity st' 5 = Some (true, false).
Proof. by vm_compute. Qed.

Lemma ProcessCloneSync_wrong_owner_witness :
  let st := session_state 201 in
  m_entityList (ProcessCloneSync demo_ext 2 (MessageBuffer_of_bits (sync_record 5))
                  (ackBuffer (GetClientData st 2)) st).2
  = map (λ e', if (e_addr e' =? 10)%nat
               then set_ackedCreation (Bitset.set (ackedCreation e') 1)
                      (set_didDeletion (Bitset.reset (didDeletion e') 1) e')
               else e')
      (m_entityList st).
Proof.
  refine (ProcessCloneSync_wrong_owner demo_ext 2 (MessageBuffer_of_bits (sync_record 5))
            (ackBuffer (GetClientData (session_state 201) 2)) (session_state 201)
            (demo_entity 10 1 Object 5 (1, 0, 0)%Q) (demo_client 1 1 0) _ _ _).
  - by vm_compute.
  - by vm_compute.
  - by vm_compute.
Defined.

(** C7, as the claim has it, fails: object id 1 is issued to A and so
    sent; A creates object 1, and the id is both sent and used. *)
Lemma sent_and_used_after_create :
  let st := SendObjectIds 1 1 lobby_state in
  let st' := (ProcessCloneCreate demo_ext 1 (MessageBuffer_of_bits (create_record 1 6))
                (ackBuffer (GetClientData st 1)) st).2 in
  sent_packets st = [ObjectIds 1 [(0, 0)%Z]]
  ∧ Bitset.test (m_objectIdsSent st') 1 = true
  ∧ Bitset.test (m_objectIdsUsed st') 1 = true.
Proof. by vm_compute. Qed.

(** C8, as the claim has it, fails: a create record with object id 0
    creates an entity and writes registry slot 0. *)
Lemma create_objectId_0_creates_entity :
  let st' := (ProcessCloneCreate demo_ext 1 (MessageBuffer_of_bits (create_record 0 6))
                (ackBuffer (GetClientData lobby_state 1)) lobby_state).2 in
  m_entityList lobby_state = []
  ∧ e_handle <$> m_entityList st' = [MakeEntityHandle 0 0]
  ∧ m_entitiesById st' !! 0 = Some 0%nat.
Proof. by vm_compute. Qed.

Lemma record_without_entity_witness :
  let msgBuf := MessageBuffer_of_bits (bits_of 3 2 ++ sync_record 0) in
  let st' := (ParseClonePacket_record demo_ext 1 msgBuf (MessageBuffer_new 16384)
                lobby_state).2 in
  m_entityList st' = m_entityList lobby_state
  ∧ m_entitiesById st' = m_entitiesById lobby_state.
Proof.
  pose proof (record_without_entity demo_ext 1
                (MessageBuffer_of_bits (bits_of 3 2 ++ sync_record 0))
                (MessageBuffer_new 16384) lobby_state) as H.
  destruct H as (_ & _ & H & _).
  - by vm_compute.
  - apply H. by vm_compute.
Defined.

(** ** Issuing object ids *)

Lemma id_pairs_from_decode last gap size prev ids :
  (0 ≤ size)%Z → prev = (gap + 2 + last + size)%Z →
  decode_id_pairs last (id_pairs_from gap size prev ids)
  = seqZ (gap + 2 + last) (size + 1) ++ ids.
Proof.
  revert last gap size prev. induction ids as [|x ids IH]; intros last gap size prev Hs Hp.
  - simpl. by rewrite app_nil_r.
  - simpl. destruct (x =? prev + 1)%Z eqn:E.
    + apply Z.eqb_eq in E. rewrite IH by lia.
      replace (size + 1 + 1)%Z with ((size + 1) + 1)%Z by lia.
      rewrite (seqZ_app _ (size + 1) 1) by lia.
      rewrite <- app_assoc. f_equal. simpl. f_equal. lia.
    + simpl. f_equal. rewrite IH by lia.
      replace (x - 2 - prev + 2 + (gap + 2 + last + size))%Z with x by lia.
      done.
Qed.

Lemma id_pairs_decode ids : decode_id_pairs (-1) (id_pairs ids) = ids.
Proof.
  destruct ids as [|x ids]; [done|]. unfold id_pairs.
  rewrite id_pairs_from_decode by lia.
  replace (x - 2 - -1 + 2 + -1)%Z with x by lia. done.
Qed.

(** The pairs of a strictly increasing list: no gap and no run is
    negative, and none exceeds the last id. *)
Lemma id_pairs_from_range gap size prev ids bound :
  (0 ≤ gap ≤ bound)%Z → (0 ≤ size ≤ bound)%Z → (size ≤ prev)%Z →
  StronglySorted Z.lt (prev :: ids) → Forall (λ x, x ≤ bound)%Z ids →
  Forall (λ p, 0 ≤ p.1 ≤ bound ∧ 0 ≤ p.2 ≤ bound)%Z (id_pairs_from gap size prev ids).
Proof.
  revert gap size prev. induction ids as [|x ids IH]; intros gap size prev Hg Hs Hsp Hsorted Hb.
  - simpl. constructor; [simpl; lia|constructor].
  - apply StronglySorted_inv in Hsorted as [Hsorted Hlt].
    apply Forall_cons in Hlt as [Hx _]. apply Forall_cons in Hb as [Hxb Hb].
    simpl. destruct (x =? prev + 1)%Z eqn:E.
    + apply Z.eqb_eq in E. apply IH; try done; lia.
    + apply Z.eqb_neq in E. constructor; [simpl; lia|].
      apply IH; try done; lia.
Qed.

(** X1: the (gap, run) pairs of a list of ids stand for exactly that
    list; and for ids in increasing order within 1..8191, as
    [SendObjectIds] gathers them, every gap and every run length fits the
    16 bits it is written with. *)
Theorem id_pairs_round_trip :
  ∀ ids : list Z,
    decode_id_pairs (-1) (id_pairs ids) = ids
    ∧ (StronglySorted Z.lt ids → Forall (λ x, 1 ≤ x ≤ 8191)%Z ids →
       Forall (λ p, 0 ≤ p.1 < 65536 ∧ 0 ≤ p.2 < 65536)%Z (id_pairs ids)).
Proof.
  intros ids. split; [apply id_pairs_decode|].
  intros Hs Hb. destruct ids as [|x ids]; [constructor|].
  apply Forall_cons in Hb as [Hx Hb]. unfold id_pairs.
  eapply Forall_impl.
  - apply (id_pairs_from_range _ _ _ _ 8191); try done; try lia.
    eapply Forall_impl; [exact Hb|]. simpl. lia.
  - simpl. lia.
Qed.

Lemma next_free_id_Some n id sent used i :
  next_free_id n id sent used = Some i →
  id ≤ i < MaxObjectId
  ∧ Bitset.test sent i = false ∧ Bitset.test used i = false
  ∧ ∀ j, id ≤ j < i → Bitset.test sent j = true ∨ Bitset.test used j = true.
Proof.
  revert id. induction n as [|n IH]; intros id H; simpl in H; [done|].
  destruct (MaxObjectId <=? id) eqn:Em; [done|]. apply N.leb_gt in Em.
  destruct (negb (Bitset.test sent id) && negb (Bitset.test used id)) eqn:Ef.
  - injection H as <-. apply andb_true_iff in Ef as [E1 E2].
    apply negb_true_iff in E1, E2. repeat split; try done; try lia.
  - apply IH in H as (Hr & Hs & Hu & Hj). repeat split; try done; try lia.
    intros j Hjr. destruct (decide (j = id)) as [->|Hne]; [|apply Hj; lia].
    apply andb_false_iff in Ef as [E|E]; apply negb_false_iff in E; auto.
Qed.

Lemma next_free_id_None n id sent used :
  next_free_id n id sent used = None →
  (N.to_nat (MaxObjectId - id) ≤ n)%nat →
  ∀ j, id ≤ j < MaxObjectId → Bitset.test sent j = true ∨ Bitset.test used j = true.
Proof.
  revert id. induction n as [|n IH]; intros id H Hn j Hj; simpl in H.
  - lia.
  - destruct (MaxObjectId <=? id) eqn:Em; [apply N.leb_le in Em; lia|].
    destruct (negb (Bitset.test sent id) && negb (Bitset.test used id)) eqn:Ef; [done|].
    destruct (decide (j = id)) as [->|Hne].
    + apply andb_false_iff in Ef as [E|E]; apply negb_false_iff in E; auto.
    + apply (IH (id + 1)); [done|lia|lia].
Qed.

Lemma gather_ids_gathered numIds id client st :
  gathered numIds id st (gather_ids numIds id client st).1 (gather_ids numIds id client st).2.
Proof.
  revert id st. induction numIds as [|n IH]; intros id st; cbn [gather_ids].
  { split; simpl;
      [constructor|constructor|lia|intros j; by rewrite orb_false_r|done
      |intros; split; [done|constructor]]. }
  destruct (next_free_id _ id _ _) as [i|] eqn:E.
  - apply next_free_id_Some in E as (Hr & Hs & Hu & Hfirst).
    match goal with |- context [gather_ids n i client ?s] =>
      specialize (IH i s); destruct (gather_ids n i client s) as [ids st'];
      set (st1 := s) in * end.
    cbn [fst snd] in *. destruct IH as [F S C Se U L].
    assert (∀ j, Bitset.test (m_objectIdsSent st1) j
                 = Bitset.test (m_objectIdsSent st) j || (j =? i)) as Hst1.
    { intros j. unfold st1, Bitset.test, Bitset.set. simpl.
      rewrite N.setbit_eqb, orb_comm. f_equal. apply N.eqb_sym. }
    assert (Forall (λ k, i < k) ids) as Hgt.
    { eapply Forall_impl; [exact F|]. intros k [Hk [Hks _]].
      rewrite Hst1 in Hks. apply orb_false_iff in Hks as [_ Hks].
      apply N.eqb_neq in Hks. cbn beta in Hk. lia. }
    split.
    + constructor; [split; [lia|by split]|].
      eapply Forall_impl; [exact F|]. intros k [Hk [Hks Hku]]. cbn beta in *.
      split; [lia|]. split; [|done].
      rewrite Hst1 in Hks. by apply orb_false_iff in Hks as [? _].
    + by constructor.
    + simpl. lia.
    + intros j. rewrite Se, Hst1, <- orb_assoc. f_equal.
      destruct (N.eqb_spec j i) as [->|Hne].
      * simpl. symmetry. apply bool_decide_eq_true. by left.
      * simpl. apply bool_decide_ext. rewrite elem_of_cons.
        split; [by right|]. by intros [?|?].
    + done.
    + intros j Hj [Hjs Hju] Hnot. apply not_elem_of_cons in Hnot as [Hne Hnot].
      assert (i < j) as Hij.
      { destruct (N.lt_ge_cases j i) as [Hlt|Hge]; [|lia].
        destruct (Hfirst j ltac:(lia)); congruence. }
      destruct (L j ltac:(lia)) as [Hlen Hall]; [|done|].
      { split; [|done]. rewrite Hst1, Hjs. simpl. by apply N.eqb_neq. }
      split; [simpl; lia|]. by constructor.
  - cbn [fst snd]. split; simpl;
      [constructor|constructor|lia|intros j; by rewrite orb_false_r|done|].
    intros j Hj [Hjs Hju] _. exfalso.
    destruct (next_free_id_None _ _ _ _ E ltac:(unfold MaxObjectId; lia) j Hj); congruence.
Qed.

Lemma find_client_addr a l c : find_client a l = Some c → c_addr c = a.
Proof.
  induction l as [|c' l IH]; simpl; [done|].
  destruct (c_addr c' =? a)%nat eqn:E; [|done].
  intros [= <-]. by apply Nat.eqb_eq.
Qed.

Lemma find_client_update_client a f st :
  (∀ c, c_addr (f c) = c_addr c) →
  find_client a (registry (update_client a f st)) = f <$> find_client a (registry st).
Proof.
  intros Hf. unfold update_client. simpl.
  rewrite find_client_map by (intros c; destruct (c_addr c =? a)%nat; [apply Hf|done]).
  destruct (find_client a (registry st)) as [c|] eqn:E; [|done]. simpl.
  apply find_client_addr in E. by rewrite E, Nat.eqb_refl.
Qed.

Lemma find_client_update_other a b f st :
  a ≠ b → (∀ c, c_addr (f c) = c_addr c) →
  find_client a (registry (update_client b f st)) = find_client a (registry st).
Proof.
  intros Hab Hf. unfold update_client. simpl.
  rewrite find_client_map by (intros c; destruct (c_addr c =? b)%nat; [apply Hf|done]).
  destruct (find_client a (registry st)) as [c|] eqn:E; [|done]. simpl.
  apply find_client_addr in E. rewrite E.
  destruct (a =? b)%nat eqn:Eab; [apply Nat.eqb_eq in Eab; done|done].
Qed.

Lemma gather_ids_objectIds numIds id client st c :
  find_client client (registry st) = Some c →
  let r := gather_ids numIds id client st in
  objectIds (GetClientData r.2 client) = list_to_set r.1 ∪ objectIds (c_syncData c)
  ∧ ∀ other, other ≠ client →
             find_client other (registry r.2) = find_client other (registry st).
Proof.
  revert id st c. induction numIds as [|n IH]; intros id st c Hc; cbn [gather_ids].
  { cbn [fst snd]. unfold GetClientData, get_client. rewrite Hc. simpl.
    split; [by rewrite (left_id_L ∅ (∪))|done]. }
  destruct (next_free_id _ id _ _) as [i|] eqn:E.
  - match goal with |- context [gather_ids n i client ?s] =>
      specialize (IH i s); set (st1 := s) in * end.
    assert (find_client client (registry st1)
            = Some (set_c_syncData (set_objectIds ({[i]} ∪ objectIds (c_syncData c))
                                      (c_syncData c)) c)) as Hc1.
    { unfold st1. change (registry (set_m_objectIdsSent ?v ?s)) with (registry s).
      unfold update_client_data. rewrite find_client_update_client by done.
      by rewrite Hc. }
    specialize (IH _ Hc1). destruct (gather_ids n i client st1) as [ids st'].
    cbn [fst snd] in *. destruct IH as [IH1 IH2]. split.
    + rewrite IH1. simpl. clear. apply set_eq. intros x.
      rewrite !elem_of_union. tauto.
    + intros other Hne. rewrite IH2 by done. unfold st1.
      change (registry (set_m_objectIdsSent ?v ?s)) with (registry s).
      unfold update_client_data. by rewrite find_client_update_other.
  - cbn [fst snd]. unfold GetClientData, get_client. rewrite Hc. simpl.
    split; [by rewrite (left_id_L ∅ (∪))|done].
Qed.

(** X2: the ids [SendObjectIds] hands out were neither sent nor used, lie
    in 1..8191 (never 0), come in increasing order without repetition and
    are at most [numIds]; afterwards exactly these ids are marked sent in
    addition, [used] and the entities are as before, and the message sent
    carries their (gap, run) pairs. *)
Theorem SendObjectIds_issues_free_ids :
  ∀ client numIds st,
    let ids := (gather_ids numIds 1 client st).1 in
    let st' := SendObjectIds client numIds st in
    Forall (λ i, 1 ≤ i < MaxObjectId ∧ id_free st i) ids
    ∧ StronglySorted N.lt ids
    ∧ (length ids ≤ numIds)%nat
    ∧ (∀ j, Bitset.test (m_objectIdsSent st') j
            = Bitset.test (m_objectIdsSent st) j || bool_decide (j ∈ ids))
    ∧ m_objectIdsUsed st' = m_objectIdsUsed st
    ∧ m_entityList st' = m_entityList st
    ∧ sent_packets st' = sent_packets st ++ [ObjectIds client (id_pairs (Z.of_N <$> ids))].
Proof.
  intros client numIds st ids st'.
  pose proof (gather_ids_gathered numIds 1 client st) as [F S C Se U L].
  pose proof (gather_ids_entities numIds 1 client st) as He.
  assert (sent_packets (gather_ids numIds 1 client st).2 = sent_packets st) as Hp.
  { clear. generalize 1. revert st. induction numIds as [|n IH]; intros st id;
      cbn [gather_ids]; [done|].
    destruct (next_free_id _ _ _ _) as [i|]; [|done].
    match goal with |- context [gather_ids n i client ?s] =>
      specialize (IH s i); destruct (gather_ids n i client s) end.
    cbn [snd] in *. by rewrite IH. }
  unfold st', ids, SendObjectIds.
  destruct (gather_ids numIds 1 client st) as [ids0 st1]. cbn [fst snd] in *.
  unfold send. simpl. rewrite Hp. done.
Qed.

(** X3: ids are handed out lowest first, and fewer than [numIds] only when
    the pool is exhausted: an id of 1..8191 that is still free afterwards
    is above every id handed out, and [numIds] ids were handed out. *)
Theorem SendObjectIds_lowest_first :
  ∀ client numIds st j,
    let ids := (gather_ids numIds 1 client st).1 in
    1 ≤ j < MaxObjectId →
    id_free (SendObjectIds client numIds st) j →
    length ids = numIds ∧ Forall (λ i, i < j) ids.
Proof.
  intros client numIds st j ids Hj [Hs Hu].
  pose proof (gather_ids_gathered numIds 1 client st) as [F S C Se U L].
  fold ids in F, S, C, Se, L.
  assert (m_objectIdsSent (SendObjectIds client numIds st)
          = m_objectIdsSent (gather_ids numIds 1 client st).2
          ∧ m_objectIdsUsed (SendObjectIds client numIds st)
            = m_objectIdsUsed (gather_ids numIds 1 client st).2) as [Es Eu].
  { unfold SendObjectIds. by destruct (gather_ids numIds 1 client st). }
  rewrite Es, Se in Hs. rewrite Eu, U in Hu.
  apply orb_false_iff in Hs as [Hs Hn]. apply bool_decide_eq_false in Hn.
  apply L; [done|by split|done].
Qed.

(** X4: the ids handed out are added to the [objectIds] of the client they
    are sent to, and the sync data of every other client stays as it
    is. *)
Theorem SendObjectIds_objectIds :
  ∀ client numIds st c,
    find_client client (registry st) = Some c →
    let ids := (gather_ids numIds 1 client st).1 in
    let st' := SendObjectIds client numIds st in
    objectIds (GetClientData st' client) = list_to_set ids ∪ objectIds (c_syncData c)
    ∧ ∀ other, other ≠ client →
               find_client other (registry st') = find_client other (registry st).
Proof.
  intros client numIds st c Hc ids st'.
  pose proof (gather_ids_objectIds numIds 1 client st c Hc) as H.
  unfold st', ids, SendObjectIds.
  by destruct (gather_ids numIds 1 client st) as [ids0 st1].
Qed.

(** ** Removal and reassignment *)

Lemma find_entity_map g a l :
  (∀ e, e_addr (g e) = e_addr e) →
  find_entity a (map g l) = g <$> find_entity a l.
Proof.
  intros Hg. induction l as [|e l IH]; simpl; [done|].
  rewrite Hg. by destruct (e_addr e =? a)%nat.
Qed.

Lemma find_entity_addr a l e : find_entity a l = Some e → e_addr e = a.
Proof.
  induction l as [|e' l IH]; simpl; [done|].
  destruct (e_addr e' =? a)%nat eqn:E; [|done].
  intros [= <-]. by apply Nat.eqb_eq.
Qed.

Lemma find_entity_elem a l e : find_entity a l = Some e → e ∈ l.
Proof.
  induction l as [|e' l IH]; simpl; [done|].
  destruct (e_addr e' =? a)%nat; [intros [= <-]; by left|].
  intros H. right. by apply IH.
Qed.

Lemma find_entity_update a f st :
  (∀ e, e_addr (f e) = e_addr e) →
  find_entity a (m_entityList (update_entity a f st)) = f <$> find_entity a (m_entityList st).
Proof.
  intros Hf. unfold update_entity. simpl.
  rewrite find_entity_map by (intros e; destruct (e_addr e =? a)%nat; [apply Hf|done]).
  destruct (find_entity a (m_entityList st)) as [e|] eqn:E; [|done]. simpl.
  apply find_entity_addr in E. by rewrite E, Nat.eqb_refl.
Qed.

Lemma find_entity_update_other a b f st :
  a ≠ b → (∀ e, e_addr (f e) = e_addr e) →
  find_entity a (m_entityList (update_entity b f st)) = find_entity a (m_entityList st).
Proof.
  intros Hab Hf. unfold update_entity. simpl.
  rewrite find_entity_map by (intros e; destruct (e_addr e =? b)%nat; [apply Hf|done]).
  destruct (find_entity a (m_entityList st)) as [e|] eqn:E; [|done]. simpl.
  apply find_entity_addr in E. rewrite E.
  destruct (a =? b)%nat eqn:Eab; [apply Nat.eqb_eq in Eab; done|done].
Qed.

Lemma seats_only_refl e : seats_only e e.
Proof. by repeat split. Qed.

Lemma clear_seat_nodes seat ped tree : tree_nodes (clear_seat seat ped tree) = tree_nodes tree.
Proof. unfold clear_seat. by repeat case_match. Qed.

Lemma OnCloneRemove_entities entity doRemove st :
  ∃ g, (∀ e, seats_only e (g e))
       ∧ m_entityList (OnCloneRemove entity doRemove st) = map g (m_entityList st)
       ∧ m_entitiesById (OnCloneRemove entity doRemove st) = m_entitiesById st
       ∧ m_objectIdsUsed (OnCloneRemove entity doRemove st) = m_objectIdsUsed st.
Proof.
  unfold OnCloneRemove. cbv zeta.
  assert (∀ l : list SyncEntityState, l = map id l) as Hid by (intros; by rewrite map_id).
  repeat case_match;
    first [ by (exists id; split; [intros; apply seats_only_refl|split; [apply Hid|done]])
          | idtac ].
  all: eexists (λ e, if (e_addr e =? _)%nat then _ else e); split;
    [|split; [reflexivity|done]].
  all: intros en; destruct (e_addr en =? _)%nat; [|apply seats_only_refl].
  all: repeat split; simpl; destruct (e_syncTree en); simpl; try done.
  all: by rewrite clear_seat_nodes.
Qed.

Lemma OnCloneRemove_registry entity doRemove st :
  ∃ h, (∀ c, c_addr (h c) = c_addr c ∧ c_netId (h c) = c_netId c
             ∧ c_slotId (h c) = c_slotId c
             ∧ pendingRemovals (c_syncData (h c)) = pendingRemovals (c_syncData c))
       ∧ registry (OnCloneRemove entity doRemove st) = map h (registry st).
Proof.
  unfold OnCloneRemove. cbv zeta.
  assert (∀ l : list Client, l = map id l) as Hid by (intros; by rewrite map_id).
  repeat case_match;
    first [ by (exists id; split; [done|apply Hid])
          | idtac ].
  all: eexists (λ c, if (c_addr c =? _)%nat then _ else c); split; [|reflexivity].
  all: intros cl; by destruct (c_addr cl =? _)%nat.
Qed.

Lemma OnCloneRemove_queue entity doRemove st :
  main_thread_queue (OnCloneRemove entity doRemove st)
  = main_thread_queue st ++ [(e_addr entity, doRemove)]
  ∧ net_thread_queue (OnCloneRemove entity doRemove st) = net_thread_queue st
  ∧ events (OnCloneRemove entity doRemove st) = events st.
Proof. unfold OnCloneRemove. cbv zeta. repeat case_match; done. Qed.

Lemma RemoveClone_live :
  ∀ client objectId st e,
    lock_entity st (m_entitiesById st !! objectId) = Some e →
    deleting e = false →
    let st' := RemoveClone client objectId st in
    deleting <$> lock_entity st' (m_entitiesById st' !! objectId) = Some true
    ∧ main_thread_queue st' = main_thread_queue st ++ [(e_addr e, objectId)]
    ∧ m_entitiesById st' = m_entitiesById st
    ∧ m_objectIdsUsed st' = m_objectIdsUsed st
    ∧ length (m_entityList st') = length (m_entityList st)
    ∧ Forall2 (λ c c',
                 c_addr c' = c_addr c ∧ c_netId c' = c_netId c
                 ∧ pendingRemovals (c_syncData c')
                   = if c_netId c =? c_netId (get_client st client)
                     then pendingRemovals (c_syncData c)
                     else Bitset.set (pendingRemovals (c_syncData c)) objectId)
        (registry st) (registry st').
Proof.
  intros client objectId st e He Hd st'. unfold st', RemoveClone. rewrite He, Hd.
  cbv zeta. set (st1 := update_entity (e_addr e) (set_deleting true) st).
  destruct (OnCloneRemove_entities e objectId st1) as (g & Hg & Hl & Hm & Hu).
  destruct (OnCloneRemove_registry e objectId st1) as (h & Hh & Hr).
  destruct (OnCloneRemove_queue e objectId st1) as (Hq & _).
  set (st2 := OnCloneRemove e objectId st1) in *.
  assert (c_netId (get_client st2 client) = c_netId (get_client st client)) as Hn.
  { unfold get_client. rewrite Hr. change (registry st1) with (registry st).
    rewrite find_client_map by (intros c; apply Hh).
    destruct (find_client client (registry st)) as [c|]; simpl; [apply Hh|done]. }
  rewrite Hn. unfold for_all_clients. cbn [m_entitiesById set_registry main_thread_queue
    m_objectIdsUsed m_entityList registry].
  change (lock_entity (set_registry ?r ?s) ?w) with (lock_entity s w).
  rewrite Hm, Hq, Hu, Hl. repeat split.
  - unfold lock_entity in *. change (m_entitiesById st1) with (m_entitiesById st).
    destruct (m_entitiesById st !! objectId) as [a|]; [|done].
    cbn [mbind option_bind] in He |- *.
    rewrite Hl. rewrite find_entity_map by (intros e0; apply Hg).
    pose proof (find_entity_addr _ _ _ He) as Ha. subst a.
    unfold st1. rewrite find_entity_update by done. rewrite He. simpl.
    f_equal. by destruct (Hg (set_deleting true e)) as (_ & _ & _ & _ & _ & -> & _).
  - rewrite length_map. unfold st1, update_entity. simpl. by rewrite length_map.
  - rewrite Hr. change (registry st1) with (registry st).
    rewrite <- list_fmap_compose. apply Forall2_fmap_r, Forall_Forall2_diag.
    apply Forall_forall. intros c _. simpl.
    destruct (Hh c) as (Ha & Hnn & _ & Hp). rewrite Hnn.
    destruct (c_netId c =? c_netId (get_client st client)); simpl; [done|].
    by rewrite Hp.
Qed.

(** X5: [RemoveClone] on a registered entity that is not yet being deleted
    marks it [deleting], leaves one callback for the main thread, and
    sets the pending removal of the object on every client but those with
    the net id of the caller; the entity stays in the list and in the
    registry, and [used] is unchanged, until that callback has run. *)
Theorem RemoveClone_marks_deleting :
  ∀ client objectId st e,
    lock_entity st (m_entitiesById st !! objectId) = Some e →
    deleting e = false →
    let st' := RemoveClone client objectId st in
    deleting <$> lock_entity st' (m_entitiesById st' !! objectId) = Some true
    ∧ main_thread_queue st' = main_thread_queue st ++ [(e_addr e, objectId)]
    ∧ m_entitiesById st' = m_entitiesById st
    ∧ m_objectIdsUsed st' = m_objectIdsUsed st
    ∧ length (m_entityList st') = length (m_entityList st)
    ∧ Forall2 (λ c c',
                 c_addr c' = c_addr c ∧ c_netId c' = c_netId c
                 ∧ pendingRemovals (c_syncData c')
                   = if c_netId c =? c_netId (get_client st client)
                     then pendingRemovals (c_syncData c)
                     else Bitset.set (pendingRemovals (c_syncData c)) objectId)
        (registry st) (registry st').
Proof. apply RemoveClone_live. Qed.

(** X6: a second [RemoveClone] for the same object does nothing, whoever
    calls it: the entity is already [deleting]. *)
Theorem RemoveClone_twice :
  ∀ client client' objectId st,
    RemoveClone client' objectId (RemoveClone client objectId st)
    = RemoveClone client objectId st.
Proof.
  intros client client' objectId st.
  destruct (lock_entity st (m_entitiesById st !! objectId)) as [e|] eqn:He.
  - destruct (deleting e) eqn:Hd.
    + assert (RemoveClone client objectId st = st) as ->
        by (unfold RemoveClone; by rewrite He, Hd).
      unfold RemoveClone. by rewrite He, Hd.
    + destruct (RemoveClone_live client objectId st e He Hd) as (H & _).
      cbv zeta in H. set (st' := RemoveClone client objectId st) in *.
      unfold RemoveClone.
      destruct (lock_entity st' (m_entitiesById st' !! objectId)) as [e'|]; [|done].
      simpl in H. injection H as H. by rewrite H.
  - assert (RemoveClone client objectId st = st) as ->
      by (unfold RemoveClone; by rewrite He).
    unfold RemoveClone. by rewrite He.
Qed.

Lemma erase_first_elem o l e :
  e ∈ erase_first o l → e ∈ l.
Proof.
  induction l as [|e' l IH]; simpl; [done|].
  destruct (objectId_of (e_handle e') =? o).
  - intros H. by right.
  - intros H. apply elem_of_cons in H as [->|H]; [by left|right; by apply IH].
Qed.

Lemma erase_first_other o l e :
  objectId_of (e_handle e) ≠ o → e ∈ l → e ∈ erase_first o l.
Proof.
  intros Hne. induction l as [|e' l IH]; simpl; [done|].
  intros H. apply elem_of_cons in H as [->|H].
  - destruct (objectId_of (e_handle e') =? o) eqn:E; [by apply N.eqb_eq in E|by left].
  - destruct (objectId_of (e_handle e') =? o); [done|right; by apply IH].
Qed.

Lemma erase_first_length o l : (length l ≤ S (length (erase_first o l)))%nat.
Proof.
  induction l as [|e' l IH]; simpl; [lia|].
  destruct (objectId_of (e_handle e') =? o); simpl; lia.
Qed.

(** The fields of the state after the deferred removal. *)
Lemma continueCloneRemoval_fields objectId st :
  let st' := continueCloneRemoval objectId st in
  m_entityList st' = erase_first objectId (m_entityList st)
  ∧ m_entitiesById st' = delete objectId (m_entitiesById st)
  ∧ m_objectIdsUsed st' = Bitset.reset (m_objectIdsUsed st) objectId
  ∧ registry st' = registry st ∧ m_objectIdsSent st' = m_objectIdsSent st
  ∧ events st' = events st ∧ main_thread_queue st' = main_thread_queue st
  ∧ net_thread_queue st' = net_thread_queue st
  ∧ m_objectIdsStolen st' = m_objectIdsStolen st ∧ next_addr st' = next_addr st
  ∧ sent_packets st' = sent_packets st ∧ m_frameIndex st' = m_frameIndex st.
Proof.
  unfold continueCloneRemoval, SyncEntityState_destroy. cbv zeta.
  cbn [m_entityList set_m_objectIdsUsed].
  destruct (find _ (m_entityList st)) as [e|]; [destruct (guid e)|]; done.
Qed.

(** X7: the deferred removal frees the object id and its registry slot and
    takes at most one entity, one with that object id, out of the entity
    list; other ids, slots and entities are not touched. *)
Theorem continueCloneRemoval_frees_id :
  ∀ objectId st,
    let st' := continueCloneRemoval objectId st in
    GetEntity st' objectId = None
    ∧ Bitset.test (m_objectIdsUsed st') objectId = false
    ∧ (∀ o, o ≠ objectId →
            m_entitiesById st' !! o = m_entitiesById st !! o
            ∧ Bitset.test (m_objectIdsUsed st') o = Bitset.test (m_objectIdsUsed st) o)
    ∧ (∀ e, e ∈ m_entityList st' → e ∈ m_entityList st)
    ∧ (∀ e, objectId_of (e_handle e) ≠ objectId → e ∈ m_entityList st → e ∈ m_entityList st')
    ∧ (length (m_entityList st) ≤ S (length (m_entityList st')))%nat
    ∧ registry st' = registry st ∧ m_objectIdsSent st' = m_objectIdsSent st.
Proof.
  intros objectId st st'.
  destruct (continueCloneRemoval_fields objectId st) as (Hl & Hm & Hu & Hr & Hs & _).
  fold st' in Hl, Hm, Hu, Hr, Hs. rewrite Hl, Hm, Hu. repeat split; try done.
  - unfold GetEntity. rewrite Hm, lookup_delete_eq. by destruct (_ <=? _).
  - unfold Bitset.test, Bitset.reset. apply N.clearbit_eq.
  - by rewrite lookup_delete_ne.
  - unfold Bitset.test, Bitset.reset. by rewrite N.clearbit_neq.
  - intros e. apply erase_first_elem.
  - intros e. apply erase_first_other.
  - apply erase_first_length.
Qed.

Lemma OnCloneRemove_pool entity doRemove st :
  g_scriptHandlePool (OnCloneRemove entity doRemove st) = g_scriptHandlePool st.
Proof. unfold OnCloneRemove. cbv zeta. repeat case_match; done. Qed.

(** The entity that [RemoveClone] marks is still in the list, with the
    guid and the handle it had, and the pool is untouched. *)
Lemma RemoveClone_entity client objectId st e :
  lock_entity st (m_entitiesById st !! objectId) = Some e →
  deleting e = false →
  let st' := RemoveClone client objectId st in
  (∃ e', find_entity (e_addr e) (m_entityList st') = Some e'
         ∧ guid e' = guid e ∧ e_handle e' = e_handle e)
  ∧ g_scriptHandlePool st' = g_scriptHandlePool st
  ∧ net_thread_queue st' = net_thread_queue st
  ∧ events st' = events st.
Proof.
  intros He Hd. unfold RemoveClone. rewrite He, Hd. cbv zeta.
  set (st1 := update_entity (e_addr e) (set_deleting true) st).
  destruct (OnCloneRemove_entities e objectId st1) as (g & Hg & Hl & _).
  destruct (OnCloneRemove_queue e objectId st1) as (_ & Hq & Hev).
  pose proof (OnCloneRemove_pool e objectId st1) as Hp.
  unfold for_all_clients.
  cbn [m_entityList set_registry g_scriptHandlePool net_thread_queue events].
  rewrite Hl, Hq, Hev, Hp. repeat split; try done.
  assert (find_entity (e_addr e) (m_entityList st) = Some e) as Hf.
  { unfold lock_entity in He. destruct (m_entitiesById st !! objectId) as [a|]; [|done].
    cbn [mbind option_bind] in He. by rewrite (find_entity_addr _ _ _ He). }
  rewrite find_entity_map by (intros e0; apply Hg).
  unfold st1. rewrite find_entity_update by done. rewrite Hf. cbn [fmap option_fmap option_map].
  eexists. split; [reflexivity|].
  destruct (Hg (set_deleting true e)) as (_ & _ & _ & -> & -> & _). done.
Qed.

(** X8: a removal run to its end. [RemoveClone] on a registered entity
    that is not being deleted, then the callback on the main thread, then
    the one on the net thread: [entityRemoved] is fired with the script
    handle of the entity, which is 0x20000 above the pool index of the guid
    the entity has, or else of the last guid of the pool with its handle,
    or else of the slot the pool hands out; the object id is no longer
    used and no longer registered, and both queues are empty again. *)
Theorem RemoveClone_completes :
  ∀ ext client objectId st e,
    lock_entity st (m_entitiesById st !! objectId) = Some e →
    deleting e = false →
    main_thread_queue st = [] → net_thread_queue st = [] →
    let st' := run_net_thread_callback
                 (run_main_thread_callback ext (RemoveClone client objectId st)) in
    let pool := g_scriptHandlePool st in
    events st'
    = events st
      ++ [entityRemoved
            (match guid e with
             | Some g => g
             | None => default (CPool_New ext pool) (find_script_guid pool (e_handle e))
             end + 0x20000)]
    ∧ GetEntity st' objectId = None
    ∧ Bitset.test (m_objectIdsUsed st') objectId = false
    ∧ main_thread_queue st' = [] ∧ net_thread_queue st' = [].
Proof.
  intros ext client objectId st e He Hd Hm Hn st' pool.
  destruct (RemoveClone_live client objectId st e He Hd) as (_ & Hq & _).
  destruct (RemoveClone_entity client objectId st e He Hd)
    as ((e' & Hf & Hg & Hh) & Hp & Hnq & Hev).
  cbv zeta in Hq, Hf, Hp, Hnq, Hev.
  set (st1 := RemoveClone client objectId st) in *.
  assert (run_main_thread_callback ext st1
          = set_net_thread_queue [objectId]
              (set_events (events st ++ [entityRemoved (script_handle ext pool e')])
                 (MakeScriptHandle_state ext e' (set_main_thread_queue [] st1)))) as Hmain.
  { unfold run_main_thread_callback. rewrite Hq, Hm. cbn [app].
    cbn [m_entityList set_main_thread_queue]. rewrite Hf, MakeScriptHandle_eq.
    cbn [g_scriptHandlePool set_main_thread_queue events MakeScriptHandle_state
         set_g_scriptHandlePool set_m_entityList net_thread_queue set_events].
    by rewrite Hp, Hnq, Hn, Hev. }
  unfold st'. rewrite Hmain. unfold run_net_thread_callback.
  cbn [net_thread_queue set_net_thread_queue].
  match goal with |- context [continueCloneRemoval objectId ?s] =>
    destruct (continueCloneRemoval_fields objectId s)
      as (_ & Hm2 & Hu2 & _ & _ & Hev2 & Hmq2 & Hnq2 & _);
    cbv zeta in Hm2, Hu2, Hev2, Hmq2, Hnq2;
    set (st2 := continueCloneRemoval objectId s) in *
  end.
  rewrite Hev2, Hmq2, Hnq2, Hu2. unfold GetEntity. rewrite Hm2, lookup_delete_eq.
  unfold script_handle, script_guid. rewrite Hg, Hh.
  repeat split; try done.
  - by destruct (_ <=? _).
  - unfold Bitset.test, Bitset.reset. apply N.clearbit_eq.
Qed.

Lemma GetClientData_update_client_data a f st c :
  find_client a (registry st) = Some c →
  GetClientData (update_client_data a f st) a = f (c_syncData c).
Proof.
  intros Hc. unfold GetClientData, get_client, update_client_data.
  rewrite find_client_update_client by done. by rewrite Hc.
Qed.




(** ** Records that are refused, and records without an entity *)

(** X10: a takeover is refused, and the engine left as it is, when the
    entity has a connected owner other than the sender, when the target is
    already the owner, and when the target net id is not that of a
    registered client. *)
Theorem ProcessCloneTakeover_refused :
  ∀ client inPacket st e,
    let clientId := (Read 16 inPacket).1 in
    let objectId := (Read 13 (Read 16 inPacket).2).1 in
    let target := if negb (clientId =? 0) then GetClientByNetID st clientId
                  else Some (get_client st client) in
    GetEntity st objectId = Some e →
    (∃ owner, lock_client st (e_client e) = Some owner
              ∧ (c_netId owner ≠ c_netId (get_client st client)
                 ∨ c_netId <$> target = Some (c_netId owner)))
    ∨ target = None →
    (ProcessCloneTakeover client inPacket st).2 = st.
Proof.
  intros client inPacket st e clientId objectId target He H.
  unfold ProcessCloneTakeover. unfold clientId, objectId in *. clear clientId objectId.
  destruct (Read 16 inPacket) as [clientId p1]. cbn [fst snd] in *.
  destruct (Read 13 p1) as [objectId p2]. cbn [fst snd] in *.
  rewrite He. fold target.
  destruct H as [(owner & Ho & H)| ->]; [|done].
  destruct target as [tgtCl|]; [|done]. rewrite Ho.
  destruct (c_netId owner =? c_netId tgtCl) eqn:E1; [done|].
  destruct H as [H|H].
  - destruct (c_netId owner =? c_netId (get_client st client)) eqn:E2; [|done].
    by apply N.eqb_eq in E2.
  - simpl in H. injection H as H. apply N.eqb_neq in E1. congruence.
Qed.

(** X11: a remove record is acknowledged whether or not it is accepted:
    tag 3 and the object id go into the ack buffer, which is flushed when
    it is full. When the entity has a connected owner other than the
    sender, nothing but the acknowledgement happens: no entity is marked,
    no callback is queued and no client data changes. In every other case
    the result is that of [RemoveClone] for the object id. *)
Theorem ProcessCloneRemove_acknowledges :
  ∀ ext client inPacket ackPacket st,
    let objectId := (Read 13 inPacket).1 in
    let record := Write 13 objectId (Write 3 3 ackPacket) in
    let flushed := MaybeFlushBuffer (LZ4_compressBound ext) record msgPackedAcks 0 client in
    let r := ProcessCloneRemove ext client inPacket ackPacket st in
    r.1.1 = (Read 13 inPacket).2
    ∧ r.1.2 = flushed.1
    ∧ (∀ e owner,
         GetEntity st objectId = Some e →
         lock_client st (e_client e) = Some owner →
         c_netId owner ≠ c_netId (get_client st client) →
         r.2 = send_frames flushed.2 st)
    ∧ ((∀ e owner,
          GetEntity st objectId = Some e →
          lock_client st (e_client e) = Some owner →
          c_netId owner = c_netId (get_client st client)) →
       r.2 = RemoveClone client objectId (send_frames flushed.2 st)).
Proof.
  intros ext client inPacket ackPacket st objectId record flushed r.
  unfold r, ProcessCloneRemove, ack_flush. unfold flushed, record, objectId in *.
  destruct (Read 13 inPacket) as [o p1]. cbn [fst snd] in *.
  destruct (MaybeFlushBuffer _ _ _ _ _) as [a pk]. cbn [fst snd].
  change (GetEntity (send_frames pk st) o) with (GetEntity st o).
  change (lock_client (send_frames pk st) ?w) with (lock_client st w).
  change (get_client (send_frames pk st) ?w) with (get_client st w).
  destruct (GetEntity st o) as [e|]; [|cbn [fst snd]; by repeat split].
  destruct (lock_client st (e_client e)) as [owner|] eqn:Eo;
    [|cbn [fst snd]; repeat split; try done; intros e' owner' [= <-]; by rewrite Eo].
  destruct (c_netId (get_client st client) =? c_netId owner) eqn:E; cbn [negb fst snd].
  - apply N.eqb_eq in E. repeat split; try done.
    intros e' owner' [= <-] Ho Hn. rewrite Eo in Ho. congruence.
  - apply N.eqb_neq in E. repeat split; try done.
    intros H. specialize (H e owner eq_refl Eo). congruence.
Qed.

(** X12: a timestamp record never moves the client's ["ackTs"] back: it
    becomes the larger of the old and the new value, ["syncTs"] follows
    only when it advances, the record is echoed into the ack buffer, and
    the entities are not touched. *)
Theorem timestamp_record_monotone :
  ∀ ext client msgBuf ackPacket st c,
    (Read 3 msgBuf).1 = 5 →
    find_client client (registry st) = Some c →
    let newTs := (Read 32 (Read 3 msgBuf).2).1 in
    let record := Write 32 newTs (Write 3 5 ackPacket) in
    let r := ParseClonePacket_record ext client msgBuf ackPacket st in
    let c' := get_client r.2 client in
    c_ackTs c' = Some (match c_ackTs c with Some oldTs => N.max oldTs newTs | None => newTs end)
    ∧ c_syncTs c' = (match c_ackTs c with
                     | Some oldTs => if oldTs <? newTs then Some newTs else c_syncTs c
                     | None => Some newTs
                     end)
    ∧ r.1.2 = (MaybeFlushBuffer (LZ4_compressBound ext) record msgPackedAcks 0 client).1
    ∧ r.1.1.1 = false
    ∧ m_entityList r.2 = m_entityList st ∧ m_entitiesById r.2 = m_entitiesById st.
Proof.
  intros ext client msgBuf ackPacket st c Ht Hc newTs record r c'.
  unfold c', r, record, newTs, ParseClonePacket_record, ack_flush. clear c' r record newTs.
  destruct (Read 3 msgBuf) as [tag body]. cbn [fst snd] in *. subst tag.
  change (5 =? 1) with false. change (5 =? 2) with false. change (5 =? 3) with false.
  change (5 =? 4) with false. change (5 =? 5) with true. cbv iota.
  destruct (Read 32 body) as [newTs p1]. cbn [fst snd].
  destruct (MaybeFlushBuffer _ _ _ _ _) as [a pk].
  change (get_client (send_frames pk st) client) with (get_client st client).
  assert (get_client st client = c) as Hg by (unfold get_client; by rewrite Hc).
  rewrite Hg.
  set (upd := update_client client
                (λ c0, set_c_syncTs (Some newTs) (set_c_ackTs (Some newTs) c0))
                (send_frames pk st)).
  assert (get_client upd client = set_c_syncTs (Some newTs) (set_c_ackTs (Some newTs) c))
    as Hu.
  { unfold get_client, upd. rewrite find_client_update_client by done.
    change (registry (send_frames pk st)) with (registry st). by rewrite Hc. }
  destruct (c_ackTs c) as [oldTs|] eqn:Ea.
  - destruct (oldTs <? newTs) eqn:El; cbn [fst snd].
    + rewrite Hu. apply N.ltb_lt in El. simpl. repeat split. f_equal. lia.
    + change (get_client (send_frames pk st) client) with (get_client st client).
      rewrite Hg, Ea. apply N.ltb_ge in El. repeat split. f_equal. lia.
  - cbn [fst snd]. rewrite Hu. done.
Qed.

(** X13: a clone frame that is empty, or whose first tag is none of 1 to 5
    (the end tag 7 among them), is parsed without any effect: nothing is
    sent, no event is fired, and entities, pool and the sender's client
    data are as before. *)
Theorem ParseClonePacket_end_tag :
  ∀ ext client buffer st c,
    find_client client (registry st) = Some c →
    buffer = [] ∨ ¬ (1 ≤ (Read 3 (MessageBuffer_of_bits buffer)).1 ≤ 5) →
    let st' := ParseClonePacket ext client buffer st in
    m_entityList st' = m_entityList st ∧ m_entitiesById st' = m_entitiesById st
    ∧ m_objectIdsSent st' = m_objectIdsSent st ∧ m_objectIdsUsed st' = m_objectIdsUsed st
    ∧ sent_packets st' = sent_packets st ∧ events st' = events st
    ∧ GetClientData st' client = c_syncData c.
Proof.
  intros ext client buffer st c Hc H st'.
  assert (GetClientData st client = c_syncData c) as Hd
    by (unfold GetClientData, get_client; by rewrite Hc).
  assert (∀ msgBuf,
            ParseClonePacket_loop ext (S (length buffer)) client
              (false, MessageBuffer_of_bits buffer, ackBuffer (c_syncData c), st)
            = (msgBuf.1, msgBuf.2, ackBuffer (c_syncData c), st) →
            m_entityList st' = m_entityList st ∧ m_entitiesById st' = m_entitiesById st
            ∧ m_objectIdsSent st' = m_objectIdsSent st
            ∧ m_objectIdsUsed st' = m_objectIdsUsed st
            ∧ sent_packets st' = sent_packets st ∧ events st' = events st
            ∧ GetClientData st' client = c_syncData c) as Hfin.
  { intros msgBuf Hloop. unfold st', ParseClonePacket. rewrite Hd, Hloop.
    repeat split. rewrite (GetClientData_update_client_data _ _ _ _ Hc).
    by destruct (c_syncData c). }
  destruct H as [->|Htag].
  - apply (Hfin (false, MessageBuffer_of_bits [])). done.
  - cbn [ParseClonePacket_loop].
    destruct (IsAtEnd (MessageBuffer_of_bits buffer)) eqn:Ee.
    + apply (Hfin (false, MessageBuffer_of_bits buffer)).
      cbn [ParseClonePacket_loop]. by rewrite Ee.
    + apply (Hfin (true, (Read 3 (MessageBuffer_of_bits buffer)).2)).
      cbn [ParseClonePacket_loop]. rewrite Ee. cbn [negb andb].
      unfold ParseClonePacket_record.
      destruct (Read 3 (MessageBuffer_of_bits buffer)) as [tag body]. cbn [fst snd] in *.
      repeat match goal with
             | |- context [tag =? ?n] =>
               destruct (N.eqb_spec tag n); [exfalso; apply Htag; lia|]
             end.
      destruct (length buffer); cbn [ParseClonePacket_loop]; [done|].
      by rewrite andb_false_r.
Qed.

(** X14: a remove-ack clears the pending removal of its object id for the
    sender and for no one else, and changes no entity. *)
Theorem ParseAckPacket_record_remove_ack :
  ∀ client msgBuf st,
    (Read 3 msgBuf).1 = 3 →
    let objectId := (Read 13 (Read 3 msgBuf).2).1 in
    let st' := (ParseAckPacket_record client msgBuf st).2 in
    Forall2 (λ c c',
               c' = if (c_addr c =? client)%nat
                    then set_c_syncData
                           (set_pendingRemovals
                              (Bitset.reset (pendingRemovals (c_syncData c)) objectId)
                              (c_syncData c)) c
                    else c)
      (registry st) (registry st')
    ∧ m_entityList st' = m_entityList st ∧ m_entitiesById st' = m_entitiesById st
    ∧ (ParseAckPacket_record client msgBuf st).1.1 = false.
Proof.
  intros client msgBuf st Ht objectId st'.
  unfold st', objectId, ParseAckPacket_record, ack_remove. clear st' objectId.
  destruct (Read 3 msgBuf) as [tag body]. cbn [fst snd] in *. subst tag.
  change (3 =? 1) with false. change (3 =? 3) with true. cbv iota.
  destruct (Read 13 body) as [o p1]. cbn [fst snd].
  repeat split. unfold update_client_data, update_client. simpl.
  apply Forall2_fmap_r, Forall_Forall2_diag, Forall_forall. by intros c _.
Qed.

(** ** Handles, flushing, and what the tick decides *)

Lemma objectId_of_handle playerId objectId :
  objectId < 65536 → objectId_of (MakeEntityHandle playerId objectId) = objectId.
Proof.
  intros H. unfold objectId_of, MakeEntityHandle.
  change 0xFFFF with (N.ones 16). rewrite N.land_ones.
  apply N.bits_inj. intros n.
  destruct (decide (n < 16)) as [Hn|Hn].
  - rewrite N.mod_pow2_bits_low, N.lor_spec, N.shiftl_spec_low by done. done.
  - rewrite N.mod_pow2_bits_high by lia. symmetry.
    destruct (decide (objectId = 0)) as [->|H0]; [apply N.bits_0|].
    apply N.bits_above_log2. apply N.log2_lt_pow2; [lia|].
    eapply N.lt_le_trans; [exact H|]. change 65536 with (2 ^ 16).
    apply N.pow_le_mono_r; lia.
Qed.

(** X15: the low 16 bits of a handle are the object id it was made from,
    whatever the player id. *)
Theorem objectId_of_MakeEntityHandle :
  ∀ playerId objectId,
    objectId < 65536 → objectId_of (MakeEntityHandle playerId objectId) = objectId.
Proof. intros playerId objectId. apply objectId_of_handle. Qed.

(** X16: a buffer that was flushed is empty: flushing it again sends
    nothing and leaves it as it is. *)
Theorem FlushBuffer_twice :
  ∀ buffer msgType frameIndex client msgType' frameIndex' client',
    let flushed := (FlushBuffer buffer msgType frameIndex client).1 in
    GetDataLength flushed = 0
    ∧ FlushBuffer flushed msgType' frameIndex' client' = (flushed, []).
Proof.
  intros. assert (GetDataLength flushed = 0) as H0.
  { unfold flushed, FlushBuffer.
    destruct (0 <? GetDataLength buffer) eqn:E; cbn [fst]; [done|].
    apply N.ltb_ge in E. lia. }
  split; [done|]. unfold FlushBuffer at 1. by rewrite H0.
Qed.

(** What [Tick_shouldBeCreated] decides. *)
Lemma Tick_shouldBeCreated_cases culling client entityClient playerPos entity
    ex ey ez vehicleData :
  Tick_shouldBeCreated culling client entityClient playerPos entity (ex, ey, ez) vehicleData
  = negb culling
    || (c_netId client =? c_netId entityClient)
    || match playerPos with
       | Some (px, py, _) =>
         Qltb ((ex - px) * (ex - px) + (ey - py) * (ey - py)) (350 * 350)
       | None => true
       end
    || bool_decide (e_type entity = Player)
    || is_vehicle (e_type entity)
       && match vehicleData with
          | Some vd => Bitset.any (playerOccupants vd)
          | None => false
          end.
Proof.
  unfold Tick_shouldBeCreated.
  destruct culling, (c_netId client =? c_netId entityClient); cbn [negb orb];
    try reflexivity.
  - destruct playerPos as [[[px py] pz]|]; cbn [negb orb]; [|reflexivity].
    destruct (Qltb _ _); cbn [negb orb]; [reflexivity|].
    destruct (e_type entity); cbn [is_vehicle andb orb]; try reflexivity;
      try (rewrite bool_decide_eq_false_2 by done; cbn [orb]);
      try (destruct vehicleData as [vd|]; [by destruct (Bitset.any _)|done]);
      try done.
Qed.


(** The sync delay is never below 50 ms. *)
Lemma Tick_syncDelay_least radiusFrequency clips entity entityPos viewMatrix playerPos :
  50 ≤ Tick_syncDelay radiusFrequency clips entity entityPos viewMatrix playerPos.
Proof. unfold Tick_syncDelay. repeat case_match; lia. Qed.

Lemma Tick_shouldSend_true curTime resendDelay syncDelay syncType slotId entity :
  Tick_shouldSend curTime resendDelay syncDelay syncType slotId entity = true →
  (time_of (lastResends entity) slotId = 0
   ∨ (Z.of_N resendDelay ≤ Z.of_N curTime - Z.of_N (time_of (lastResends entity) slotId))%Z)
  ∧ (syncType = 2 →
     (Z.of_N syncDelay ≤ Z.of_N curTime - Z.of_N (time_of (lastSyncs entity) slotId))%Z).
Proof.
  unfold Tick_shouldSend. cbv zeta. intros H.
  match type of H with context [if ?b then false else true] => destruct b eqn:Er end.
  - by rewrite andb_false_r in H.
  - rewrite andb_true_r in H. split.
    + apply andb_false_iff in Er as [Er|Er].
      * left. apply negb_false_iff in Er. by apply N.eqb_eq.
      * right. by apply Z.ltb_ge in Er.
    + intros ->. change (2 =? 2) with true in H. cbv iota in H.
      match type of H with context [if ?b then false else true] => destruct b eqn:E end;
        [done|].
      by apply Z.ltb_ge in E.
Qed.

(** X18: when the tick leaves a command for an entity and a client, it
    has changed nothing; the client has a slot; the command is a sync
    exactly when the client acknowledged the creation and no deletion is
    recorded for it, and a create otherwise; the resend delay has passed
    since the entity was last sent to the client, if it ever was; and a
    sync comes no sooner than 50 ms after the last one. *)
Theorem Tick_entity_command :
  ∀ ext curTime resendDelay client a entityPos entityClient st go cmd st',
    Tick_entity ext curTime resendDelay client a entityPos entityClient st
    = (go, Some cmd, st') →
    let slot := c_slotId (get_client st client) in
    st' = st ∧ go = true ∧ slot ≠ NoSlot
    ∧ cmd_entity cmd = a ∧ cmd_curTime cmd = curTime
    ∧ ∃ entity,
        find_entity a (m_entityList st) = Some entity
        ∧ cmd_syncType cmd
          = (if Bitset.test (ackedCreation entity) slot
                && negb (Bitset.test (didDeletion entity) slot) then 2 else 1)
        ∧ (time_of (lastResends entity) slot = 0
           ∨ (Z.of_N resendDelay
              ≤ Z.of_N curTime - Z.of_N (time_of (lastResends entity) slot))%Z)
        ∧ (cmd_syncType cmd = 2 →
           (50 ≤ Z.of_N curTime - Z.of_N (time_of (lastSyncs entity) slot))%Z).
Proof.
  intros ext curTime resendDelay client a entityPos entityClient st go cmd st' H slot.
  unfold Tick_entity in H.
  destruct (find_entity a (m_entityList st)) as [entity|] eqn:Ef; [|by inversion H].
  destruct (lock_client st entityClient) as [ec|]; [|by inversion H].
  cbv zeta in H. fold slot in H.
  destruct (Tick_shouldBeCreated _ _ _ _ _ _ _).
  - destruct (slot =? NoSlot) eqn:Es; [by inversion H|]. apply N.eqb_neq in Es.
    destruct (Tick_shouldSend _ _ _ _ _ _) eqn:Esend; [|by inversion H].
    apply Tick_shouldSend_true in Esend as [Hr Hs].
    injection H as <- <- <-. cbn [cmd_entity cmd_curTime cmd_syncType].
    repeat split; try done. exists entity. split; [done|].
    assert ((if negb (Bitset.test (ackedCreation entity) slot)
                || Bitset.test (didDeletion entity) slot then 1 else 2)
            = (if Bitset.test (ackedCreation entity) slot
                  && negb (Bitset.test (didDeletion entity) slot) then 2 else 1)) as Et
      by (by destruct (Bitset.test (ackedCreation entity) slot),
                      (Bitset.test (didDeletion entity) slot)).
    rewrite Et in *. split; [done|]. split; [done|].
    intros H2. specialize (Hs H2).
    match type of Hs with (Z.of_N ?d ≤ _)%Z => assert (50 ≤ d) by apply Tick_syncDelay_least end.
    lia.
  - destruct (Bitset.test _ _); by inversion H.
Qed.

(** ** Culling and the drop of a client *)

Lemma identities_kept_refl st : identities_kept st st.
Proof. exists id. split; [done|]. by rewrite map_id. Qed.

Lemma identities_kept_trans st1 st2 st3 :
  identities_kept st1 st2 → identities_kept st2 st3 → identities_kept st1 st3.
Proof.
  intros (h1 & H1 & E1) (h2 & H2 & E2). exists (h2 ∘ h1). split.
  - intros c. simpl. destruct (H1 c) as (<- & <- & <-). apply H2.
  - by rewrite E2, E1, map_map.
Qed.

Lemma identities_kept_same st0 st st' :
  registry st' = registry st → identities_kept st0 st → identities_kept st0 st'.
Proof. intros E (h & H & E'). exists h. by rewrite E. Qed.

Lemma identities_kept_map st0 st g :
  keeps_identity g → identities_kept st0 st →
  identities_kept st0 (set_registry (map g (registry st)) st).
Proof.
  intros Hg H. eapply identities_kept_trans; [exact H|]. by exists g.
Qed.

Lemma identities_kept_update_client st0 st a f :
  keeps_identity f → identities_kept st0 st → identities_kept st0 (update_client a f st).
Proof. intros Hf. apply identities_kept_map. by apply keeps_identity_if. Qed.

Lemma identities_kept_update_client_data st0 st a f :
  identities_kept st0 st → identities_kept st0 (update_client_data a f st).
Proof. apply identities_kept_update_client. by intros c. Qed.

Lemma identities_kept_identities st st' :
  identities_kept st st' → same_identities st st'.
Proof.
  intros (h & Hh & E).
  replace st' with (set_registry (registry st') st') by (by destruct st').
  rewrite E.
  pose proof (same_identities_map h st Hh) as [A1 A2 A3 A4].
  split; intros; [apply A1|apply A2|apply A3|apply A4].
Qed.

Create HintDb ids discriminated.

Section IdsKeep.
Variables st0 st : ServerGameState.
Hypothesis H : identities_kept st0 st.

Lemma ids_keep_entity a f : identities_kept st0 (update_entity a f st).
Proof. exact H. Qed.

Lemma ids_keep_send m : identities_kept st0 (send m st).
Proof. exact H. Qed.

Lemma ids_keep_send_frames m : identities_kept st0 (send_frames m st).
Proof. exact H. Qed.

Lemma ids_keep_entityList v : identities_kept st0 (set_m_entityList v st).
Proof. exact H. Qed.

Lemma ids_keep_entitiesById v : identities_kept st0 (set_m_entitiesById v st).
Proof. exact H. Qed.

Lemma ids_keep_sent v : identities_kept st0 (set_m_objectIdsSent v st).
Proof. exact H. Qed.

Lemma ids_keep_used v : identities_kept st0 (set_m_objectIdsUsed v st).
Proof. exact H. Qed.

Lemma ids_keep_stolen v : identities_kept st0 (set_m_objectIdsStolen v st).
Proof. exact H. Qed.

Lemma ids_keep_next_addr v : identities_kept st0 (set_next_addr v st).
Proof. exact H. Qed.

Lemma ids_keep_events v : identities_kept st0 (set_events v st).
Proof. exact H. Qed.

Lemma ids_keep_main_queue v : identities_kept st0 (set_main_thread_queue v st).
Proof. exact H. Qed.

Lemma ids_keep_net_queue v : identities_kept st0 (set_net_thread_queue v st).
Proof. exact H. Qed.

Lemma ids_keep_client_data a f : identities_kept st0 (update_client_data a f st).
Proof. by apply identities_kept_update_client_data. Qed.

Lemma ids_keep_pending (g : Client → Bitset.t) (p : Client → bool) :
  identities_kept st0
    (for_all_clients
       (λ c, if p c then c
             else set_c_syncData (set_pendingRemovals (g c) (c_syncData c)) c) st).
Proof.
  apply identities_kept_map; [|exact H]. intros c. by destruct (p c).
Qed.
End IdsKeep.

#[local] Hint Resolve identities_kept_refl ids_keep_entity ids_keep_send ids_keep_send_frames
  ids_keep_entityList ids_keep_entitiesById ids_keep_sent ids_keep_used ids_keep_stolen
  ids_keep_next_addr ids_keep_events ids_keep_main_queue ids_keep_net_queue
  ids_keep_client_data ids_keep_pending : ids.

Ltac ids_cases := repeat case_match; cbn [fst snd]; auto 20 with ids.

Lemma ids_keep_OnCloneRemove st0 entity doRemove st :
  identities_kept st0 st → identities_kept st0 (OnCloneRemove entity doRemove st).
Proof. intros H. unfold OnCloneRemove. ids_cases. Qed.

#[local] Hint Resolve ids_keep_OnCloneRemove : ids.

Lemma ids_keep_RemoveClone st0 client objectId st :
  identities_kept st0 st → identities_kept st0 (RemoveClone client objectId st).
Proof. intros H. unfold RemoveClone. ids_cases. Qed.

Lemma ids_keep_ReassignEntity st0 h tgt st :
  identities_kept st0 st → identities_kept st0 (ReassignEntity h tgt st).
Proof. intros H. unfold ReassignEntity. ids_cases. Qed.

#[local] Hint Resolve ids_keep_RemoveClone ids_keep_ReassignEntity : ids.

Lemma ids_keep_HandleClientDrop_entity st0 client a acc :
  identities_kept st0 acc.2 →
  identities_kept st0 (HandleClientDrop_entity client a acc).2.
Proof.
  destruct acc as [toErase st]. simpl. intros H.
  unfold HandleClientDrop_entity. ids_cases.
Qed.

Lemma ids_keep_HandleClientDrop_scan st0 client addrs acc :
  identities_kept st0 acc.2 →
  identities_kept st0
    (fold_left (λ acc a, HandleClientDrop_entity client a acc) addrs acc).2.
Proof.
  revert acc. induction addrs as [|a addrs IH]; intros acc H; simpl; [done|].
  apply IH. by apply ids_keep_HandleClientDrop_entity.
Qed.

Lemma ids_keep_RemoveClone_all st0 client handles st :
  identities_kept st0 st →
  identities_kept st0
    (fold_left (λ st handle, RemoveClone client (objectId_of handle) st) handles st).
Proof.
  revert st. induction handles as [|h handles IH]; intros st H; simpl; [done|].
  apply IH. by apply ids_keep_RemoveClone.
Qed.

Lemma Bitset_reset_all (l : list N) (b : Bitset.t) (i : N) :
  Bitset.test (fold_left Bitset.reset l b) i
  = Bitset.test b i && negb (bool_decide (i ∈ l)).
Proof.
  revert b. induction l as [|x l IH]; intros b; cbn [fold_left].
  - case_bool_decide as Hin; [by apply elem_of_nil in Hin|]. by rewrite andb_true_r.
  - rewrite IH. unfold Bitset.test, Bitset.reset. rewrite N.clearbit_eqb.
    destruct (decide (i = x)) as [->|Hne].
    + rewrite N.eqb_refl. cbn [negb]. rewrite andb_false_r.
      rewrite (bool_decide_eq_true_2 (x ∈ x :: l)) by (by left).
      by rewrite andb_false_r.
    + assert ((x =? i) = false) as -> by (apply N.eqb_neq; congruence).
      cbn [negb]. rewrite andb_true_r. f_equal. f_equal.
      apply bool_decide_ext. rewrite elem_of_cons. tauto.
Qed.

Lemma HandleClientDrop_last client st :
  g_oneSyncVar (convars st) = true →
  let st2 := HandleClientDrop_orphans client st in
  let slot := c_slotId (get_client st client) in
  identities_kept st st2
  ∧ registry (HandleClientDrop client st) = registry st2
  ∧ m_objectIdsSent (HandleClientDrop client st)
    = fold_left Bitset.reset (elements (objectIds (GetClientData st2 client)))
        (m_objectIdsSent st2)
  ∧ (slot ≠ NoSlot →
     m_entityList (HandleClientDrop client st)
     = map (λ e,
              match e_syncTree e with
              | Some tree =>
                set_e_syncTree
                  (Some (Visit (λ node, mkNodeBase (node_frameIndex node)
                                          (Bitset.reset (ackedPlayers node) slot)) tree))
                  (set_ackedCreation (Bitset.reset (ackedCreation e) slot) e)
              | None => e
              end) (m_entityList st2)).
Proof.
  intros Hon st2 slot.
  assert (identities_kept st st2) as Hk.
  { unfold st2, HandleClientDrop_orphans.
    pose proof (ids_keep_HandleClientDrop_scan st client (map e_addr (m_entityList st))
                  ([], st) (identities_kept_refl st)) as H1.
    destruct (fold_left _ (map e_addr (m_entityList st)) ([], st)) as [toErase st1].
    by apply ids_keep_RemoveClone_all. }
  split; [done|].
  assert (slot = c_slotId (get_client st2 client)) as Hslot.
  { symmetry. apply (same_slotId _ _ (identities_kept_identities _ _ Hk)). }
  unfold HandleClientDrop. rewrite Hon. cbn [negb].
  unfold st2, HandleClientDrop_orphans in *.
  destruct (fold_left _ (map e_addr (m_entityList st)) ([], st)) as [toErase st1].
  cbv zeta.
  set (st2' := fold_left _ toErase st1) in *.
  change (get_client (set_m_objectIdsSent ?v ?s) ?c) with (get_client s c).
  rewrite <- Hslot.
  destruct (slot =? NoSlot) eqn:Es; cbn [negb].
  - apply N.eqb_eq in Es. repeat split. intros ?. done.
  - repeat split.
Qed.

(** X19: after a client is dropped, none of the object ids still listed
    for it is marked as sent, and no entity with a sync tree has the
    creation, or any node of its tree, acknowledged for the slot the
    client had. *)
Theorem HandleClientDrop_forgets_client :
  ∀ client st,
    g_oneSyncVar (convars st) = true →
    let st' := HandleClientDrop client st in
    let slot := c_slotId (get_client st client) in
    (∀ id, id ∈ objectIds (GetClientData st' client) →
           Bitset.test (m_objectIdsSent st') id = false)
    ∧ (slot ≠ NoSlot →
       ∀ e tree, e ∈ m_entityList st' → e_syncTree e = Some tree →
         Bitset.test (ackedCreation e) slot = false
         ∧ Forall (λ node, Bitset.test (ackedPlayers node) slot = false) (tree_nodes tree)).
Proof.
  intros client st Hon st' slot.
  destruct (HandleClientDrop_last client st Hon) as (_ & Hreg & Hsent & Hlist).
  fold st' slot in Hreg, Hsent, Hlist. split.
  - intros id Hid. rewrite Hsent, Bitset_reset_all.
    unfold GetClientData, get_client in Hid. rewrite Hreg in Hid.
    rewrite bool_decide_eq_true_2; [by rewrite andb_false_r|].
    by apply elem_of_elements.
  - intros Hslot e tree He Ht. rewrite (Hlist Hslot) in He.
    apply list_elem_of_fmap in He as (e0 & -> & _).
    destruct (e_syncTree e0) as [tree0|] eqn:E0.
    + simpl in Ht. injection Ht as <-. split.
      * simpl. unfold Bitset.test, Bitset.reset. apply N.clearbit_eq.
      * simpl. apply Forall_map, Forall_forall. intros node _. simpl.
        unfold Bitset.test, Bitset.reset. apply N.clearbit_eq.
    + congruence.
Qed.

Lemma Tick_shouldBeCreated_ext culling cl cl' ec ec' playerPos entity entity' entityPos vd :
  c_netId cl' = c_netId cl → c_netId ec' = c_netId ec → e_type entity' = e_type entity →
  Tick_shouldBeCreated culling cl' ec' playerPos entity' entityPos vd
  = Tick_shouldBeCreated culling cl ec playerPos entity entityPos vd.
Proof.
  intros H1 H2 H3. destruct entityPos as [[ex ey] ez].
  by rewrite !Tick_shouldBeCreated_cases, H1, H2, H3.
Qed.

(** X20: when the tick finds that an entity the client has created should
    no longer exist for it, it records the deletion on the entity,
    withdraws the acknowledgement, marks the object id as a pending removal
    of the client, and leaves no command; deciding again for the same
    client and entity changes nothing further. *)
Theorem Tick_entity_cull :
  ∀ ext curTime resendDelay client a entityPos entityClient st entity ec cl,
    find_entity a (m_entityList st) = Some entity →
    lock_client st entityClient = Some ec →
    find_client client (registry st) = Some cl →
    let slot := c_slotId cl in
    Tick_shouldBeCreated (g_oneSyncCulling (convars st)) cl ec
      (GetPlayerFocusPos <$> lock_entity st (playerEntity (c_syncData cl)))
      entity entityPos
      (if is_vehicle (e_type entity) then e_syncTree entity ≫= tree_vehicleGameState
       else None) = false →
    Bitset.test (ackedCreation entity) slot = true →
    let r := Tick_entity ext curTime resendDelay client a entityPos entityClient st in
    r.1 = (true, None)
    ∧ find_entity a (m_entityList r.2) = Some (culled slot entity)
    ∧ Bitset.test (ackedCreation (culled slot entity)) slot = false
    ∧ Bitset.test (didDeletion (culled slot entity)) slot = true
    ∧ pendingRemovals (GetClientData r.2 client)
      = Bitset.set (pendingRemovals (c_syncData cl)) (objectId_of (e_handle entity))
    ∧ Tick_entity ext curTime resendDelay client a entityPos entityClient r.2
      = (true, None, r.2).
Proof.
  intros ext curTime resendDelay client a entityPos entityClient st entity ec cl
    Hf Hec Hcl slot Hno Hacked r.
  assert (get_client st client = cl) as Hget by (unfold get_client; by rewrite Hcl).
  set (g := λ d, set_pendingRemovals
                   (Bitset.set (pendingRemovals d) (objectId_of (e_handle entity))) d).
  set (st1 := update_client_data client g st).
  set (st2 := update_entity a (culled slot) st1).
  assert (r = (true, None, st2)) as Hr.
  { unfold r, Tick_entity. rewrite Hf, Hec. cbv zeta. rewrite Hget.
    fold slot. rewrite Hno, Hacked. reflexivity. }
  rewrite Hr. cbn [fst snd].
  assert (find_entity a (m_entityList st2) = Some (culled slot entity)) as Hf2.
  { unfold st2. rewrite find_entity_update by done. change (m_entityList st1) with (m_entityList st).
    by rewrite Hf. }
  assert (get_client st2 client = set_c_syncData (g (c_syncData cl)) cl) as Hget2.
  { unfold get_client. change (registry st2) with (registry (update_client_data client g st)).
    unfold update_client_data. rewrite find_client_update_client by done. by rewrite Hcl. }
  assert (Bitset.test (ackedCreation (culled slot entity)) slot = false) as Hcleared.
  { simpl. unfold Bitset.test, Bitset.reset. apply N.clearbit_eq. }
  split; [done|]. split; [done|]. split; [done|].
  split; [simpl; unfold Bitset.test, Bitset.set; apply N.setbit_eq|].
  split; [unfold GetClientData; by rewrite Hget2|].
  assert (∃ ec', lock_client st2 entityClient = Some ec' ∧ c_netId ec' = c_netId ec)
    as (ec' & Hec2 & Hn2).
  { pose proof (same_identities_update_client_data client g st) as [_ I2 _ _].
    specialize (I2 entityClient). rewrite Hec in I2.
    change (lock_client st2 entityClient) with (lock_client st1 entityClient).
    fold st1 in I2. destruct (lock_client st1 entityClient) as [ec'|]; [|done].
    exists ec'. split; [done|]. by injection I2. }
  assert (GetPlayerFocusPos <$> lock_entity st2 (playerEntity (g (c_syncData cl)))
          = GetPlayerFocusPos <$> lock_entity st (playerEntity (c_syncData cl))) as Hpos.
  { change (playerEntity (g (c_syncData cl))) with (playerEntity (c_syncData cl)).
    destruct (playerEntity (c_syncData cl)) as [b|]; [|done]. simpl.
    unfold st2, update_entity. simpl.
    rewrite find_entity_map by (intros en; by destruct (e_addr en =? a)%nat).
    destruct (find_entity b (m_entityList st)) as [en|]; [|done]. simpl.
    by destruct (e_addr en =? a)%nat. }
  unfold Tick_entity. rewrite Hf2, Hec2. cbv zeta. rewrite Hget2.
  change (c_slotId (set_c_syncData (g (c_syncData cl)) cl)) with slot.
  change (c_syncData (set_c_syncData (g (c_syncData cl)) cl)) with (g (c_syncData cl)).
  rewrite Hpos, Hcleared.
  change (e_type (culled slot entity)) with (e_type entity).
  change (e_syncTree (culled slot entity)) with (e_syncTree entity).
  change (convars st2) with (convars st).
  rewrite (Tick_shouldBeCreated_ext _ cl _ ec _ _ entity) by done.
  by rewrite Hno.
Qed.

(** ** Well-formedness of the reachable states *)

Lemma well_formed_new cv : well_formed (ServerGameState_new cv).
Proof.
  split; [constructor|]. split; [constructor|]. apply map_Forall_empty.
Qed.

Lemma find_entity_None a l : a ∉ e_addr <$> l → find_entity a l = None.
Proof.
  induction l as [|e l IH]; simpl; [done|].
  rewrite not_elem_of_cons. intros [Hne Hl].
  destruct (e_addr e =? a)%nat eqn:E; [apply Nat.eqb_eq in E; congruence|by apply IH].
Qed.

Lemma find_entity_app a l l' :
  find_entity a (l ++ l') = match find_entity a l with
                            | Some e => Some e
                            | None => find_entity a l'
                            end.
Proof.
  induction l as [|e l IH]; simpl; [done|]. by destruct (e_addr e =? a)%nat.
Qed.

Lemma well_formed_map g st :
  entity_static g →
  well_formed st → well_formed (set_m_entityList (map g (m_entityList st)) st).
Proof.
  intros Hg (Ha & Hn & Hm). unfold well_formed. simpl. split; [|split].
  - rewrite Forall_map. eapply Forall_impl; [exact Ha|].
    intros e He. simpl. by destruct (Hg e) as [-> _].
  - change (map g (m_entityList st)) with (g <$> m_entityList st).
    rewrite <- list_fmap_compose.
    erewrite list_fmap_ext; [exact Hn|]. intros ? e _. simpl. apply Hg.
  - eapply map_Forall_impl; [exact Hm|].
    intros o a (Ho & Hlt & Hh). split; [done|]. split; [done|].
    intros e. rewrite find_entity_map by (intros e'; apply Hg).
    destruct (find_entity a (m_entityList st)) as [e0|]; [|done].
    simpl. intros [= <-]. destruct (Hg e0) as [_ ->]. by apply Hh.
Qed.

Lemma entity_static_if a f :
  entity_static f → entity_static (λ e, if (e_addr e =? a)%nat then f e else e).
Proof. intros Hf e. destruct (e_addr e =? a)%nat; [apply Hf|done]. Qed.

Lemma well_formed_update a f st :
  entity_static f → well_formed st → well_formed (update_entity a f st).
Proof. intros Hf. apply well_formed_map. by apply entity_static_if. Qed.

Lemma well_formed_create st e o :
  e_addr e = next_addr st → e_handle e = MakeEntityHandle 0 o → o < MaxObjectId →
  well_formed st →
  well_formed
    (set_m_entitiesById (<[o := next_addr st]> (m_entitiesById st))
       (set_m_entityList (m_entityList st ++ [e])
          (set_next_addr (S (next_addr st)) st))).
Proof.
  intros Ea Eh Ho (Ha & Hn & Hm). unfold well_formed. simpl.
  assert (next_addr st ∉ e_addr <$> m_entityList st) as Hfresh.
  { intros Hin. apply list_elem_of_fmap in Hin as (e' & He' & Hin).
    rewrite Forall_forall in Ha. specialize (Ha e' Hin). lia. }
  split; [|split].
  - apply Forall_app. split.
    + eapply Forall_impl; [exact Ha|]. intros e' ?. simpl in *. lia.
    + constructor; [|constructor]. lia.
  - rewrite fmap_app. apply NoDup_app. split; [done|]. split.
    + intros x Hx. simpl. rewrite list_elem_of_singleton. intros ->.
      rewrite Ea in Hx. done.
    + simpl. apply NoDup_singleton.
  - apply map_Forall_insert_2.
    + split; [done|]. split; [lia|]. intros e'. rewrite find_entity_app.
      rewrite find_entity_None by done. simpl.
      destruct (e_addr e =? next_addr st)%nat; [|done]. by intros [= <-].
    + eapply map_Forall_impl; [exact Hm|].
      intros o' a (Ho' & Hlt & Hh). split; [done|]. split; [lia|].
      intros e'. rewrite find_entity_app.
      destruct (find_entity a (m_entityList st)) as [e0|] eqn:E0.
      * intros [= <-]. by apply Hh.
      * simpl. destruct (e_addr e =? a)%nat eqn:E; [|done].
        apply Nat.eqb_eq in E. lia.
Qed.

Lemma well_formed_created st st' e o :
  next_addr st' = S (next_addr st) →
  m_entityList st' = m_entityList st ++ [e] →
  m_entitiesById st' = <[o := next_addr st]> (m_entitiesById st) →
  e_addr e = next_addr st → e_handle e = MakeEntityHandle 0 o → o < MaxObjectId →
  well_formed st → well_formed st'.
Proof.
  intros En El Em Ea Eh Ho H.
  pose proof (well_formed_create st e o Ea Eh Ho H) as H'.
  unfold well_formed in *. rewrite En, El, Em. exact H'.
Qed.

Lemma erase_first_sublist o l : erase_first o l `sublist_of` l.
Proof.
  induction l as [|e l IH]; simpl; [done|].
  destruct (_ =? _); [by apply sublist_cons|by apply sublist_skip].
Qed.

Lemma find_entity_Some a l e :
  NoDup (e_addr <$> l) → e ∈ l → e_addr e = a → find_entity a l = Some e.
Proof.
  induction l as [|x l IH]; simpl; [by intros _ ?%elem_of_nil|].
  rewrite NoDup_cons. intros [Hx Hl] Hin Ha.
  apply elem_of_cons in Hin as [->|Hin].
  - apply Nat.eqb_eq in Ha. by rewrite Ha.
  - destruct (e_addr x =? a)%nat eqn:E; [|by apply IH].
    apply Nat.eqb_eq in E. exfalso. apply Hx. rewrite E, <- Ha.
    by apply list_elem_of_fmap_2.
Qed.

Lemma find_entity_sublist a l l' e :
  NoDup (e_addr <$> l) → l' `sublist_of` l →
  find_entity a l' = Some e → find_entity a l = Some e.
Proof.
  intros Hn Hs Hf. apply find_entity_Some; [done| |by eapply find_entity_addr].
  eapply elem_of_sublist; [|exact Hs]. by eapply find_entity_elem.
Qed.

Lemma well_formed_continueCloneRemoval o st :
  well_formed st → well_formed (continueCloneRemoval o st).
Proof.
  intros (Ha & Hn & Hm). unfold well_formed.
  destruct (continueCloneRemoval_fields o st)
    as (-> & -> & _ & _ & _ & _ & _ & _ & _ & -> & _).
  pose proof (erase_first_sublist o (m_entityList st)) as Hs.
  split; [|split].
  - rewrite Forall_forall in Ha |- *. intros e He. apply Ha.
    by eapply elem_of_sublist.
  - eapply sublist_NoDup; [exact Hn|]. by apply fmap_sublist.
  - apply map_Forall_delete. eapply map_Forall_impl; [exact Hm|].
    intros o' a (Ho' & Hlt & Hh). split; [done|]. split; [done|].
    intros e He. apply Hh. by eapply find_entity_sublist.
Qed.

Lemma wf_keep_pool_of st v :
  well_formed st → well_formed (set_g_scriptHandlePool v st).
Proof. done. Qed.

Create HintDb wf discriminated.

Section WfKeep.
Variable st : ServerGameState.
Hypothesis H : well_formed st.

Lemma wf_keep_client a f : well_formed (update_client a f st).
Proof. exact H. Qed.

Lemma wf_keep_client_data a f : well_formed (update_client_data a f st).
Proof. exact H. Qed.

Lemma wf_keep_for_all_clients f : well_formed (for_all_clients f st).
Proof. exact H. Qed.

Lemma wf_keep_send m : well_formed (send m st).
Proof. exact H. Qed.

Lemma wf_keep_send_frames m : well_formed (send_frames m st).
Proof. exact H. Qed.

Lemma wf_keep_registry v : well_formed (set_registry v st).
Proof. exact H. Qed.

Lemma wf_keep_sent v : well_formed (set_m_objectIdsSent v st).
Proof. exact H. Qed.

Lemma wf_keep_used v : well_formed (set_m_objectIdsUsed v st).
Proof. exact H. Qed.

Lemma wf_keep_stolen v : well_formed (set_m_objectIdsStolen v st).
Proof. exact H. Qed.

Lemma wf_keep_events v : well_formed (set_events v st).
Proof. exact H. Qed.

Lemma wf_keep_main_queue v : well_formed (set_main_thread_queue v st).
Proof. exact H. Qed.

Lemma wf_keep_net_queue v : well_formed (set_net_thread_queue v st).
Proof. exact H. Qed.

Lemma wf_keep_sent_packets v : well_formed (set_sent_packets v st).
Proof. exact H. Qed.

Lemma wf_keep_pool v : well_formed (set_g_scriptHandlePool v st).
Proof. exact H. Qed.

Lemma wf_keep_frameIndex v : well_formed (set_m_frameIndex v st).
Proof. exact H. Qed.

Lemma wf_keep_convars v : well_formed (set_convars v st).
Proof. exact H. Qed.

Lemma wf_keep_MakeScriptHandle_state ext e : well_formed (MakeScriptHandle_state ext e st).
Proof.
  unfold MakeScriptHandle_state. cbv zeta. apply (wf_keep_pool_of _).
  destruct (guid e); [exact H|]. apply well_formed_map; [|exact H].
  intros e'. by destruct (_ =? _)%nat.
Qed.
End WfKeep.

#[local] Hint Resolve wf_keep_client wf_keep_client_data wf_keep_for_all_clients
  wf_keep_send wf_keep_send_frames wf_keep_registry wf_keep_sent wf_keep_used
  wf_keep_stolen wf_keep_events wf_keep_main_queue wf_keep_net_queue
  wf_keep_sent_packets wf_keep_pool wf_keep_frameIndex wf_keep_MakeScriptHandle_state
  well_formed_continueCloneRemoval : wf.
#[local] Hint Extern 2 (well_formed (update_entity _ _ _)) =>
  apply well_formed_update; [by (intros ?; split)|] : wf.
#[local] Hint Extern 2 (well_formed (set_m_entitiesById _ _)) =>
  eapply well_formed_created;
    [reflexivity|reflexivity|reflexivity|reflexivity|reflexivity|assumption|] : wf.

Ltac wf_cases := handler_cases; cbn [fst snd]; auto 20 with wf.

Lemma wf_keep_OnCloneRemove entity doRemove st :
  well_formed st → well_formed (OnCloneRemove entity doRemove st).
Proof. intros H. unfold OnCloneRemove. wf_cases. Qed.

#[local] Hint Resolve wf_keep_OnCloneRemove : wf.

Lemma wf_keep_RemoveClone client objectId st :
  well_formed st → well_formed (RemoveClone client objectId st).
Proof. intros H. unfold RemoveClone. wf_cases. Qed.

Lemma wf_keep_ReassignEntity h tgt st :
  well_formed st → well_formed (ReassignEntity h tgt st).
Proof. intros H. unfold ReassignEntity. wf_cases. Qed.

#[local] Hint Resolve wf_keep_RemoveClone wf_keep_ReassignEntity : wf.

Lemma wf_keep_ProcessClonePacket ext client inPacket parsingType out st :
  well_formed st →
  well_formed (ProcessClonePacket ext client inPacket parsingType out st).2.
Proof.
  intros H. unfold ProcessClonePacket. cbv zeta.
  pose proof (Read_objectId_bound inPacket) as Hb.
  destruct (Read 13 inPacket) as [objectId p1]. cbn [fst] in Hb.
  wf_cases.
Qed.

Lemma wf_keep_ack_flush ext client ackPacket st :
  well_formed st → well_formed (ack_flush ext client ackPacket st).2.
Proof. intros H. unfold ack_flush. wf_cases. Qed.

Lemma wf_keep_ProcessCloneRemove ext client inPacket ackPacket st :
  well_formed st →
  well_formed (ProcessCloneRemove ext client inPacket ackPacket st).2.
Proof.
  intros H. unfold ProcessCloneRemove. destruct (Read 13 inPacket).
  match goal with |- context [ack_flush ?e ?c ?a ?s] =>
    pose proof (wf_keep_ack_flush e c a s H) as H2;
    destruct (ack_flush e c a s) end.
  simpl in H2. wf_cases.
Qed.

Lemma wf_keep_ProcessCloneTakeover client inPacket st :
  well_formed st → well_formed (ProcessCloneTakeover client inPacket st).2.
Proof. intros H. unfold ProcessCloneTakeover. wf_cases. Qed.

Lemma wf_keep_ParseClonePacket_record ext client msgBuf ackPacket st :
  well_formed st →
  well_formed (ParseClonePacket_record ext client msgBuf ackPacket st).2.
Proof.
  intros H. unfold ParseClonePacket_record. destruct (Read 3 msgBuf) as [dataType msgBuf'].
  repeat match goal with |- context [if ?b then _ else _] => destruct b end.
  - rewrite ProcessCloneCreate_state. cbn [snd].
    apply wf_keep_send_frames, wf_keep_used. by apply wf_keep_ProcessClonePacket.
  - rewrite ProcessCloneSync_state. cbn [snd].
    apply wf_keep_send_frames. by apply wf_keep_ProcessClonePacket.
  - pose proof (wf_keep_ProcessCloneRemove ext client msgBuf' ackPacket st H).
    by destruct (ProcessCloneRemove _ _ _ _ _) as [[? ?] ?].
  - pose proof (wf_keep_ProcessCloneTakeover client msgBuf' st H).
    by destruct (ProcessCloneTakeover _ _ _) as [? ?].
  - destruct (Read 32 msgBuf').
    match goal with |- context [ack_flush ?e ?c ?a ?s] =>
      pose proof (wf_keep_ack_flush e c a s H) as H2;
      destruct (ack_flush e c a s) end.
    simpl in H2. wf_cases.
  - done.
Qed.

Lemma wf_keep_ack_create client objectId st :
  well_formed st → well_formed (ack_create client objectId st).
Proof. intros H. unfold ack_create. wf_cases. Qed.

Lemma wf_keep_ack_remove client msgBuf st :
  well_formed st → well_formed (ack_remove client msgBuf st).2.
Proof. intros H. unfold ack_remove. wf_cases. Qed.

Lemma wf_keep_ParseAckPacket_record client msgBuf st :
  well_formed st → well_formed (ParseAckPacket_record client msgBuf st).2.
Proof.
  intros H. unfold ParseAckPacket_record. destruct (Read 3 msgBuf) as [dataType msgBuf'].
  repeat match goal with |- context [if ?b then _ else _] => destruct b end.
  - destruct (Read 13 msgBuf') as [objectId msgBuf''].
    pose proof (wf_keep_ack_remove client msgBuf'' _ (wf_keep_ack_create client objectId st H)).
    by destruct (ack_remove _ _ _).
  - pose proof (wf_keep_ack_remove client msgBuf' st H).
    by destruct (ack_remove _ _ _).
  - done.
Qed.

Lemma wf_keep_Tick_entity ext curTime resendDelay client a entityPos entityClient st :
  well_formed st →
  well_formed (Tick_entity ext curTime resendDelay client a entityPos entityClient st).2.
Proof. intros H. unfold Tick_entity. wf_cases. Qed.

Lemma wf_keep_HandleClientDrop_entity client a acc :
  well_formed acc.2 → well_formed (HandleClientDrop_entity client a acc).2.
Proof.
  destruct acc as [toErase st]. simpl. intros H.
  unfold HandleClientDrop_entity. wf_cases.
Qed.

Lemma wf_keep_HandleClientDrop_scan client addrs acc :
  well_formed acc.2 →
  well_formed (fold_left (λ acc a, HandleClientDrop_entity client a acc) addrs acc).2.
Proof.
  revert acc. induction addrs as [|a addrs IH]; intros acc H; simpl; [done|].
  apply IH. by apply wf_keep_HandleClientDrop_entity.
Qed.

Lemma wf_keep_RemoveClone_all client handles st :
  well_formed st →
  well_formed
    (fold_left (λ st handle, RemoveClone client (objectId_of handle) st) handles st).
Proof.
  revert st. induction handles as [|h handles IH]; intros st H; simpl; [done|].
  apply IH. by apply wf_keep_RemoveClone.
Qed.

Lemma wf_keep_HandleClientDrop client st :
  well_formed st → well_formed (HandleClientDrop client st).
Proof.
  intros H. unfold HandleClientDrop.
  destruct (negb (g_oneSyncVar (convars st))); [done|].
  pose proof (wf_keep_HandleClientDrop_scan client (map e_addr (m_entityList st)) ([], st) H)
    as H1.
  destruct (fold_left _ (map e_addr (m_entityList st)) ([], st)) as [toErase st1].
  simpl in H1. cbv zeta.
  pose proof (wf_keep_RemoveClone_all client toErase st1 H1) as H2.
  set (st2 := fold_left _ toErase st1) in *.
  destruct (negb (_ =? NoSlot)); [|by apply wf_keep_sent].
  match goal with |- well_formed (set_m_entityList (map ?g _) ?s) =>
    apply (well_formed_map g s) end; [|by apply wf_keep_sent].
  intros e. by destruct (e_syncTree e).
Qed.

Lemma gather_ids_frame numIds id client st :
  m_entityList (gather_ids numIds id client st).2 = m_entityList st
  ∧ m_entitiesById (gather_ids numIds id client st).2 = m_entitiesById st
  ∧ next_addr (gather_ids numIds id client st).2 = next_addr st.
Proof.
  revert id st. induction numIds as [|n IH]; intros id st; cbn [gather_ids]; [done|].
  destruct (next_free_id _ _ _ _) as [id'|]; [|done].
  match goal with |- context [gather_ids n id' client ?s] =>
    specialize (IH id' s); destruct (gather_ids n id' client s) end.
  cbn [snd] in *. destruct IH as (-> & -> & ->). done.
Qed.

Lemma wf_keep_SendObjectIds client numIds st :
  well_formed st → well_formed (SendObjectIds client numIds st).
Proof.
  intros H. unfold SendObjectIds.
  pose proof (gather_ids_frame numIds 1 client st) as He.
  destruct (gather_ids numIds 1 client st) as [ids st1]. cbn [snd] in He.
  destruct He as (El & Em & En).
  apply wf_keep_send. unfold well_formed. by rewrite El, Em, En.
Qed.

Lemma wf_keep_gameStateAck client frameIndex ignoreIds st :
  well_formed st → well_formed (gameStateAck client frameIndex ignoreIds st).
Proof.
  intros H. unfold gameStateAck. cbv zeta. apply wf_keep_client_data.
  apply (fold_left_keeps well_formed); [|done].
  clear. intros st p H. unfold gameStateAck_entity. wf_cases.
Qed.

Lemma wf_keep_Tick_frameIndex st : well_formed st → well_formed (Tick_frameIndex st).
Proof. intros H. unfold Tick_frameIndex. by apply well_formed_map. Qed.

Lemma wf_keep_UpdateEntities ext st : well_formed st → well_formed (UpdateEntities ext st).
Proof.
  intros H. unfold UpdateEntities.
  apply (fold_left_keeps well_formed); [|done].
  clear. intros st a H.
  assert (well_formed (UpdateEntities_camera ext a st)) as H1.
  { unfold UpdateEntities_camera. wf_cases. }
  revert H1. generalize (UpdateEntities_camera ext a st). clear. intros st H.
  unfold UpdateEntities_seat. wf_cases.
Qed.

Lemma wf_keep_Tick_client client st : well_formed st → well_formed (Tick_client client st).2.
Proof. intros H. unfold Tick_client, FlushAcks. wf_cases. Qed.

Lemma wf_keep_clone_maybe_flush ext frameIndex client acc :
  well_formed acc.2 → well_formed (clone_maybe_flush ext frameIndex client acc).2.
Proof. intros H. unfold clone_maybe_flush. wf_cases. Qed.

Lemma wf_keep_clone_flush frameIndex client acc :
  well_formed acc.2 → well_formed (clone_flush frameIndex client acc).2.
Proof. intros H. unfold clone_flush. wf_cases. Qed.

Lemma wf_keep_sync_command ext frameIndex client cmd unparsed acc :
  well_formed acc.2 →
  well_formed (sync_command ext frameIndex client cmd unparsed acc).2.
Proof.
  destruct acc as [cloneBuffer st]. cbn [snd]. intros H. unfold sync_command.
  repeat case_inner; cbn [fst snd]; try done;
    repeat first [apply wf_keep_clone_maybe_flush | apply wf_keep_clone_flush];
    cbn [fst snd]; auto 20 with wf.
Qed.

Lemma wf_keep_removal_command ext frameIndex client cloneBuffer st :
  well_formed st →
  well_formed (removal_command ext frameIndex client cloneBuffer st).2.
Proof.
  intros H. unfold removal_command.
  apply (fold_left_keeps (λ acc, well_formed acc.2)); [|done].
  clear. intros [cloneBuffer st] i H. cbn [snd] in H. unfold removal_step. wf_cases.
Qed.

Lemma wf_keep_run_command ext frameIndex client acc c :
  well_formed acc.2 → well_formed (run_command ext frameIndex client acc c).2.
Proof.
  intros H. destruct c as [time|cmd unparsed|]; cbn [run_command].
  - destruct acc as [cloneBuffer st]. unfold time_command.
    by apply wf_keep_clone_maybe_flush.
  - by apply wf_keep_sync_command.
  - by apply wf_keep_removal_command.
Qed.

Lemma wf_keep_run_sync_commands ext frameIndex client commands st :
  well_formed st → well_formed (run_sync_commands ext frameIndex client commands st).
Proof.
  intros H. unfold run_sync_commands, Execute. cbv zeta. apply wf_keep_client_data.
  apply wf_keep_clone_flush.
  apply (fold_left_keeps (λ acc, well_formed acc.2)); [|done].
  intros acc c. apply wf_keep_run_command.
Qed.

Lemma wf_keep_engine_step ext st st' :
  engine_step ext st st' → well_formed st → well_formed st'.
Proof.
  intros [] H.
  - by apply wf_keep_ParseClonePacket_record.
  - by apply wf_keep_ParseAckPacket_record.
  - by apply wf_keep_gameStateAck.
  - by apply wf_keep_SendObjectIds.
  - by apply wf_keep_HandleClientDrop.
  - by apply wf_keep_Tick_frameIndex.
  - by apply wf_keep_send.
  - by apply wf_keep_UpdateEntities.
  - by apply wf_keep_Tick_client.
  - by apply wf_keep_Tick_entity.
  - by apply wf_keep_client_data.
  - by apply wf_keep_frameIndex.
  - by apply wf_keep_run_sync_commands.
  - unfold run_main_thread_callback. wf_cases.
  - unfold run_net_thread_callback. wf_cases.
  - by apply wf_keep_registry.
  - by apply wf_keep_convars.
  - by apply wf_keep_pool.
  - by apply well_formed_update.
Qed.

Lemma reachable_well_formed ext st : reachable ext st → well_formed st.
Proof.
  induction 1 as [cv|st st' _ IH Hs]; [apply well_formed_new|].
  by eapply wf_keep_engine_step.
Qed.

Lemma well_formed_GetEntity st o e :
  well_formed st → GetEntity st o = Some e →
  o < MaxObjectId ∧ e_handle e = MakeEntityHandle 0 o ∧ objectId_of (e_handle e) = o
  ∧ e ∈ m_entityList st ∧ m_entitiesById st !! o = Some (e_addr e).
Proof.
  intros (_ & _ & Hm) He. unfold GetEntity in He.
  destruct (MaxObjectId <=? o) eqn:E; [done|]. apply N.leb_gt in E.
  destruct (m_entitiesById st !! o) as [a|] eqn:Ea; [|done]. simpl in He.
  destruct (Hm o a Ea) as (_ & _ & Hh). specialize (Hh e He).
  split; [done|]. split; [done|]. split.
  { rewrite Hh. apply objectId_of_handle. unfold MaxObjectId in E. lia. }
  split; [by eapply find_entity_elem|].
  by rewrite (find_entity_addr _ _ _ He).
Qed.

(** X21: in every state the engine reaches, an entity is found under the
    object id its handle was made from, and under no other: the id is
    below 8192, the handle is [MakeEntityHandle 0 id], and the low 16 bits
    of the handle give the id back. No two entities of the list are the
    same object. *)
Theorem reachable_GetEntity_handle :
  ∀ ext st, reachable ext st →
    (∀ o e, GetEntity st o = Some e →
       o < MaxObjectId ∧ e_handle e = MakeEntityHandle 0 o
       ∧ objectId_of (e_handle e) = o ∧ e ∈ m_entityList st)
    ∧ (∀ o o' e, GetEntity st o = Some e → GetEntity st o' = Some e → o = o')
    ∧ NoDup (e_addr <$> m_entityList st).
Proof.
  intros ext st Hr. pose proof (reachable_well_formed ext st Hr) as Hwf.
  split; [|split].
  - intros o e He. destruct (well_formed_GetEntity st o e Hwf He) as (? & ? & ? & ? & _).
    done.
  - intros o o' e He He'.
    destruct (well_formed_GetEntity st o e Hwf He) as (_ & _ & <- & _).
    by destruct (well_formed_GetEntity st o' e Hwf He') as (_ & _ & <- & _).
  - apply Hwf.
Qed.

(** ** Creation and takeover in a well-formed state *)

Lemma clone_prelude_find_client client st c :
  find_client client (registry st) = Some c →
  ∃ c1, find_client client (registry (clone_prelude client st)) = Some c1
        ∧ c_netId c1 = c_netId c ∧ c_slotId c1 = c_slotId c ∧ c_addr c1 = client
        ∧ c_syncTs c1 = c_syncTs c
        ∧ playerEntity (c_syncData c1) = playerEntity (c_syncData c).
Proof.
  intros Hc. unfold clone_prelude, update_client_data.
  assert (get_client st client = c) as -> by (unfold get_client; by rewrite Hc).
  rewrite find_client_update_client by done.
  destruct (c_timestamp c).
  - rewrite Hc. eexists. split; [reflexivity|]. simpl. repeat split.
    by eapply find_client_addr.
  - rewrite find_client_update_client by done. rewrite Hc.
    eexists. split; [reflexivity|]. simpl. repeat split. by eapply find_client_addr.
Qed.

(** The branch of a [switch] on the type of an entity that has a case for
    players only. *)
Lemma match_Player {X} (T : NetObjEntityType) (A B : X) :
  match T with Player => A | _ => B end = if bool_decide (T = Player) then A else B.
Proof. by destruct T. Qed.

Lemma clone_prelude_fields client st :
  next_addr (clone_prelude client st) = next_addr st
  ∧ events (clone_prelude client st) = events st
  ∧ g_scriptHandlePool (clone_prelude client st) = g_scriptHandlePool st
  ∧ m_frameIndex (clone_prelude client st) = m_frameIndex st.
Proof. unfold clone_prelude. by destruct (c_timestamp _). Qed.

Lemma ProcessClonePacket_create_fresh ext client inPacket out st c :
  well_formed st →
  find_client client (registry st) = Some c →
  GetEntity st (Read 13 inPacket).1 = None →
  let o := (Read 13 inPacket).1 in
  let t := NetObjEntityType_of_wire ext (Read 4 (Read 13 inPacket).2).1 in
  let pool := g_scriptHandlePool st in
  let slot := default (CPool_New ext pool) (find_script_guid pool (MakeEntityHandle 0 o)) in
  let r := ProcessClonePacket ext client inPacket 1 out st in
  r.1.2 = o
  ∧ m_entitiesById r.2 = <[o := next_addr st]> (m_entitiesById st)
  ∧ events r.2 = events st ++ [entityCreated (slot + 0x20000)]
  ∧ Forall (λ c', Bitset.test (pendingRemovals (c_syncData c')) o = false) (registry r.2)
  ∧ ∃ e, find_entity (next_addr st) (m_entityList r.2) = Some e
         ∧ e_client e = Some client ∧ e_type e = t
         ∧ e_handle e = MakeEntityHandle 0 o
         ∧ Bitset.test (ackedCreation e) (c_slotId c) = true
         ∧ Bitset.test (didDeletion e) (c_slotId c) = false
         ∧ deleting e = false
         ∧ e_timestamp e = default 0 (c_syncTs c)
         ∧ guid e = Some slot.
Proof.
  intros Hwf Hc He o t pool slot r. unfold r, slot, pool, o, t, ProcessClonePacket.
  clear r slot pool o t. cbv zeta.
  destruct (Read 13 inPacket) as [objectId p1]. cbn [fst snd] in *.
  change (1 =? 1) with true. cbv iota.
  destruct (Read 4 p1) as [t p2]. cbn [fst snd].
  destruct (Read 12 p2) as [len p3].
  destruct (ReadBits _ p3) as [bitBytes p4].
  change (update_client_data client (set_playerId (Some 0)) _) with (clone_prelude client st).
  rewrite clone_prelude_GetEntity, He. cbn [negb fst].
  destruct (clone_prelude_fields client st) as (Hn & Hev & Hp & _).
  destruct (clone_prelude_entities client st) as [Hl Hm].
  destruct (clone_prelude_find_client client st c Hc) as (c1 & Hc1 & Hnet & Hslot & Haddr & Hts & Hpe).
  assert (get_client st client = c) as Hget by (unfold get_client; by rewrite Hc).
  assert (get_client (clone_prelude client st) client = c1) as Hget1
    by (unfold get_client; by rewrite Hc1).
  remember (clone_prelude client st) as st1.
  assert (find_entity (next_addr st1) (m_entityList st1) = None) as Hfresh.
  { apply find_entity_None. rewrite Hl, Hn. intros Hin.
    apply list_elem_of_fmap in Hin as (e' & He' & Hin).
    destruct Hwf as (Ha & _). rewrite Forall_forall in Ha. specialize (Ha e' Hin). lia. }
  rewrite Hget, Hget1.
  remember (NetObjEntityType_of_wire ext t) as T.
  set (e0 := mkEntity _ _ _ _ _ _ _ _ _ _ _ _ _ _ _).
  change (e_addr e0) with (next_addr st1). change (e_client e0) with (Some client).
  change (e_type e0) with T. change (e_syncTree e0) with (MakeSyncTree ext T).
  change (e_handle e0) with (MakeEntityHandle 0 objectId).
  set (st_c := set_m_entitiesById _ _).
  set (st_a := update_entity (next_addr st1) _ st_c).
  change (lock_client st_a (Some client)) with (find_client client (registry st1)).
  rewrite Hc1.
  change (get_client st_a client) with (get_client st1 client).
  rewrite Hget1, N.eqb_refl. cbn [negb].
  rewrite match_Player.
  set (sg := default (CPool_New ext (g_scriptHandlePool st))
               (find_script_guid (g_scriptHandlePool st) (MakeEntityHandle 0 objectId))).
  set (st_t := update_entity (next_addr st1) (set_e_timestamp (default 0 (c_syncTs c))) st_a).
  set (st_p := match MakeSyncTree ext T with Some _ => _ | None => st_t end).
  assert (script_guid ext (g_scriptHandlePool st1) e0 = sg) as Hsg.
  { unfold script_guid. cbn [guid e0 e_handle]. by rewrite Hp. }
  assert (m_entitiesById st_p = m_entitiesById st_c ∧ events st_p = events st1
          ∧ g_scriptHandlePool st_p = g_scriptHandlePool st1
          ∧ ∃ e, find_entity (next_addr st1) (m_entityList st_p) = Some e
                 ∧ e_client e = Some client ∧ e_type e = T
                 ∧ e_handle e = MakeEntityHandle 0 objectId
                 ∧ Bitset.test (ackedCreation e) (c_slotId c) = true
                 ∧ Bitset.test (didDeletion e) (c_slotId c) = false
                 ∧ deleting e = false
                 ∧ e_timestamp e = default 0 (c_syncTs c)) as (Em & Ee & Ep & e1 & Hf1 & Hfields).
  { assert (find_entity (next_addr st1) (m_entityList st_c) = Some e0) as Hf0.
    { change (m_entityList st_c) with (m_entityList st1 ++ [e0]).
      rewrite find_entity_app, Hfresh. cbn [find_entity e_addr e0]. by rewrite Nat.eqb_refl. }
    unfold st_p. destruct (MakeSyncTree ext T); (split; [done|split; [done|split; [done|]]]).
    all: unfold st_t, st_a; rewrite !find_entity_update by done; rewrite Hf0.
    all: eexists; (split; [reflexivity|]); rewrite <- Hslot; cbn; repeat split.
    all: exact (N.setbit_eq _ (c_slotId c1)). }
  assert (∀ S : ServerGameState,
            m_entitiesById S = m_entitiesById st_c → events S = events st1 →
            m_entityList S
            = map (λ e', if (e_addr e' =? next_addr st1)%nat
                         then set_guid (Some sg) e' else e') (m_entityList st_p) →
            let s' :=
              for_all_clients
                (λ c0, set_c_syncData
                         (set_pendingRemovals
                            (Bitset.reset (pendingRemovals (c_syncData c0)) objectId)
                            (c_syncData c0)) c0)
                (set_events (events S ++ [entityCreated (sg + 0x20000)]) S) in
            m_entitiesById s' = <[objectId := next_addr st]> (m_entitiesById st)
            ∧ events s' = events st ++ [entityCreated (sg + 0x20000)]
            ∧ Forall (λ c', Bitset.test (pendingRemovals (c_syncData c')) objectId = false)
                (registry s')
            ∧ ∃ e, find_entity (next_addr st) (m_entityList s') = Some e
                   ∧ e_client e = Some client ∧ e_type e = T
                   ∧ e_handle e = MakeEntityHandle 0 objectId
                   ∧ Bitset.test (ackedCreation e) (c_slotId c) = true
                   ∧ Bitset.test (didDeletion e) (c_slotId c) = false
                   ∧ deleting e = false
                   ∧ e_timestamp e = default 0 (c_syncTs c)
                   ∧ guid e = Some sg) as Hfin.
  { intros S Es Ev El s'. split; [|split; [|split]].
    - unfold s'. simpl. rewrite Es. simpl. by rewrite Hn, Hm.
    - unfold s'. simpl. by rewrite Ev, Hev.
    - unfold s', for_all_clients. simpl. apply Forall_map, Forall_forall.
      intros c' _. simpl. unfold Bitset.test, Bitset.reset. apply N.clearbit_eq.
    - change (m_entityList s') with (m_entityList S). rewrite El, <- Hn.
      rewrite find_entity_map by (intros en; by destruct (_ =? _)%nat).
      rewrite Hf1. cbn [fmap option_fmap option_map].
      rewrite (find_entity_addr _ _ _ Hf1), Nat.eqb_refl.
      eexists. split; [reflexivity|]. cbn. destruct Hfields as (?&?&?&?&?&?&?).
      repeat split; done. }
  clearbody st_p. clear Hf1 Hfields e1.
  destruct (bool_decide (T = Player)).
  - rewrite MakeScriptHandle_eq. cbv beta iota.
    rewrite MakeScriptHandle_eq. cbv beta iota. cbn [fst snd]. split; [reflexivity|].
    set (st_w := match lock_entity st_p _ with Some _ => st_p | None => _ end).
    assert (m_entitiesById st_w = m_entitiesById st_p ∧ events st_w = events st_p
            ∧ g_scriptHandlePool st_w = g_scriptHandlePool st_p
            ∧ m_entityList st_w = m_entityList st_p) as (W1 & W2 & W3 & W4)
      by (unfold st_w; by destruct (lock_entity _ _)).
    change (g_scriptHandlePool (update_client_data ?a ?f st_w))
      with (g_scriptHandlePool st_w).
    rewrite W3, Ep, Hsg. unfold script_handle.
    change (script_guid ext ?p (set_guid (Some sg) e0)) with sg.
    apply Hfin.
    + etrans; [|exact Em]. etrans; [|exact W1]. reflexivity.
    + etrans; [|exact Ee]. etrans; [|exact W2]. reflexivity.
    + unfold MakeScriptHandle_state.
      cbn [m_entityList set_g_scriptHandlePool set_m_entityList guid set_guid e0
           update_client update_client_data set_registry e_addr g_scriptHandlePool].
      by rewrite W3, Ep, Hsg, W4.
  - rewrite MakeScriptHandle_eq. cbv beta iota. cbn [fst snd]. split; [reflexivity|].
    unfold script_handle. rewrite Ep, Hsg.
    apply Hfin.
    + etrans; [|exact Em]. reflexivity.
    + etrans; [|exact Ee]. reflexivity.
    + unfold MakeScriptHandle_state.
      cbn [m_entityList set_g_scriptHandlePool set_m_entityList guid set_guid e0
           e_addr g_scriptHandlePool].
      by rewrite Ep, Hsg.
Qed.

(** X22: a create record of a registered client for an object id that no
    entity has, in a state whose entities were all allocated before the
    next address, makes an entity that is found under this id from then
    on: it belongs to the sender, has the type of the record and the
    handle made from the id, and its creation counts as acknowledged by
    the sender. Its guid is the last guid of the pool with its handle, or
    else the slot the pool hands out, and [entityCreated] is fired with
    the script handle, 0x20000 above the index of that slot; the id is
    marked used, and no client has a removal of the id pending any
    more. *)
Theorem ProcessCloneCreate_registers :
  ∀ ext client inPacket ackPacket st c,
    well_formed st →
    find_client client (registry st) = Some c →
    let o := (Read 13 inPacket).1 in
    let t := NetObjEntityType_of_wire ext (Read 4 (Read 13 inPacket).2).1 in
    let pool := g_scriptHandlePool st in
    let slot :=
      default (CPool_New ext pool) (find_script_guid pool (MakeEntityHandle 0 o)) in
    GetEntity st o = None →
    let st' := (ProcessCloneCreate ext client inPacket ackPacket st).2 in
    (∃ e, GetEntity st' o = Some e
          ∧ e_client e = Some client ∧ e_type e = t
          ∧ e_handle e = MakeEntityHandle 0 o
          ∧ Bitset.test (ackedCreation e) (c_slotId c) = true
          ∧ Bitset.test (didDeletion e) (c_slotId c) = false
          ∧ deleting e = false
          ∧ e_timestamp e = default 0 (c_syncTs c)
          ∧ guid e = Some slot)
    ∧ events st' = events st ++ [entityCreated (slot + 0x20000)]
    ∧ Bitset.test (m_objectIdsUsed st') o = true
    ∧ Forall (λ c', Bitset.test (pendingRemovals (c_syncData c')) o = false) (registry st').
Proof.
  intros ext client inPacket ackPacket st c Hwf Hc o t pool slot He st'.
  destruct (ProcessClonePacket_create_fresh ext client inPacket 0 st c Hwf Hc He)
    as (Ho & Hm & Hev & Hp & e & Hf & Hfields).
  unfold st'. rewrite ProcessCloneCreate_state. cbn [snd].
  set (r := ProcessClonePacket ext client inPacket 1 0 st) in *.
  fold o in Ho, Hm, Hev, Hp. rewrite Ho.
  split; [|split; [|split]].
  - exists e. split; [|exact Hfields].
    unfold GetEntity. pose proof (Read_objectId_bound inPacket) as Hb. fold o in Hb.
    destruct (MaxObjectId <=? o) eqn:E; [apply N.leb_le in E; lia|].
    change (m_entitiesById (send_frames ?p (set_m_objectIdsUsed ?v ?s)))
      with (m_entitiesById s).
    rewrite Hm, lookup_insert_eq. exact Hf.
  - exact Hev.
  - simpl. unfold Bitset.test, Bitset.set. apply N.setbit_eq.
  - exact Hp.
Qed.



(** ** The gameStateAck handler *)

Lemma Bitset_set_idem b s : Bitset.set (Bitset.set b s) s = Bitset.set b s.
Proof.
  unfold Bitset.set. apply N.bits_inj. intros n. rewrite !N.setbit_eqb.
  by destruct (s =? n).
Qed.

Lemma ack_node_idem slot frameIndex node :
  ack_node slot frameIndex (ack_node slot frameIndex node) = ack_node slot frameIndex node.
Proof.
  unfold ack_node. destruct (node_frameIndex node <=? frameIndex) eqn:E; simpl.
  - by rewrite E, Bitset_set_idem.
  - by rewrite E.
Qed.

Lemma ack_nodes_idem slot frameIndex e :
  ack_nodes slot frameIndex (ack_nodes slot frameIndex e) = ack_nodes slot frameIndex e.
Proof.
  unfold ack_nodes. destruct e as [? ? ? ? ? ? ? [tree|] ? ? ? ? ? ?]; simpl; [|done].
  unfold set_e_syncTree. simpl. do 2 f_equal. unfold Visit. simpl. f_equal.
  rewrite map_map. apply map_ext. intros n. apply ack_node_idem.
Qed.

Lemma set_m_entityList_same st : set_m_entityList (m_entityList st) st = st.
Proof. by destruct st. Qed.

Lemma gameStateAck_entity_map client frameIndex ignoreHandles entityId st :
  let slot := c_slotId (get_client st client) in
  gameStateAck_entity client frameIndex ignoreHandles entityId st
  = set_m_entityList
      (map (λ e, if gameStateAck_accepts st slot ignoreHandles entityId (e_addr e)
                 then ack_nodes slot frameIndex e else e) (m_entityList st)) st.
Proof.
  intros slot. unfold gameStateAck_entity, gameStateAck_accepts. fold slot.
  assert (∀ q : SyncEntityState → bool, (∀ e, q e = false) →
            st = set_m_entityList
                   (map (λ e, if q e then ack_nodes slot frameIndex e else e)
                      (m_entityList st)) st) as Hno.
  { intros q Hq. rewrite <- (set_m_entityList_same st) at 1. f_equal.
    rewrite <- (map_id (m_entityList st)) at 1. apply map_ext. intros e. by rewrite Hq. }
  destruct (GetEntity st entityId) as [eRef|]; [|by apply (Hno (λ _, false))].
  destruct (e_syncTree eRef) as [tree|] eqn:Et.
  - rewrite (bool_decide_eq_true_2 (is_Some (Some tree))) by eauto.
    destruct (Bitset.test (ackedCreation eRef) slot); cbn [negb orb].
    + destruct (Bitset.test (didDeletion eRef) slot); cbn [negb].
      * apply (Hno (λ e, _)). intros e. by rewrite !andb_false_r.
      * destruct (bool_decide (e_handle eRef ∈ ignoreHandles)); cbn [negb].
        -- apply (Hno (λ e, _)). intros e. by rewrite !andb_false_r.
        -- unfold update_entity. f_equal. apply map_ext. intros e.
           by rewrite !andb_true_r.
    + apply (Hno (λ e, _)). intros e. by rewrite !andb_false_r.
  - apply (Hno (λ e, _)). intros e.
    rewrite (bool_decide_eq_false_2 (is_Some None)) by (by intros [? ?]).
    by rewrite andb_false_r.
Qed.

Lemma GetEntity_map g st o :
  (∀ e, e_addr (g e) = e_addr e) →
  GetEntity (set_m_entityList (map g (m_entityList st)) st) o = g <$> GetEntity st o.
Proof.
  intros Hg. unfold GetEntity. destruct (MaxObjectId <=? o); [done|].
  simpl. destruct (m_entitiesById st !! o) as [a|]; [|done]. simpl.
  by apply find_entity_map.
Qed.

Lemma gameStateAck_accepts_map st slot frameIndex ignoreHandles entityId (P : nat → bool) a :
  gameStateAck_accepts
    (set_m_entityList
       (map (λ e, if P (e_addr e) then ack_nodes slot frameIndex e else e)
          (m_entityList st)) st) slot ignoreHandles entityId a
  = gameStateAck_accepts st slot ignoreHandles entityId a.
Proof.
  unfold gameStateAck_accepts.
  rewrite GetEntity_map by (intros e; by destruct (P (e_addr e))).
  destruct (GetEntity st entityId) as [e|]; [|done]. simpl.
  destruct (P (e_addr e)); [|done]. simpl.
  f_equal. f_equal. f_equal. f_equal.
  apply bool_decide_ext. destruct (e_syncTree e); simpl; split; eauto.
Qed.

Lemma gameStateAck_fold client frameIndex ignoreHandles range st (P : nat → bool) :
  let slot := c_slotId (get_client st client) in
  fold_left (λ st p, gameStateAck_entity client frameIndex ignoreHandles p.2 st) range
    (set_m_entityList
       (map (λ e, if P (e_addr e) then ack_nodes slot frameIndex e else e)
          (m_entityList st)) st)
  = set_m_entityList
      (map (λ e, if P (e_addr e)
                    || existsb (λ p : N * N,
                                  gameStateAck_accepts st slot ignoreHandles p.2 (e_addr e))
                         range
                 then ack_nodes slot frameIndex e else e) (m_entityList st)) st.
Proof.
  intros slot. revert P. induction range as [|p range IH]; intros P; cbn [fold_left existsb].
  - f_equal. apply map_ext. intros e. by rewrite orb_false_r.
  - rewrite gameStateAck_entity_map.
    change (get_client (set_m_entityList ?l st) client) with (get_client st client).
    fold slot. cbn [m_entityList set_m_entityList].
    rewrite map_map.
    match goal with |- fold_left ?f range ?s = _ =>
      replace s with
        (set_m_entityList
           (map (λ e, if P (e_addr e)
                         || gameStateAck_accepts st slot ignoreHandles p.2 (e_addr e)
                      then ack_nodes slot frameIndex e else e) (m_entityList st)) st)
    end.
    + rewrite (IH (λ a, P a || gameStateAck_accepts st slot ignoreHandles p.2 a)).
      f_equal. apply map_ext. intros e. by rewrite orb_assoc.
    + unfold set_m_entityList. cbn [convars m_frameIndex m_entitiesById
        m_objectIdsSent m_objectIdsUsed m_objectIdsStolen registry next_addr sent_packets
        events main_thread_queue net_thread_queue]. f_equal.
      fold (set_m_entityList
              (map (λ e, if P (e_addr e) then ack_nodes slot frameIndex e else e)
                 (m_entityList st)) st).
      symmetry. apply map_ext. intros e.
      rewrite gameStateAck_accepts_map.
      assert (e_addr (if P (e_addr e) then ack_nodes slot frameIndex e else e) = e_addr e)
        as -> by (by destruct (P (e_addr e))).
      destruct (P (e_addr e)), (gameStateAck_accepts st slot ignoreHandles p.2 (e_addr e));
        cbn [orb]; try done.
      by rewrite ack_nodes_idem.
Qed.

Lemma existsb_filter_fst (frameIndex : N) (q : N * N → bool) (l : list (N * N)) :
  existsb q (filter (λ p, p.1 = frameIndex) l)
  = existsb (λ p, (p.1 =? frameIndex) && q p) l.
Proof.
  induction l as [|p l IH]; [done|]. rewrite filter_cons. cbn [existsb].
  destruct (decide (p.1 = frameIndex)) as [E|E].
  - cbn [existsb]. rewrite IH. apply N.eqb_eq in E. by rewrite E.
  - rewrite IH. apply N.eqb_neq in E. by rewrite E.
Qed.

Lemma gameStateAck_map :
  ∀ client frameIndex ignoreIds st,
    let slot := c_slotId (get_client st client) in
    gameStateAck client frameIndex ignoreIds st
    = update_client_data client
        (λ d, set_idsForGameState
                (filter (λ p, p.1 ≠ frameIndex) (idsForGameState d)) d)
        (set_m_entityList
           (map (λ e, if gameStateAck_acked st client frameIndex ignoreIds (e_addr e)
                      then ack_nodes slot frameIndex e else e) (m_entityList st)) st).
Proof.
  intros client frameIndex ignoreIds st slot. unfold gameStateAck. cbv zeta. f_equal.
  pose proof (gameStateAck_fold client frameIndex (MakeEntityHandle 0 <$> ignoreIds)
                (filter (λ p, p.1 = frameIndex) (idsForGameState (GetClientData st client)))
                st (λ _, false)) as H.
  cbv zeta in H. fold slot in H.
  etrans; [etrans; [|exact H]|].
  - f_equal. rewrite <- (set_m_entityList_same st) at 1. f_equal.
    rewrite <- (map_id (m_entityList st)) at 1. by apply map_ext.
  - f_equal. apply map_ext. intros e. cbn [orb]. unfold gameStateAck_acked. fold slot.
    rewrite existsb_filter_fst. unfold gameStateAck_accepts. done.
Qed.

(** X24: what [gameStateAck] does, in one step: the entities whose nodes it
    acknowledges are those that an id sent in the acknowledged frame leads
    to, that have a sync tree, that the client has created and not
    deleted, and whose handle is not among the ignored; on these, every
    node not newer than the frame gets the client's slot in
    [ackedPlayers]; the ids of the frame are forgotten; and nothing else
    of the engine changes. *)
Theorem gameStateAck_acknowledges :
  ∀ client frameIndex ignoreIds st,
    let slot := c_slotId (get_client st client) in
    gameStateAck client frameIndex ignoreIds st
    = update_client_data client
        (λ d, set_idsForGameState
                (filter (λ p, p.1 ≠ frameIndex) (idsForGameState d)) d)
        (set_m_entityList
           (map (λ e, if gameStateAck_acked st client frameIndex ignoreIds (e_addr e)
                      then ack_nodes slot frameIndex e else e) (m_entityList st)) st).
Proof. apply gameStateAck_map. Qed.

Lemma GetEntity_find st o e :
  GetEntity st o = Some e → find_entity (e_addr e) (m_entityList st) = Some e.
Proof.
  unfold GetEntity. destruct (MaxObjectId <=? o); [done|].
  destruct (m_entitiesById st !! o) as [a|]; [|done]. simpl. intros H.
  by rewrite (find_entity_addr _ _ _ H).
Qed.

(** X25: in a state where every id leads to an entity whose handle was
    made from it, [gameStateAck] leaves an entity as it is when its object
    id is among the ignored, when the client has not created it, or when
    a deletion is recorded for the client. *)
Theorem gameStateAck_leaves :
  ∀ client frameIndex ignoreIds st o e,
    well_formed st →
    GetEntity st o = Some e →
    let slot := c_slotId (get_client st client) in
    o ∈ ignoreIds ∨ Bitset.test (ackedCreation e) slot = false
    ∨ Bitset.test (didDeletion e) slot = true →
    GetEntity (gameStateAck client frameIndex ignoreIds st) o = Some e.
Proof.
  intros client frameIndex ignoreIds st o e Hwf He slot Hcase.
  destruct (well_formed_GetEntity st o e Hwf He) as (_ & Hh & _).
  rewrite gameStateAck_map.
  match goal with |- GetEntity (update_client_data ?c ?f ?s) ?o = _ =>
    change (GetEntity (update_client_data c f s) o) with (GetEntity s o) end.
  rewrite GetEntity_map
    by (intros e'; by destruct (gameStateAck_acked st client frameIndex ignoreIds (e_addr e'))).
  rewrite He. simpl.
  assert (gameStateAck_acked st client frameIndex ignoreIds (e_addr e) = false) as ->; [|done].
  unfold gameStateAck_acked. fold slot.
  apply not_true_is_false. intros Hex. apply existsb_exists in Hex as (p & _ & Hp).
  apply andb_true_iff in Hp as [_ Hp].
  destruct (GetEntity st p.2) as [e'|] eqn:He'; [|done].
  apply andb_true_iff in Hp as [Hp Hign]. apply andb_true_iff in Hp as [Hp Hdid].
  apply andb_true_iff in Hp as [Hp Hack]. apply andb_true_iff in Hp as [Ha _].
  apply Nat.eqb_eq in Ha.
  assert (e' = e) as ->.
  { apply GetEntity_find in He, He'. rewrite <- Ha in He'. congruence. }
  destruct Hcase as [Hin|[Hno|Hdel]].
  - apply negb_true_iff, bool_decide_eq_false in Hign. apply Hign.
    rewrite Hh. by apply list_elem_of_fmap_2.
  - congruence.
  - rewrite Hdel in Hdid. done.
Qed.

(** ** The removals of a tick *)

Lemma GetDataLength_16 b b' :
  mb_curBit b' = mb_curBit b + 16 → GetDataLength b' = GetDataLength b + 2.
Proof.
  intros H. unfold GetDataLength. rewrite H.
  change 16 with (2 * 8). rewrite N.div_add by done. rewrite N.Div0.mod_add.
  destruct (_ =? 0); lia.
Qed.

Lemma send_frames_nil st : send_frames [] st = st.
Proof. destruct st. unfold send_frames, set_sent_packets. simpl. by rewrite app_nil_r. Qed.

Lemma removal_record_written i b :
  mb_curBit b + 16 ≤ mb_maxBit b →
  let b' := Write 13 i (Write 3 3 b) in
  stream_of b' = stream_of b ++ bits_of 3 3 ++ bits_of 13 i
  ∧ mb_maxBit b' = mb_maxBit b ∧ mb_curBit b' = mb_curBit b + 16.
Proof.
  intros Hfit b'.
  destruct (stream_of_Write 3 3 b) as (H1 & H2 & H3); [lia|].
  destruct (stream_of_Write 13 i (Write 3 3 b)) as (H4 & H5 & H6); [lia|].
  unfold b'. rewrite H4, H1, H5, H2, H6, H3, <- app_assoc. repeat split. lia.
Qed.

Lemma StronglySorted_sublist {A} (R : relation A) (l1 l2 : list A) :
  l1 `sublist_of` l2 → StronglySorted R l2 → StronglySorted R l1.
Proof.
  induction 1 as [|x l1 l2 Hs IH|x l1 l2 Hs IH]; intros H; [done| |].
  - apply StronglySorted_inv in H as [H1 H2]. constructor; [by apply IH|].
    rewrite Forall_forall in H2 |- *. intros y Hy. apply H2. by eapply elem_of_sublist.
  - apply StronglySorted_inv in H as [H1 _]. by apply IH.
Qed.

Lemma removal_fold ext frameIndex client ids cloneBuffer st :
  let pend := filter (λ i, Bitset.test (pendingRemovals (GetClientData st client)) i = true)
                ids in
  mb_curBit cloneBuffer + 16 * N.of_nat (length pend) ≤ mb_maxBit cloneBuffer →
  (∀ k, k ≤ N.of_nat (length pend) →
        LZ4_compressBound ext (GetDataLength cloneBuffer + 2 * k) ≤ 1100) →
  let r := fold_left (removal_step ext frameIndex client) ids (cloneBuffer, st) in
  stream_of r.1 = stream_of cloneBuffer ++ removal_records pend
  ∧ mb_maxBit r.1 = mb_maxBit cloneBuffer
  ∧ r.2 = st.
Proof.
  revert cloneBuffer. induction ids as [|i ids IH]; intros cloneBuffer pend Hfit Hb r.
  - unfold r, pend, removal_records. simpl. by rewrite app_nil_r.
  - unfold r, pend in *. clear r pend. rewrite filter_cons in *. cbn [fold_left removal_step].
    destruct (decide (Bitset.test (pendingRemovals (GetClientData st client)) i = true))
      as [Ht|Ht].
    + rewrite Ht. cbn [length] in Hfit, Hb.
      destruct (removal_record_written i cloneBuffer) as (Hs & Hm & Hc); [lia|].
      set (b1 := Write 13 i (Write 3 3 cloneBuffer)) in *.
      pose proof (GetDataLength_16 cloneBuffer b1 Hc) as Hlen.
      rewrite MaybeFlushBuffer_at_most
        by (rewrite Hlen; specialize (Hb 1 ltac:(lia)); by rewrite N.mul_1_r in Hb).
      rewrite send_frames_nil.
      destruct (IH b1) as (IH1 & IH2 & IH3).
      * rewrite Hc, Hm. lia.
      * intros k Hk. rewrite Hlen.
        specialize (Hb (k + 1) ltac:(lia)).
        by replace (GetDataLength cloneBuffer + 2 + 2 * k)
          with (GetDataLength cloneBuffer + 2 * (k + 1)) by lia.
      * rewrite IH1, IH2, IH3, Hs, Hm. unfold removal_records. cbn [fmap list_fmap concat].
        by rewrite <- !app_assoc.
    + apply not_true_is_false in Ht. rewrite Ht. by apply IH.
Qed.

Lemma object_ids_sorted : StronglySorted N.lt object_ids.
Proof.
  unfold object_ids. generalize (N.to_nat MaxObjectId). intros n.
  generalize 0%nat. induction n as [|n IH]; intros m; simpl; constructor.
  - apply IH.
  - apply Forall_fmap, Forall_forall. intros j Hj. apply elem_of_seq in Hj. simpl. lia.
Qed.

Lemma elem_of_object_ids i : i ∈ object_ids ↔ i < MaxObjectId.
Proof.
  unfold object_ids. rewrite list_elem_of_fmap.
  assert (∀ n : nat, (∃ j, i = N.of_nat j ∧ j ∈ seq 0 n) ↔ (N.to_nat i < n)%nat) as H.
  { intros n. split.
    - intros (j & -> & Hj). apply elem_of_seq in Hj. lia.
    - intros Hlt. exists (N.to_nat i). split; [lia|]. apply elem_of_seq. lia. }
  rewrite H. generalize MaxObjectId. intros m. lia.
Qed.

(** X26: as long as the clone buffer has room and stays below the flush
    threshold, the last command of a tick appends one remove record, tag 3
    and the 13-bit id, for every object id below 8192 whose removal is
    pending for the client, in ascending order of the ids; it sends
    nothing and changes nothing of the engine: the removals stay pending
    and are written again by every tick until the client acknowledges
    them. *)
Theorem removal_command_records :
  ∀ ext frameIndex client cloneBuffer st,
    let pend := pending_ids (pendingRemovals (GetClientData st client)) in
    mb_curBit cloneBuffer + 16 * N.of_nat (length pend) ≤ mb_maxBit cloneBuffer →
    (∀ k, k ≤ N.of_nat (length pend) →
          LZ4_compressBound ext (GetDataLength cloneBuffer + 2 * k) ≤ 1100) →
    let r := removal_command ext frameIndex client cloneBuffer st in
    stream_of r.1 = stream_of cloneBuffer ++ removal_records pend
    ∧ r.2 = st
    ∧ StronglySorted N.lt pend
    ∧ ∀ i, i ∈ pend
           ↔ i < MaxObjectId
             ∧ Bitset.test (pendingRemovals (GetClientData st client)) i = true.
Proof.
  intros ext frameIndex client cloneBuffer st pend. unfold pend, pending_ids. clear pend.
  pose proof object_ids_sorted as Hsorted. pose proof elem_of_object_ids as Helem.
  unfold removal_command. revert Hsorted Helem. generalize object_ids. intros ids Hsorted Helem.
  intros Hfit Hb.
  pose proof (removal_fold ext frameIndex client ids cloneBuffer st) as H.
  cbv zeta in H. destruct (H Hfit Hb) as (H1 & _ & H3).
  split; [exact H1|]. split; [exact H3|]. split.
  - eapply StronglySorted_sublist; [apply sublist_filter|done].
  - intros i. rewrite list_elem_of_filter, Helem. tauto.
Qed.

(** ** The seats of vehicles *)

Lemma UpdateEntities_seat_seated a st :
  Forall seated (m_entityList st) → UpdateEntities_seat a st = st.
Proof.
  intros H. unfold UpdateEntities_seat.
  destruct (find_entity a (m_entityList st)) as [entity|] eqn:Ef; [|done].
  destruct (e_syncTree entity) as [tree|] eqn:Et; [|done].
  destruct (is_ped_or_player (e_type entity)) eqn:Ep; [|done].
  destruct (tree_pedGameState tree) as [vd|] eqn:Ev; [|done].
  rewrite Forall_forall in H.
  destruct (H entity (find_entity_elem _ _ _ Ef) tree vd Et Ep Ev) as [-> ->].
  by rewrite !Z.eqb_refl.
Qed.

Lemma UpdateEntities_seats_seated st :
  Forall seated (m_entityList st) → UpdateEntities_seats st = st.
Proof.
  intros H. unfold UpdateEntities_seats.
  induction (map e_addr (m_entityList st)) as [|a l IH]; simpl; [done|].
  by rewrite UpdateEntities_seat_seated.
Qed.

Lemma seated_keeps g e : keeps_ped g → seated e → seated (g e).
Proof.
  intros Hg He tree vd Ht Hp Hv. destruct (Hg e) as (_ & Hty & Hpd).
  rewrite Ht in Hpd. simpl in Hpd. rewrite Hty in Hp.
  destruct (e_syncTree e) as [tree0|] eqn:E0; [|done]. simpl in Hpd.
  apply (He tree0 vd E0 Hp). congruence.
Qed.

Lemma keeps_ped_clear a seat ped :
  keeps_ped (λ e, if (e_addr e =? a)%nat
                  then set_e_syncTree (clear_seat seat ped <$> e_syncTree e) e else e).
Proof.
  intros e. destruct (e_addr e =? a)%nat; [|done]. simpl. repeat split.
  destruct (e_syncTree e) as [tree|]; [|done]. simpl. f_equal.
  unfold clear_seat. by repeat case_match.
Qed.

Lemma keeps_ped_take a seat ped isPlayer :
  keeps_ped (λ e, if (e_addr e =? a)%nat
                  then set_e_syncTree (take_seat seat ped isPlayer <$> e_syncTree e) e
                  else e).
Proof.
  intros e. destruct (e_addr e =? a)%nat; [|done]. simpl. repeat split.
  destruct (e_syncTree e) as [tree|]; [|done]. simpl. f_equal.
  unfold take_seat. by repeat case_match.
Qed.

Lemma seated_seat_taken e : seated (set_e_syncTree (seat_taken <$> e_syncTree e) e).
Proof.
  intros tree vd Ht _ Hv. simpl in Ht.
  destruct (e_syncTree e) as [tree0|]; [|done]. simpl in Ht. injection Ht as <-.
  simpl in Hv. destruct (tree_pedGameState tree0) as [vd0|]; [|done].
  simpl in Hv. injection Hv as <-. done.
Qed.

Lemma seated_seat_taken_keeps e :
  seated e → seated (set_e_syncTree (seat_taken <$> e_syncTree e) e).
Proof. intros _. apply seated_seat_taken. Qed.

Lemma UpdateEntities_seat_step a st :
  NoDup (e_addr <$> m_entityList st) →
  ∃ g, (∀ e, e_addr (g e) = e_addr e ∧ (seated e → seated (g e))
             ∧ (e ∈ m_entityList st → e_addr e = a → seated (g e)))
       ∧ m_entityList (UpdateEntities_seat a st) = map g (m_entityList st).
Proof.
  intros Hnd.
  assert (∀ e, e ∈ m_entityList st → e_addr e = a →
               find_entity a (m_entityList st) = Some e) as Huniq
    by (intros e He Ha; by apply find_entity_Some).
  assert ((∀ e, e ∈ m_entityList st → e_addr e = a → seated e) →
          ∃ g, (∀ e, e_addr (g e) = e_addr e ∧ (seated e → seated (g e))
                     ∧ (e ∈ m_entityList st → e_addr e = a → seated (g e)))
               ∧ m_entityList st = map g (m_entityList st)) as Hsame.
  { intros Hs. exists id. split; [|by rewrite map_id]. intros e.
    split; [done|]. split; [done|]. exact (Hs e). }
  unfold UpdateEntities_seat.
  destruct (find_entity a (m_entityList st)) as [entity|] eqn:Ef.
  2: { apply Hsame. intros e He Ha. by specialize (Huniq e He Ha). }
  assert (∀ e, e ∈ m_entityList st → e_addr e = a → e = entity) as Hent.
  { intros e He Ha. specialize (Huniq e He Ha). congruence. }
  destruct (e_syncTree entity) as [tree|] eqn:Et.
  2: { apply Hsame. intros e He Ha. rewrite (Hent e He Ha). intros ? ? ?. congruence. }
  destruct (is_ped_or_player (e_type entity)) eqn:Ep.
  2: { apply Hsame. intros e He Ha. rewrite (Hent e He Ha). intros ? ? ? ?. congruence. }
  destruct (tree_pedGameState tree) as [vd|] eqn:Ev.
  2: { apply Hsame. intros e He Ha. rewrite (Hent e He Ha). intros ? ? ? ? ?. congruence. }
  destruct (negb (lastVehicle vd =? curVehicle vd)%Z
            || negb (lastVehicleSeat vd =? curVehicleSeat vd)%Z) eqn:Ec.
  2: { apply Hsame. intros e He Ha. rewrite (Hent e He Ha). intros t' vd' Ht' _ Hv'.
       rewrite Et in Ht'. injection Ht' as <-. rewrite Ev in Hv'. injection Hv' as <-.
       apply orb_false_iff in Ec as [E1 E2].
       apply negb_false_iff, Z.eqb_eq in E1. apply negb_false_iff, Z.eqb_eq in E2. done. }
  cbv zeta.
  set (g1 := match vehicle_of st (lastVehicle vd) with
             | Some lv => λ e, if (e_addr e =? e_addr lv)%nat
                               then set_e_syncTree
                                      (clear_seat (lastVehicleSeat vd)
                                         (objectId_of (e_handle entity)) <$> e_syncTree e) e
                               else e
             | None => id
             end).
  set (g2 := match vehicle_of st (curVehicle vd) with
             | Some cv => λ e, if (e_addr e =? e_addr cv)%nat
                               then set_e_syncTree
                                      (take_seat (curVehicleSeat vd)
                                         (objectId_of (e_handle entity))
                                         (bool_decide (e_type entity = Player))
                                         <$> e_syncTree e) e
                               else e
             | None => id
             end).
  set (g3 := λ e, if (e_addr e =? a)%nat
                  then set_e_syncTree (seat_taken <$> e_syncTree e) e else e).
  assert (keeps_ped g1) as H1.
  { unfold g1. destruct (vehicle_of st (lastVehicle vd)); [apply keeps_ped_clear|done]. }
  assert (keeps_ped g2) as H2.
  { unfold g2. destruct (vehicle_of st (curVehicle vd)); [apply keeps_ped_take|done]. }
  exists (g3 ∘ g2 ∘ g1). split.
  - intros e. simpl.
    assert (e_addr (g2 (g1 e)) = e_addr e) as Ha
      by (destruct (H2 (g1 e)) as [-> _]; by destruct (H1 e) as [-> _]).
    assert (seated e → seated (g2 (g1 e))) as Hs
      by (intros ?; by apply seated_keeps, seated_keeps).
    unfold g3 at 1 2 3. rewrite Ha. split; [|split].
    + by destruct (e_addr e =? a)%nat.
    + intros He. destruct (e_addr e =? a)%nat; [apply seated_seat_taken|by apply Hs].
    + intros _ Hea. apply Nat.eqb_eq in Hea. rewrite Hea. apply seated_seat_taken.
  - unfold g1, g2, g3.
    destruct (vehicle_of st (lastVehicle vd)), (vehicle_of st (curVehicle vd));
      unfold update_entity; cbn [m_entityList set_m_entityList]; rewrite ?map_map;
      apply map_ext; intros e; reflexivity.
Qed.

Lemma UpdateEntities_seat_fold addrs st :
  NoDup (e_addr <$> m_entityList st) →
  ∃ G, (∀ e, e_addr (G e) = e_addr e ∧ (seated e → seated (G e))
             ∧ (e ∈ m_entityList st → e_addr e ∈ addrs → seated (G e)))
       ∧ m_entityList (fold_left (λ st a, UpdateEntities_seat a st) addrs st)
         = map G (m_entityList st).
Proof.
  revert st. induction addrs as [|a addrs IH]; intros st Hnd.
  - exists id. split; [|by rewrite map_id]. intros e.
    split; [done|]. split; [done|]. by intros _ ?%elem_of_nil.
  - destruct (UpdateEntities_seat_step a st Hnd) as (g & Hg & El).
    destruct (IH (UpdateEntities_seat a st)) as (G & HG & EL).
    { rewrite El. change (map g (m_entityList st)) with (g <$> m_entityList st).
      rewrite <- list_fmap_compose.
      erewrite list_fmap_ext; [exact Hnd|]. intros ? e _. simpl. apply Hg. }
    exists (G ∘ g). split.
    + intros e. simpl. destruct (Hg e) as (Ha & Hs & Hat).
      destruct (HG (g e)) as (Ha' & Hs' & Hat'). split; [congruence|]. split; [auto|].
      intros He Hin. apply elem_of_cons in Hin as [Hea|Hin].
      * apply Hs'. by apply Hat.
      * apply Hat'.
        -- rewrite El. by apply (list_elem_of_fmap_2 g).
        -- by rewrite Ha.
    + cbn [fold_left]. rewrite EL, El. by rewrite map_map.
Qed.

(** X27: after the seat pass of [UpdateEntities] every ped that has a ped
    game state has the vehicle and the seat it is in recorded as its last
    ones, so that a second pass without new sync data changes nothing. *)
Theorem UpdateEntities_seats_settles :
  ∀ st,
    NoDup (e_addr <$> m_entityList st) →
    Forall seated (m_entityList (UpdateEntities_seats st))
    ∧ UpdateEntities_seats (UpdateEntities_seats st) = UpdateEntities_seats st.
Proof.
  intros st Hnd.
  assert (Forall seated (m_entityList (UpdateEntities_seats st))) as H.
  { unfold UpdateEntities_seats.
    destruct (UpdateEntities_seat_fold (map e_addr (m_entityList st)) st Hnd)
      as (G & HG & EL).
    rewrite EL. apply Forall_map, Forall_forall. intros e He. simpl.
    apply HG; [done|]. by apply (list_elem_of_fmap_2 e_addr). }
  split; [done|]. by apply UpdateEntities_seats_seated.
Qed.

(** ** A seat taken and given back *)

Lemma Bitset_reset_set b s :
  Bitset.test b s = false → Bitset.reset (Bitset.set b s) s = b.
Proof.
  unfold Bitset.test, Bitset.reset, Bitset.set. intros H.
  apply N.bits_inj. intros n. rewrite N.clearbit_eqb, N.setbit_eqb.
  destruct (s =? n) eqn:E; simpl.
  - apply N.eqb_eq in E. subst n. by rewrite H.
  - by rewrite andb_true_r.
Qed.

Lemma Bitset_reset_clear b s : Bitset.test b s = false → Bitset.reset b s = b.
Proof.
  unfold Bitset.test, Bitset.reset. intros H.
  apply N.bits_inj. intros n. rewrite N.clearbit_eqb.
  destruct (s =? n) eqn:E; simpl.
  - apply N.eqb_eq in E. subst n. by rewrite H, andb_false_r.
  - by rewrite andb_true_r.
Qed.

Lemma occupant_at_insert d seat h b :
  is_Some (occupant_at d seat) →
  occupant_at (mkVehicleData (<[Z.to_nat seat := h]> (occupants d)) b) seat = Some h.
Proof.
  unfold occupant_at. destruct (seat <? 0)%Z; [by intros [? ?]|]. simpl.
  intros [x Hx]. apply list_lookup_insert_eq. by eapply lookup_lt_Some.
Qed.

(** Taking a free seat and giving it up again leaves the tree of the
    vehicle as it was. *)
Lemma clear_seat_take_seat seat h isPlayer vtree d :
  tree_vehicleGameState vtree = Some d →
  occupant_at d seat = Some 0 →
  Bitset.test (playerOccupants d) (Z.to_N seat) = false →
  clear_seat seat h (take_seat seat h isPlayer vtree) = vtree.
Proof.
  intros Hd Ho Hb. unfold take_seat. rewrite Hd, Ho.
  rewrite bool_decide_eq_true_2 by done.
  unfold clear_seat. cbn [tree_vehicleGameState].
  rewrite occupant_at_insert by (rewrite Ho; eauto).
  rewrite bool_decide_eq_true_2 by done. cbn.
  destruct vtree as [nodes pos cam veh ped]. simpl in *. subst veh. f_equal. f_equal.
  destruct d as [occ bits]. simpl in *. f_equal.
  - rewrite list_insert_insert_eq. apply list_insert_id.
    unfold occupant_at in Ho. by destruct (seat <? 0)%Z.
  - destruct isPlayer; [by apply Bitset_reset_set|by apply Bitset_reset_clear].
Qed.

Lemma OnCloneRemove_GetEntity entity doRemove st o :
  GetEntity (OnCloneRemove entity doRemove st) o
  = GetEntity
      (if is_ped_or_player (e_type entity) then
         match e_syncTree entity ≫= tree_pedGameState with
         | Some vehicleData =>
           match vehicle_of st (curVehicle vehicleData) with
           | Some cv =>
             update_entity (e_addr cv)
               (λ e, set_e_syncTree
                       (clear_seat (curVehicleSeat vehicleData)
                          (objectId_of (e_handle entity)) <$> e_syncTree e) e) st
           | None => st
           end
         | None => st
         end
       else st) o.
Proof.
  unfold OnCloneRemove, vehicle_of. cbv zeta.
  change (GetEntity (set_main_thread_queue ?q st)) with (GetEntity st).
  repeat case_match; reflexivity.
Qed.

(** X28: what a ped takes, its removal gives back. A ped or player that
    was in no vehicle and whose ped game state names a free seat of a
    vehicle gets the seat in the seat pass of [UpdateEntities]: the seat
    holds the object id of the ped, and the vehicle counts a player
    occupant there if it is a player. When the ped is then removed,
    [OnCloneRemove] empties the seat again, and the sync tree of the
    vehicle is as it was before the ped got in. *)
Theorem seat_taken_and_given_back :
  ∀ a st ped tree vd veh vtree d doRemove,
    find_entity a (m_entityList st) = Some ped →
    e_syncTree ped = Some tree →
    is_ped_or_player (e_type ped) = true →
    tree_pedGameState tree = Some vd →
    lastVehicle vd = (-1)%Z →
    vehicle_of st (curVehicle vd) = Some veh →
    e_addr veh ≠ a →
    e_syncTree veh = Some vtree →
    tree_vehicleGameState vtree = Some d →
    occupant_at d (curVehicleSeat vd) = Some 0 →
    Bitset.test (playerOccupants d) (Z.to_N (curVehicleSeat vd)) = false →
    let o := Z.to_N (curVehicle vd mod 65536) in
    let st1 := UpdateEntities_seat a st in
    ∃ ped1 veh1 d1,
      find_entity a (m_entityList st1) = Some ped1
      ∧ GetEntity st1 o = Some veh1
      ∧ (e_syncTree veh1 ≫= tree_vehicleGameState) = Some d1
      ∧ occupant_at d1 (curVehicleSeat vd) = Some (objectId_of (e_handle ped))
      ∧ Bitset.test (playerOccupants d1) (Z.to_N (curVehicleSeat vd))
        = bool_decide (e_type ped = Player)
      ∧ e_syncTree <$> GetEntity (OnCloneRemove ped1 doRemove st1) o = Some (Some vtree).
Proof.
  intros a st ped tree vd veh vtree d doRemove Hf Ht Hp Hv Hlast Hcur Hne Hvt Hd Ho Hb o st1.
  assert ((curVehicle vd =? -1)%Z = false) as Hc1.
  { unfold vehicle_of in Hcur. by destruct (curVehicle vd =? -1)%Z. }
  assert (GetEntity st o = Some veh) as Hg.
  { unfold vehicle_of in Hcur. by rewrite Hc1 in Hcur. }
  pose proof (GetEntity_find st o veh Hg) as Hfv.
  set (h := objectId_of (e_handle ped)) in *.
  set (seat := curVehicleSeat vd) in *.
  set (isPlayer := bool_decide (e_type ped = Player)).
  set (st_a := update_entity (e_addr veh)
                 (λ e, set_e_syncTree (take_seat seat h isPlayer <$> e_syncTree e) e) st).
  assert (st1 = update_entity a (λ e, set_e_syncTree (seat_taken <$> e_syncTree e) e) st_a)
    as Hst1.
  { unfold st1, UpdateEntities_seat. rewrite Hf, Ht, Hp, Hv. cbv zeta.
    assert ((lastVehicle vd =? curVehicle vd)%Z = false) as ->.
    { rewrite Hlast. apply Z.eqb_neq. apply Z.eqb_neq in Hc1. congruence. }
    cbn [negb orb]. rewrite Hcur.
    assert (vehicle_of st (lastVehicle vd) = None) as ->
      by (unfold vehicle_of; by rewrite Hlast).
    reflexivity. }
  set (ped1 := set_e_syncTree (Some (seat_taken tree)) ped).
  set (veh1 := set_e_syncTree (Some (take_seat seat h isPlayer vtree)) veh).
  assert (find_entity a (m_entityList st1) = Some ped1) as Hf1.
  { rewrite Hst1, find_entity_update by done. unfold st_a.
    rewrite find_entity_update_other by (done || congruence).
    rewrite Hf. simpl. by rewrite Ht. }
  assert (find_entity (e_addr veh) (m_entityList st1) = Some veh1) as Hfv1.
  { rewrite Hst1, find_entity_update_other by done. unfold st_a.
    rewrite find_entity_update by done. rewrite Hfv. simpl. by rewrite Hvt. }
  assert (∀ s, m_entitiesById s = m_entitiesById st →
               GetEntity s o = find_entity (e_addr veh) (m_entityList s)) as Hby.
  { intros s Hs. unfold GetEntity in *. destruct (MaxObjectId <=? o); [done|].
    rewrite Hs. unfold lock_entity in *.
    destruct (m_entitiesById st !! o) as [b|]; [|done]. simpl in *.
    by rewrite (find_entity_addr _ _ _ Hg). }
  assert (GetEntity st1 o = Some veh1) as Hg1.
  { rewrite Hby; [done|]. by rewrite Hst1. }
  assert (take_seat seat h isPlayer vtree
          = mkSyncTree (tree_nodes vtree) (tree_position vtree) (tree_playerCamera vtree)
              (Some (mkVehicleData (<[Z.to_nat seat := h]> (occupants d))
                       (if isPlayer then Bitset.set (playerOccupants d) (Z.to_N seat)
                        else playerOccupants d)))
              (tree_pedGameState vtree)) as Htake.
  { unfold take_seat. rewrite Hd, Ho. by rewrite bool_decide_eq_true_2. }
  exists ped1, veh1, (mkVehicleData (<[Z.to_nat seat := h]> (occupants d))
                        (if isPlayer then Bitset.set (playerOccupants d) (Z.to_N seat)
                         else playerOccupants d)).
  split; [done|]. split; [done|]. split; [by simpl; rewrite Htake|].
  split; [apply occupant_at_insert; rewrite Ho; eauto|]. split.
  { simpl. destruct isPlayer; [apply N.setbit_eq|done]. }
  rewrite OnCloneRemove_GetEntity.
  change (e_type ped1) with (e_type ped). rewrite Hp.
  assert (e_syncTree ped1 ≫= tree_pedGameState
          = Some (mkPedData (curVehicle vd) seat (curVehicle vd) seat)) as ->
    by (simpl; by rewrite Hv).
  cbn [curVehicle curVehicleSeat].
  assert (vehicle_of st1 (curVehicle vd) = Some veh1) as ->
    by (unfold vehicle_of; by rewrite Hc1).
  change (e_addr veh1) with (e_addr veh). change (e_handle ped1) with (e_handle ped).
  fold h seat.
  rewrite Hby by (by rewrite Hst1).
  rewrite find_entity_update by done. rewrite Hfv1. simpl.
  by rewrite (clear_seat_take_seat seat h isPlayer vtree d Hd Ho Hb).
Qed.

(** ** An accepted sync record *)

Lemma set_guid_same e : set_guid (guid e) e = e.
Proof. by destruct e. Qed.

Lemma ProcessClonePacket_sync_accepted ext client inPacket out st c e owner tree :
  find_client client (registry st) = Some c →
  GetEntity st (Read 13 inPacket).1 = Some e →
  e_syncTree e = Some tree →
  lock_client st (e_client e) = Some owner →
  c_netId owner = c_netId c →
  let o := (Read 13 inPacket).1 in
  let pool := g_scriptHandlePool st in
  let r := ProcessClonePacket ext client inPacket 2 out st in
  r.1.2 = o
  ∧ GetEntity r.2 o
    = Some (set_guid
              (if bool_decide (e_type e = Player) then Some (script_guid ext pool e)
               else guid e)
              (synced ext (c_slotId c) (default 0 (c_syncTs c)) (m_frameIndex st)
                 (sync_payload inPacket) e))
  ∧ m_entitiesById r.2 = m_entitiesById st
  ∧ length (m_entityList r.2) = length (m_entityList st)
  ∧ events r.2 = events st
  ∧ (e_type e = Player →
     playerEntity (GetClientData r.2 client) = Some (e_addr e)
     ∧ c_playerEntity (get_client r.2 client) = Some (script_handle ext pool e)).
Proof.
  intros Hc He Ht Ho Hn o pool r. unfold r, pool, o, sync_payload, ProcessClonePacket.
  clear r pool o. cbv zeta.
  destruct (Read 13 inPacket) as [objectId p1]. cbn [fst snd] in *.
  change (2 =? 1) with false. cbv iota.
  destruct (Read 12 p1) as [len p3]. cbn [fst snd].
  destruct (ReadBits _ p3) as [bitBytes p4]. cbn [fst snd].
  change (update_client_data client (set_playerId (Some 0)) _) with (clone_prelude client st).
  pose proof (clone_prelude_identities client st) as [I1 I2 I3 I4].
  rewrite clone_prelude_GetEntity, He.
  rewrite bool_decide_eq_true_2 by (apply I1; rewrite Ho; eauto).
  destruct (clone_prelude_find_client client st c Hc)
    as (c1 & Hc1 & Hnet & Hslot & Haddr & Hts & Hpe).
  assert (get_client st client = c) as Hget by (unfold get_client; by rewrite Hc).
  assert (get_client (clone_prelude client st) client = c1) as Hget1
    by (unfold get_client; by rewrite Hc1).
  destruct (clone_prelude_fields client st) as (_ & Hev & Hp & Hfr).
  destruct (clone_prelude_entities client st) as [Hl Hm].
  assert (GetEntity (clone_prelude client st) objectId = Some e) as He1
    by (by rewrite clone_prelude_GetEntity).
  specialize (I2 (e_client e)). rewrite Ho in I2. simpl in I2.
  rewrite Hget, Hget1.
  remember (clone_prelude client st) as st1.
  change (lock_client (update_entity ?a ?f ?s) ?w) with (lock_client s w).
  change (get_client (update_entity ?a ?f ?s) ?w) with (get_client s w).
  destruct (lock_client st1 (e_client e)) as [ec|]; [|done].
  simpl in I2. injection I2 as I2. rewrite Hget1, I2, Hn, Hnet, N.eqb_refl. cbn [negb].
  rewrite Ht, match_Player.
  pose proof (GetEntity_find st1 objectId e He1) as Hfe.
  set (e_s := synced ext (c_slotId c) (default 0 (c_syncTs c)) (m_frameIndex st) bitBytes e).
  set (st_p := update_entity (e_addr e) _ (update_entity (e_addr e) _ (update_entity _ _ st1))).
  assert (find_entity (e_addr e) (m_entityList st_p) = Some e_s) as Hfp.
  { unfold st_p. rewrite !find_entity_update by done. rewrite Hfe. simpl.
    unfold e_s, synced. rewrite Hslot, Ht. simpl. by rewrite Hfr. }
  assert (∀ s g, m_entitiesById s = m_entitiesById st1 →
                 find_entity (e_addr e) (m_entityList s) = Some (set_guid g e_s) →
                 GetEntity s objectId = Some (set_guid g e_s)) as Hget_s.
  { intros s g Es El. unfold GetEntity in *. destruct (MaxObjectId <=? objectId); [done|].
    unfold lock_entity in *. rewrite Es.
    destruct (m_entitiesById st1 !! objectId) as [b|]; [|done].
    cbn [mbind option_bind] in He1 |- *.
    by rewrite <- (find_entity_addr _ _ _ He1). }
  assert (length (m_entityList st_p) = length (m_entityList st)) as Hlen.
  { unfold st_p, update_entity. cbn [m_entityList set_m_entityList]. by rewrite !length_map, Hl. }
  assert (m_entitiesById st_p = m_entitiesById st1 ∧ events st_p = events st1
          ∧ g_scriptHandlePool st_p = g_scriptHandlePool st1
          ∧ registry st_p = registry st1) as (Pm & Pe & Pp & Pr) by done.
  clearbody st_p.
  case_bool_decide as Ety.
  - rewrite MakeScriptHandle_eq. cbv beta iota. cbn [fst snd].
    set (st_w := match lock_entity st_p _ with Some _ => st_p | None => _ end).
    assert (m_entitiesById st_w = m_entitiesById st_p ∧ events st_w = events st_p
            ∧ g_scriptHandlePool st_w = g_scriptHandlePool st_p
            ∧ m_entityList st_w = m_entityList st_p
            ∧ registry st_w = registry st_p) as (W1 & W2 & W3 & W4 & W5)
      by (unfold st_w; by destruct (lock_entity _ _)).
    change (g_scriptHandlePool (update_client_data ?a ?f st_w))
      with (g_scriptHandlePool st_w).
    rewrite W3, Pp, Hp. clearbody st_w.
    split; [reflexivity|]. split; [|split; [|split; [|split]]].
    + apply Hget_s; [etrans; [|exact Pm]; etrans; [|exact W1]; reflexivity|].
      unfold MakeScriptHandle_state.
      cbn [m_entityList set_g_scriptHandlePool set_m_entityList update_client
           update_client_data set_registry g_scriptHandlePool].
      rewrite W3, Pp, Hp, W4. unfold script_guid.
      destruct (guid e) as [g|] eqn:Eg.
      * rewrite Hfp. f_equal. symmetry. etrans; [|apply (set_guid_same e_s)].
        f_equal. by rewrite <- Eg.
      * rewrite find_entity_map by (intros en; by destruct (_ =? _)%nat).
        rewrite Hfp. cbn [fmap option_fmap option_map].
        change (e_addr e_s) with (e_addr e). by rewrite Nat.eqb_refl.
    + etrans; [|exact Hm]. etrans; [|exact Pm]. etrans; [|exact W1]. reflexivity.
    + unfold MakeScriptHandle_state.
      cbn [m_entityList set_g_scriptHandlePool set_m_entityList update_client
           update_client_data set_registry g_scriptHandlePool].
      rewrite W4. destruct (guid e); by rewrite ?length_map.
    + etrans; [|exact Hev]. etrans; [|exact Pe]. etrans; [|exact W2]. reflexivity.
    + intros _.
      assert (find_client client (registry st_w) = Some c1) as Hc2 by (by rewrite W5, Pr).
      unfold GetClientData, get_client.
      rewrite find_client_update_client by done.
      change (registry (MakeScriptHandle_state ?x ?y ?s)) with (registry s).
      unfold update_client_data. rewrite find_client_update_client by done.
      rewrite Hc2. done.
  - cbn [fst snd]. split; [reflexivity|]. split; [|split; [|split; [|split]]].
    + apply Hget_s; [done|]. change (guid e) with (guid e_s).
      by rewrite Hfp, (set_guid_same e_s).
    + by rewrite Pm.
    + done.
    + by rewrite Pe.
    + done.
Qed.

(** X29: a sync record of a registered client for an entity it owns is
    taken: the entity found under the object id is from then on the same
    entity with its sync tree parsed from the payload of the record at the
    frame of the state, the timestamp of the sender's packet, creation
    acknowledged and deletion not done for the sender's slot and no resend
    on record; no entity appears or goes, nothing is fired, and the
    acknowledgement written is a sync-ack of this object id. A player
    entity becomes the player entity of the sender: it gets a guid of the
    script-GUID pool if it has none, and the sender's ["playerEntity"] is
    its script handle. *)
Theorem ProcessCloneSync_accepted :
  ∀ ext client inPacket ackPacket st c e owner tree,
    find_client client (registry st) = Some c →
    GetEntity st (Read 13 inPacket).1 = Some e →
    e_syncTree e = Some tree →
    lock_client st (e_client e) = Some owner →
    c_netId owner = c_netId c →
    let o := (Read 13 inPacket).1 in
    let pool := g_scriptHandlePool st in
    let r := ProcessCloneSync ext client inPacket ackPacket st in
    GetEntity r.2 o
    = Some (set_guid
              (if bool_decide (e_type e = Player) then Some (script_guid ext pool e)
               else guid e)
              (synced ext (c_slotId c) (default 0 (c_syncTs c)) (m_frameIndex st)
                 (sync_payload inPacket) e))
    ∧ m_entitiesById r.2 = m_entitiesById st
    ∧ length (m_entityList r.2) = length (m_entityList st)
    ∧ events r.2 = events st
    ∧ (e_type e = Player →
       playerEntity (GetClientData r.2 client) = Some (e_addr e)
       ∧ c_playerEntity (get_client r.2 client) = Some (script_handle ext pool e))
    ∧ r.1.2 = (MaybeFlushBuffer (LZ4_compressBound ext) (Write 13 o (Write 3 2 ackPacket))
                 msgPackedAcks 0 client).1.
Proof.
  intros ext client inPacket ackPacket st c e owner tree Hc He Ht Ho Hn o pool r.
  destruct (ProcessClonePacket_sync_accepted ext client inPacket 0 st c e owner tree
              Hc He Ht Ho Hn) as (Hid & Hg & Hm & Hl & Hev & Hp).
  unfold r. rewrite ProcessCloneSync_state. cbn [fst snd].
  fold o in Hid, Hg. rewrite Hid.
  set (p := ProcessClonePacket ext client inPacket 2 0 st) in *.
  repeat split; try done; by apply Hp.
Qed.

(** ** The properties at work *)

Lemma lobby_state_reachable : reachable demo_ext lobby_state.
Proof.
  eapply reachable_step; [apply (reachable_new demo_ext demo_convars)|].
  apply (step_registry demo_ext [demo_client 1 1 0]).
Qed.


Lemma session_state_well_formed cx : well_formed (session_state cx).
Proof.
  split; [|split].
  - repeat constructor; simpl; lia.
  - apply (bool_decide_unpack _). by vm_compute.
  - apply map_Forall_insert_2; [|apply map_Forall_insert_2; [|apply map_Forall_empty]].
    + split; [done|]. split; [simpl; lia|]. by intros e [= <-].
    + split; [done|]. split; [simpl; lia|]. by intros e [= <-].
Qed.

Lemma acked_state_well_formed : well_formed acked_state.
Proof.
  unfold acked_state, acknowledge. apply wf_keep_client_data.
  do 2 (apply well_formed_update; [by intros e|]). apply session_state_well_formed.
Qed.

Lemma SendObjectIds_lowest_first_witness :
  length (gather_ids 3 1 1 (session_state 201)).1 = 3%nat
  ∧ Forall (λ i, i < 4) (gather_ids 3 1 1 (session_state 201)).1.
Proof.
  apply (SendObjectIds_lowest_first 1 3 (session_state 201) 4).
  - unfold MaxObjectId. lia.
  - split; by vm_compute.
Defined.

Lemma SendObjectIds_objectIds_witness :
  objectIds (GetClientData (SendObjectIds 1 2 (session_state 201)) 1)
  = list_to_set (gather_ids 2 1 1 (session_state 201)).1 ∪ ∅.
Proof.
  pose proof (SendObjectIds_objectIds 1 2 (session_state 201) (demo_client 1 1 0) eq_refl)
    as [H _].
  exact H.
Defined.

Lemma RemoveClone_marks_deleting_witness :
  let st' := RemoveClone 1 5 (session_state 201) in
  deleting <$> lock_entity st' (m_entitiesById st' !! 5) = Some true
  ∧ main_thread_queue st' = [(10%nat, 5)].
Proof.
  pose proof (RemoveClone_marks_deleting 1 5 (session_state 201)
                (demo_entity 10 1 Object 5 (1, 0, 0)%Q)) as H.
  destruct H as (H1 & H2 & _).
  - by vm_compute.
  - reflexivity.
  - split; [exact H1|exact H2].
Defined.

Lemma RemoveClone_completes_witness :
  let st' := run_net_thread_callback
               (run_main_thread_callback demo_ext (RemoveClone 1 5 (session_state 201))) in
  events st' = [entityRemoved 0x20000] ∧ GetEntity st' 5 = None.
Proof.
  pose proof (RemoveClone_completes demo_ext 1 5 (session_state 201)
                (demo_entity 10 1 Object 5 (1, 0, 0)%Q)) as H.
  destruct H as (H1 & H2 & _).
  - by vm_compute.
  - reflexivity.
  - reflexivity.
  - reflexivity.
  - split; [exact H1|exact H2].
Defined.


Lemma ProcessCloneTakeover_refused_witness :
  (ProcessCloneTakeover 2 (MessageBuffer_of_bits (bits_of 16 0 ++ bits_of 13 5))
     (session_state 201)).2 = session_state 201.
Proof.
  apply (ProcessCloneTakeover_refused 2 (MessageBuffer_of_bits (bits_of 16 0 ++ bits_of 13 5))
           (session_state 201) (demo_entity 10 1 Object 5 (1, 0, 0)%Q)).
  - by vm_compute.
  - left. exists (demo_client 1 1 0). split; [by vm_compute|]. left. by vm_compute.
Defined.

Lemma ProcessCloneRemove_acknowledges_witness :
  let r := ProcessCloneRemove demo_ext 2 (MessageBuffer_of_bits (bits_of 13 5))
             (MessageBuffer_new 16384) (session_state 201) in
  stream_of r.1.2 = bits_of 3 3 ++ bits_of 13 5
  ∧ r.2 = send_frames [] (session_state 201).
Proof.
  pose proof (ProcessCloneRemove_acknowledges demo_ext 2
                (MessageBuffer_of_bits (bits_of 13 5))
                (MessageBuffer_new 16384) (session_state 201)) as H.
  cbv zeta in H. destruct H as (_ & H1 & H2 & _). split.
  - rewrite H1. by vm_compute.
  - rewrite (H2 (demo_entity 10 1 Object 5 (1, 0, 0)%Q) (demo_client 1 1 0));
      [reflexivity|by vm_compute..].
Defined.

Lemma timestamp_record_monotone_witness :
  c_ackTs (get_client
             (ParseClonePacket_record demo_ext 1
                (MessageBuffer_of_bits (bits_of 3 5 ++ bits_of 32 1234))
                (MessageBuffer_new 16384) lobby_state).2 1) = Some 1234.
Proof.
  pose proof (timestamp_record_monotone demo_ext 1
                (MessageBuffer_of_bits (bits_of 3 5 ++ bits_of 32 1234))
                (MessageBuffer_new 16384) lobby_state (demo_client 1 1 0)) as H.
  destruct H as (H1 & _).
  - by vm_compute.
  - reflexivity.
  - exact H1.
Defined.

Lemma ParseClonePacket_end_tag_witness :
  sent_packets (ParseClonePacket demo_ext 1 (bits_of 3 7) lobby_state) = []
  ∧ events (ParseClonePacket demo_ext 1 (bits_of 3 7) lobby_state) = [].
Proof.
  pose proof (ParseClonePacket_end_tag demo_ext 1 (bits_of 3 7) lobby_state
                (demo_client 1 1 0)) as H.
  destruct H as (_ & _ & _ & _ & H1 & H2 & _).
  - reflexivity.
  - right. vm_compute. intros [_ H]. by apply H.
  - split; [exact H1|exact H2].
Defined.

Lemma ParseAckPacket_record_remove_ack_witness :
  (ParseAckPacket_record 1 (MessageBuffer_of_bits (bits_of 3 3 ++ bits_of 13 7))
     ack_state).1.1 = false.
Proof.
  pose proof (ParseAckPacket_record_remove_ack 1
                (MessageBuffer_of_bits (bits_of 3 3 ++ bits_of 13 7)) ack_state) as H.
  destruct H as (_ & _ & _ & H).
  - by vm_compute.
  - exact H.
Defined.

Lemma objectId_of_MakeEntityHandle_witness :
  objectId_of (MakeEntityHandle 0 8191) = 8191.
Proof. apply (objectId_of_MakeEntityHandle 0 8191). lia. Defined.

Lemma Tick_entity_command_witness :
  c_slotId (get_client (session_state 201) 2) ≠ NoSlot
  ∧ ∃ entity, find_entity 20 (m_entityList (session_state 201)) = Some entity
              ∧ cmd_syncType (mkSyncCommand 20 2 1 1000)
                = (if Bitset.test (ackedCreation entity) 1
                      && negb (Bitset.test (didDeletion entity) 1) then 2 else 1).
Proof.
  pose proof (Tick_entity_command demo_ext 1000 10 2 20 (201, 0, 0)%Q (Some 2%nat)
                (session_state 201) true (mkSyncCommand 20 2 1 1000) (session_state 201)) as H.
  destruct H as (_ & _ & H1 & _ & _ & entity & H2 & H3 & _).
  - by vm_compute.
  - split; [exact H1|]. exists entity. split; [exact H2|exact H3].
Defined.

Lemma HandleClientDrop_forgets_client_witness :
  let st' := HandleClientDrop 1 (session_state 201) in
  (∀ id, id ∈ objectIds (GetClientData st' 1) → Bitset.test (m_objectIdsSent st') id = false)
  ∧ (c_slotId (get_client (session_state 201) 1) ≠ NoSlot →
     ∀ e tree, e ∈ m_entityList st' → e_syncTree e = Some tree →
       Bitset.test (ackedCreation e) (c_slotId (get_client (session_state 201) 1)) = false
       ∧ Forall (λ node, Bitset.test (ackedPlayers node)
                           (c_slotId (get_client (session_state 201) 1)) = false)
           (tree_nodes tree)).
Proof. exact (HandleClientDrop_forgets_client 1 (session_state 201) eq_refl). Defined.

Lemma Tick_entity_cull_witness :
  let r := Tick_entity demo_ext 1000 10 2 10 (1, 0, 0)%Q (Some 1%nat) far_state in
  r.1 = (true, None)
  ∧ find_entity 10 (m_entityList r.2) = Some (culled 1 far_entity)
  ∧ Tick_entity demo_ext 1000 10 2 10 (1, 0, 0)%Q (Some 1%nat) r.2 = (true, None, r.2).
Proof.
  pose proof (Tick_entity_cull demo_ext 1000 10 2 10 (1, 0, 0)%Q (Some 1%nat) far_state
                far_entity (demo_client 1 1 0)
                (set_c_syncData (set_playerEntity (Some 20%nat) GameStateClientData_new)
                   (demo_client 2 2 1))) as H.
  destruct H as (H1 & H2 & _ & _ & _ & H3).
  - by vm_compute.
  - by vm_compute.
  - by vm_compute.
  - by vm_compute.
  - by vm_compute.
  - split; [exact H1|]. split; [exact H2|exact H3].
Defined.

Lemma reachable_GetEntity_handle_witness :
  (∀ o e, GetEntity ticked_state o = Some e →
     o < MaxObjectId ∧ e_handle e = MakeEntityHandle 0 o
     ∧ objectId_of (e_handle e) = o ∧ e ∈ m_entityList ticked_state)
  ∧ NoDup (e_addr <$> m_entityList ticked_state).
Proof.
  pose proof (reachable_GetEntity_handle demo_ext ticked_state ticked_state_reachable)
    as (H1 & _ & H2).
  split; [exact H1|exact H2].
Defined.

Lemma ProcessCloneCreate_registers_witness :
  let st' := (ProcessCloneCreate demo_ext 1 (MessageBuffer_of_bits (create_record 5 6))
                (MessageBuffer_new 16384) lobby_state).2 in
  events st' = [entityCreated 0x20000]
  ∧ Bitset.test (m_objectIdsUsed st') 5 = true.
Proof.
  pose proof (ProcessCloneCreate_registers demo_ext 1
                (MessageBuffer_of_bits (create_record 5 6)) (MessageBuffer_new 16384)
                lobby_state (demo_client 1 1 0)
                (reachable_well_formed demo_ext _ lobby_state_reachable)) as H.
  destruct H as (_ & H1 & H2 & _).
  - reflexivity.
  - by vm_compute.
  - split; [exact H1|exact H2].
Defined.


(** C acknowledges frame 7, in which objects 5 and 6 were sent to it, and
    asks to ignore 5: the nodes of 6 are acknowledged, 5 is left as it
    is. *)
Lemma gameStateAck_leaves_witness :
  let st' := gameStateAck 2 7 [5] acked_state in
  GetEntity st' 5 = Some far_entity
  ∧ GetEntity st' 6 ≠ GetEntity acked_state 6.
Proof.
  split.
  - apply (gameStateAck_leaves 2 7 [5] acked_state 5 far_entity acked_state_well_formed).
    + by vm_compute.
    + left. apply list_elem_of_here.
  - by vm_compute.
Defined.

Lemma removal_command_records_witness :
  (removal_command demo_ext 7 1 (MessageBuffer_new 16384) ack_state).2 = ack_state.
Proof.
  assert (length (pending_ids (pendingRemovals (GetClientData ack_state 1))) = 2%nat) as Hl
    by (by vm_compute).
  pose proof (removal_command_records demo_ext 7 1 (MessageBuffer_new 16384) ack_state) as H.
  cbv zeta in H. rewrite Hl in H. destruct H as (_ & H & _).
  - by vm_compute.
  - intros k Hk. change (LZ4_compressBound demo_ext) with lz4_compressBound.
    assert (k = 0 ∨ k = 1 ∨ k = 2) as Hk3 by lia.
    destruct Hk3 as [Hk3|[Hk3|Hk3]]; subst k; by vm_compute.
  - exact H.
Defined.

Lemma UpdateEntities_seats_settles_witness :
  UpdateEntities_seats (UpdateEntities_seats seat_state) = UpdateEntities_seats seat_state.
Proof.
  pose proof (UpdateEntities_seats_settles seat_state) as H.
  destruct H as (_ & H).
  - apply (bool_decide_unpack _). by vm_compute.
  - exact H.
Defined.

(** The seat pass at work: the player of [seat_state] gets seat 1 of the
    car, which then has a player in it. *)
Example UpdateEntities_seats_seat_state :
  (e_syncTree <$> GetEntity (UpdateEntities_seats seat_state) 5)
  = Some (Some (mkSyncTree [mkNodeBase 0 Bitset.empty] (1, 0, 0)%Q None
                  (Some (mkVehicleData [0; 6] (Bitset.set Bitset.empty 1))) None)).
Proof. by vm_compute. Qed.

Lemma seat_taken_and_given_back_witness :
  let st1 := UpdateEntities_seat 20 seat_state in
  (find_entity 20 (m_entityList st1)
     ≫= λ ped1, e_syncTree <$> GetEntity (OnCloneRemove ped1 6 st1) 5)
  = e_syncTree <$> GetEntity seat_state 5.
Proof.
  pose proof (seat_taken_and_given_back 20 seat_state) as H.
  edestruct H as (ped1 & veh1 & d1 & H1 & _ & _ & _ & _ & H6);
    [by vm_compute | reflexivity | reflexivity | reflexivity | reflexivity
    | by vm_compute | by vm_compute | reflexivity | reflexivity | reflexivity
    | reflexivity | ].
  cbv zeta. rewrite H1. exact H6.
Defined.

Lemma ProcessCloneSync_accepted_witness :
  let r := ProcessCloneSync demo_ext 2 (MessageBuffer_of_bits (sync_record 6))
             (MessageBuffer_new 16384) (session_state 0) in
  GetEntity r.2 6
  = Some (set_guid (Some 0)
            (synced demo_ext 1 0 7 [] (demo_entity 20 2 Player 6 (0, 0, 0)%Q)))
  ∧ playerEntity (GetClientData r.2 2) = Some 20%nat
  ∧ c_playerEntity (get_client r.2 2) = Some 0x20000.
Proof.
  pose proof (ProcessCloneSync_accepted demo_ext 2 (MessageBuffer_of_bits (sync_record 6))
                (MessageBuffer_new 16384) (session_state 0)
                (set_c_syncData (set_playerEntity (Some 20%nat) GameStateClientData_new)
                   (demo_client 2 2 1))
                (demo_entity 20 2 Player 6 (0, 0, 0)%Q)
                (set_c_syncData (set_playerEntity (Some 20%nat) GameStateClientData_new)
                   (demo_client 2 2 1))
                (demo_tree (0, 0, 0)%Q)) as H.
  destruct H as (H1 & _ & _ & _ & H2 & _).
  - by vm_compute.
  - by vm_compute.
  - reflexivity.
  - by vm_compute.
  - reflexivity.
  - split; [exact H1|exact (H2 eq_refl)].
Defined.
